(** * Ant locomotion environments (maml_rl/envs/mujoco/ant.py)

    A shallow embedding of the three task variants of the MuJoCo ant
    ([AntVelEnv], [AntDirEnv], [AntPosEnv]) and of their common base class
    [AntEnv].

    - NumPy [float64] values are IEEE-754 binary64 numbers, taken from the
      Standard Library's [SpecFloat] with [prec = 53] and [emax = 1024];
      [float32] values are the same datatype restricted to [prec = 24],
      [emax = 128].
    - Python objects that are passed around by reference (the task
      dictionaries) live in an explicit heap; arrays are never updated in
      place by this code and are kept as values.
    - Methods are computations in a state-and-exception monad: a raised
      Python exception keeps the state reached so far.
    - The physics engine ([mujoco_env.MujocoEnv]), the random generator
      ([np_random]) and NumPy's summation are interfaces. *)

From Stdlib Require Import ZArith Bool List Lia.
From Stdlib Require Import Floats.SpecFloat.
From stdpp Require Import base option list gmap strings.

Local Open Scope Z_scope.

(* ================================================================== *)
(** ** IEEE-754 binary64 *)
(* ================================================================== *)

Abbreviation float64 := spec_float (only parsing).

Module F64.

Definition prec : Z := 53.
Definition emax : Z := 1024.

Definition add : float64 → float64 → float64 := SFadd prec emax.
Definition sub : float64 → float64 → float64 := SFsub prec emax.
Definition mul : float64 → float64 → float64 := SFmul prec emax.
Definition div : float64 → float64 → float64 := SFdiv prec emax.
Definition neg : float64 → float64 := SFopp.
Definition abs : float64 → float64 := SFabs.

(** Python's [==], [<], [<=], [>], [>=] on floats: false on NaN. *)
Definition eqb : float64 → float64 → bool := SFeqb.
Definition ltb : float64 → float64 → bool := SFltb.
Definition leb : float64 → float64 → bool := SFleb.
Definition gtb (x y : float64) : bool := SFltb y x.
Definition geb (x y : float64) : bool := SFleb y x.

Definition is_nan (x : float64) : bool :=
  match x with S754_nan => true | _ => false end.

Definition is_finite (x : float64) : bool :=
  match x with
  | S754_zero _ | S754_finite _ _ _ => true
  | S754_infinity _ | S754_nan => false
  end.

(** Conversion of a machine integer to [float64] (round to nearest). *)
Definition of_int (z : Z) : float64 := binary_normalize prec emax z 0 false.

(** [astype(np.float32)] on one component: rounding to binary32. *)
Definition to_float32 (x : float64) : float64 :=
  match x with
  | S754_finite s m e => binary_normalize 24 128 (cond_Zopp s (Zpos m)) e s
  | _ => x
  end.

(** The literals of the source, as the binary64 numbers Python reads. *)
Definition zero : float64 := S754_zero false.
Definition one : float64 := S754_finite false 4503599627370496 (-52).
Definition minus_one : float64 := S754_finite true 4503599627370496 (-52).
Definition c_0_5 : float64 := S754_finite false 4503599627370496 (-53).
Definition c_1e_2 : float64 := S754_finite false 5764607523034235 (-59).
Definition c_1e_3 : float64 := S754_finite false 4611686018427388 (-62).
Definition c_0_05 : float64 := S754_finite false 7205759403792794 (-57).
Definition c_0_2 : float64 := S754_finite false 7205759403792794 (-55).
Definition c_3_0 : float64 := S754_finite false 6755399441055744 (-51).
Definition minus_3_0 : float64 := S754_finite true 6755399441055744 (-51).
Definition c_4_0 : float64 := S754_finite false 4503599627370496 (-50).
(** Test values of the specification. *)
Definition c_0_19 : float64 := S754_finite false 6845471433603154 (-55).
Definition c_0_1 : float64 := S754_finite false 7205759403792794 (-56).
Definition c_2_0 : float64 := S754_finite false 4503599627370496 (-51).
Definition inf : float64 := S754_infinity false.
Definition nan : float64 := S754_nan.

(** Finite numbers are kept in canonical form: 53 digits, or fewer at
    the least exponent. *)
Definition valid (x : float64) : bool := valid_binary prec emax x.

(** [x] is a valid binary64 number within half a unit in the last place
    of the fraction [num / den]: the number a decimal literal reads as. *)
Definition reads_as (num den : Z) (x : float64) : bool :=
  valid x &&
  match x with
  | S754_finite s m e =>
      (e <=? 0) &&
      (Z.abs (cond_Zopp s (Zpos m) * den - num * 2 ^ (- e)) * 2 <=? den)
  | _ => false
  end.

End F64.

(* ================================================================== *)
(** ** Exceptions and the state-and-exception monad *)
(* ================================================================== *)

Inductive exn : Type :=
| IndexError
| KeyError
| ValueError
| EngineError      (* raised by the physics engine *)
| Dangling.        (* a reference to no object: not reachable from Python *)

Inductive Res (A : Type) : Type :=
| Ok (a : A)
| Raise (e : exn).
Arguments Ok {A} a.
Arguments Raise {A} e.

Definition M (St A : Type) : Type := St → Res A * St.

#[global] Instance M_ret {St} : MRet (M St) :=
  λ A a s, (Ok a, s).

#[global] Instance M_bind {St} : MBind (M St) :=
  λ A B k m s,
    match m s with
    | (Ok a, s') => k a s'
    | (Raise e, s') => (Raise e, s')
    end.

Definition get {St} : M St St := λ s, (Ok s, s).
Definition gets {St A} (f : St → A) : M St A := λ s, (Ok (f s), s).
Definition modify {St} (f : St → St) : M St unit := λ s, (Ok tt, f s).
Definition lift_res {St A} (r : Res A) : M St A := λ s, (r, s).

(** Run a computation of a component of the state inside the whole. *)
Definition zoom {St T A} (proj : St → T) (upd : T → St → St)
    (m : M T A) : M St A :=
  λ s, let '(r, t') := m (proj s) in (r, upd t' s).

(* ================================================================== *)
(** ** NumPy on one- and two-dimensional [float64] arrays *)
(* ================================================================== *)

Abbreviation ndarray := (list float64) (only parsing).
Abbreviation ndarray2 := (list (list float64)) (only parsing).

(** [a[i]] for a literal index [i >= 0]. *)
Definition getitem {A} (a : list A) (i : nat) : Res A :=
  match a !! i with
  | Some x => Ok x
  | None => Raise IndexError
  end.

(** Element-wise binary operation with NumPy's broadcasting rule for
    shapes [(n,)] and [(m,)]. *)
Definition broadcast (f : float64 → float64 → float64)
    (a b : ndarray) : Res ndarray :=
  if decide (length a = length b) then Ok (zip_with f a b)
  else match a, b with
       | [x], _ => Ok (map (f x) b)
       | _, [y] => Ok (map (λ x, f x y) a)
       | _, _ => Raise ValueError
       end.

Definition np_abs (a : ndarray) : ndarray := map F64.abs a.
Definition np_square (a : ndarray) : ndarray := map (λ x, F64.mul x x) a.
Definition np_isfinite (a : ndarray) : list bool := map F64.is_finite a.
Definition all (bs : list bool) : bool := forallb id bs.

(** [np.clip(x, lo, hi)] is [minimum(maximum(x, lo), hi)], where a NaN
    first argument is returned as it is. *)
Definition clip_max (a b : float64) : float64 :=
  if F64.is_nan a then a else if F64.gtb a b then a else b.
Definition clip_min (a b : float64) : float64 :=
  if F64.is_nan a then a else if F64.ltb a b then a else b.
Definition clip (lo hi x : float64) : float64 :=
  clip_min (clip_max x lo) hi.
Definition np_clip (a : ndarray2) (lo hi : Z) : ndarray2 :=
  map (map (clip (F64.of_int lo) (F64.of_int hi))) a.

(** [.flat] of a two-dimensional array: row-major order. *)
Definition flat (a : ndarray2) : ndarray := concat a.

Definition astype_float32 (a : ndarray) : ndarray := map F64.to_float32 a.

(** [np.sum] adds the entries in an order of its own (pairwise, in
    blocks); it is left as an interface, for one- and two-dimensional
    arguments. *)
Class Numpy := {
  np_sum : ndarray → float64;
  np_sum2 : ndarray2 → float64
}.

(** Summation from left to right, an instance to compute with. *)
Definition sum_left (a : ndarray) : float64 :=
  fold_left F64.add a (S754_zero false).

(** A signed 64-bit integer, as NumPy's [int64] wraps it. *)
Definition wrap64 (z : Z) : Z := (z + 2 ^ 63) mod 2 ^ 64 - 2 ^ 63.

(* ================================================================== *)
(** ** The heap of task dictionaries *)
(* ================================================================== *)

Definition loc := nat.

(** The Python world of one environment: the dictionaries that exist
    (task records whose values have type [V]) and the instance [self]. *)
Record World (V Self : Type) := mkWorld {
  heap : gmap loc (gmap string V);
  self : Self
}.
Arguments mkWorld {V Self} heap self.
Arguments heap {V Self} w.
Arguments self {V Self} w.

Definition on_self {V Self A} (m : M Self A) : M (World V Self) A :=
  zoom self (λ s w, mkWorld (heap w) s) m.

(** [{key: value}]: a new dictionary object. *)
Definition new_dict {V Self} (d : gmap string V) : M (World V Self) loc :=
  λ w, let l := fresh (dom (heap w)) in
       (Ok l, mkWorld (<[l := d]> (heap w)) (self w)).

Definition deref {V Self} (l : loc) : M (World V Self) (gmap string V) :=
  λ w, match heap w !! l with
       | Some d => (Ok d, w)
       | None => (Raise Dangling, w)
       end.

(** [d.get(key, dflt)] and [d[key]]. *)
Definition dict_get {V} (d : gmap string V) (key : string) (dflt : V) : V :=
  default dflt (d !! key).

Definition dict_getitem {V} (d : gmap string V) (key : string) : Res V :=
  match d !! key with
  | Some v => Ok v
  | None => Raise KeyError
  end.

(* ================================================================== *)
(** ** External collaborators *)
(* ================================================================== *)

Record Box := mkBox { low : ndarray; high : ndarray }.

(** Modelled from the spec: [maml_rl.envs.mujoco.mujoco_env.MujocoEnv],
    the physics adapter, is not part of the sources. [Sim] is everything
    the adapter holds; [forward_dynamics] advances it and may raise, the
    other members only read it. *)
Class MujocoEnv (Sim : Type) := {
  forward_dynamics : ndarray → M Sim unit;
  qpos : Sim → ndarray;                       (* sim.data.qpos.flat *)
  qvel : Sim → ndarray;                       (* sim.data.qvel.flat *)
  cfrc_ext : Sim → ndarray2;                  (* sim.data.cfrc_ext *)
  get_body_xmat : string → Sim → ndarray2;
  get_body_com : string → Sim → ndarray;
  get_body_comvel : string → Sim → ndarray;
  state_vector : Sim → ndarray;
  action_space : Sim → Box
}.

(** NumPy's [RandomState]: [uniform(low, high, size)] and
    [binomial(n, p, size)] return the drawn values in row-major order and
    advance the generator. *)
Class RandomState (Rng : Type) := {
  uniform : float64 → float64 → list nat → Rng → ndarray * Rng;
  binomial : Z → float64 → list nat → Rng → list Z * Rng
}.

(** What NumPy documents of the two generators: as many values as the
    shape has entries, within the bounds of the distribution. *)
Class RandomStateSpec (Rng : Type) `{!RandomState Rng} : Prop := {
  uniform_size lo hi size r :
    length (uniform lo hi size r).1 = foldr Nat.mul 1%nat size;
  uniform_range lo hi size r :
    F64.leb lo hi = true →
    Forall (λ x, F64.leb lo x = true ∧ F64.leb x hi = true)
           (uniform lo hi size r).1;
  binomial_size n p size r :
    length (binomial n p size r).1 = foldr Nat.mul 1%nat size;
  binomial_range n p size r :
    0 ≤ n → Forall (λ b, 0 ≤ b ≤ n) (binomial n p size r).1
}.

(** Iterating over an array of shape [(n, k)] yields its [n] rows. *)
Definition rows (n k : nat) (data : ndarray) : ndarray2 :=
  map (λ i, take k (drop (i * k) data)) (seq 0 n).

(* ================================================================== *)
(** ** class AntEnv(mujoco_env.MujocoEnv) *)
(* ================================================================== *)

Module AntEnv.
Section AntEnv.
Context {Sim Rng : Type} `{!MujocoEnv Sim}.

Record t := mk {
  mujoco_env : Sim;
  np_random : Rng;
  _action_scaling : option ndarray
}.

Definition set_mujoco_env (x : Sim) (self : t) : t :=
  mk x (np_random self) (_action_scaling self).
Definition set_np_random (x : Rng) (self : t) : t :=
  mk (mujoco_env self) x (_action_scaling self).
Definition set_action_scaling (x : option ndarray) (self : t) : t :=
  mk (mujoco_env self) (np_random self) x.

(** [__init__]: [base] is the object as [MujocoEnv.__init__('ant.xml',
    frame_skip=1)] leaves it, whatever it has done with the fields;
    then [self._action_scaling = None]. *)
Definition __init__ (base : t) : t :=
  set_action_scaling None base.

(** The property [action_scaling] (ant.py, lines 9-14). *)
Definition action_scaling : M t ndarray :=
  self ← get;
  match _action_scaling self with
  | None =>
      let lb := low (action_space (mujoco_env self)) in
      let ub := high (action_space (mujoco_env self)) in
      d ← lift_res (broadcast F64.sub ub lb);
      let v := map (F64.mul F64.c_0_5) d in
      modify (set_action_scaling (Some v));;
      mret v
  | Some v => mret v
  end.

(** [get_current_obs] (lines 16-23). *)
Definition get_current_obs : M t ndarray :=
  self ← get;
  let s := mujoco_env self in
  mret (astype_float32
          (qpos s ++ qvel s ++ flat (np_clip (cfrc_ext s) (-1) 1)
             ++ flat (get_body_xmat "torso" s)
             ++ get_body_com "torso" s)).

End AntEnv.
Arguments t : clear implicits.
End AntEnv.

(* ================================================================== *)
(** ** class AntVelEnv(AntEnv) *)
(* ================================================================== *)

Module AntVelEnv.
Section AntVelEnv.
Context {Sim Rng : Type} `{!MujocoEnv Sim, !RandomState Rng, !Numpy}.

Record t := mk {
  super : AntEnv.t Sim Rng;
  _task : loc;
  _goal_vel : float64
}.

(** The [infos] dictionary built by [step]. *)
Record infos := mk_infos {
  reward_forward : float64;
  reward_ctrl : float64;
  reward_contact : float64;
  reward_survive : float64;
  task : loc
}.

Definition set_super (x : AntEnv.t Sim Rng) (self : t) : t :=
  mk x (_task self) (_goal_vel self).
Definition set_task (x : loc) (self : t) : t :=
  mk (super self) x (_goal_vel self).
Definition set_goal_vel (x : float64) (self : t) : t :=
  mk (super self) (_task self) x.

Definition on_super {A} (m : M (AntEnv.t Sim Rng) A) : M (World float64 t) A :=
  on_self (zoom super set_super m).
Definition on_mujoco {A} (m : M Sim A) : M (World float64 t) A :=
  on_super (zoom AntEnv.mujoco_env AntEnv.set_mujoco_env m).

(** [__init__] (lines 43-47): [self._task] and the goal are set from
    [task], a reference into the heap [h]; [base] is the object as the
    adapter's constructor, called last through [AntEnv.__init__], leaves
    it. *)
Definition __init__ (task : loc) (base : AntEnv.t Sim Rng)
    (h : gmap loc (gmap string float64)) : Res (World float64 t) :=
  match h !! task with
  | Some d =>
      Ok (mkWorld h (mk (AntEnv.__init__ base) task
                        (dict_get d "velocity" F64.zero)))
  | None => Raise Dangling
  end.

(** [step] (lines 49-69). *)
Definition step (action : ndarray)
    : M (World float64 t) (ndarray * float64 * bool * infos) :=
  on_mujoco (forward_dynamics action);;
  comvel ← on_mujoco (gets (get_body_comvel "torso"));
  forward_vel ← lift_res (getitem comvel 0);
  goal_vel ← on_self (gets _goal_vel);
  let forward_reward :=
    F64.add (F64.mul F64.minus_one (F64.abs (F64.sub forward_vel goal_vel)))
            F64.one in
  let survive_reward := F64.c_0_05 in
  scaling ← on_super AntEnv.action_scaling;
  quot ← lift_res (broadcast F64.div action scaling);
  let ctrl_cost :=
    F64.mul (F64.mul F64.c_0_5 F64.c_1e_2) (np_sum (np_square quot)) in
  cfrc ← on_mujoco (gets cfrc_ext);
  let contact_cost :=
    F64.mul (F64.mul F64.c_0_5 F64.c_1e_3)
            (np_sum2 (map np_square (np_clip cfrc (-1) 1))) in
  observation ← on_super AntEnv.get_current_obs;
  let reward :=
    F64.add (F64.sub (F64.sub forward_reward ctrl_cost) contact_cost)
            survive_reward in
  state ← on_mujoco (gets state_vector);
  notdone ←
    (if all (np_isfinite state) then
       h ← lift_res (getitem state 2);
       if F64.geb h F64.c_0_2 then
         h' ← lift_res (getitem state 2);
         mret (F64.leb h' F64.one)
       else mret false
     else mret false);
  let done := negb notdone in
  task ← on_self (gets _task);
  mret (observation, reward, done,
        mk_infos forward_reward (F64.neg ctrl_cost) (F64.neg contact_cost)
                 survive_reward task).

(** [sample_tasks] (lines 71-74). *)
Definition sample_tasks (num_tasks : nat) : M (World float64 t) (list loc) :=
  velocities ←
    on_super (zoom AntEnv.np_random AntEnv.set_np_random
                (λ r, let '(xs, r') := uniform F64.zero F64.c_3_0 [num_tasks] r
                      in (Ok xs, r')));
  tasks ← mapM (λ velocity, new_dict {[ "velocity" := velocity ]}) velocities;
  mret tasks.

(** [reset_task] (lines 76-78). *)
Definition reset_task (task : loc) : M (World float64 t) unit :=
  on_self (modify (set_task task));;
  d ← deref task;
  velocity ← lift_res (dict_getitem d "velocity");
  on_self (modify (set_goal_vel velocity)).

(** The adapter state and the cached scaling of an instance. *)
Definition mujoco (w : World float64 t) : Sim :=
  AntEnv.mujoco_env (super (self w)).
Definition cache (w : World float64 t) : option ndarray :=
  AntEnv._action_scaling (super (self w)).

(** The calls a client makes on an instance, and the world each one
    leaves behind (whether it returns or raises). [Adapter] stands for
    the methods inherited from the adapter ([reset], [render], ...),
    which act on the adapter's state. *)
Inductive call : Type :=
| Step (action : ndarray)
| Sample_tasks (num_tasks : nat)
| Reset_task (task : loc)
| Action_scaling
| Get_current_obs
| Adapter (method : M Sim unit).

Definition exec (c : call) (w : World float64 t) : World float64 t :=
  match c with
  | Step action => (step action w).2
  | Sample_tasks num_tasks => (sample_tasks num_tasks w).2
  | Reset_task task => (reset_task task w).2
  | Action_scaling => (on_super AntEnv.action_scaling w).2
  | Get_current_obs => (on_super AntEnv.get_current_obs w).2
  | Adapter method => (on_mujoco method w).2
  end.

Definition execs (cs : list call) (w : World float64 t) : World float64 t :=
  fold_left (λ w c, exec c w) cs w.

End AntVelEnv.
Arguments t : clear implicits.
End AntVelEnv.

(* ================================================================== *)
(** ** class AntDirEnv(AntEnv) *)
(* ================================================================== *)

Module AntDirEnv.
Section AntDirEnv.
Context {Sim Rng : Type} `{!MujocoEnv Sim, !RandomState Rng, !Numpy}.

(** Directions are integers: the Python [int] default [1], or the
    [int64] entries of [2 * binomial(...) - 1]. *)
Record t := mk {
  super : AntEnv.t Sim Rng;
  _task : loc;
  _goal_dir : Z
}.

Record infos := mk_infos {
  reward_forward : float64;
  reward_ctrl : float64;
  reward_contact : float64;
  reward_survive : float64;
  task : loc
}.

Definition set_super (x : AntEnv.t Sim Rng) (self : t) : t :=
  mk x (_task self) (_goal_dir self).
Definition set_task (x : loc) (self : t) : t :=
  mk (super self) x (_goal_dir self).
Definition set_goal_dir (x : Z) (self : t) : t :=
  mk (super self) (_task self) x.

Definition on_super {A} (m : M (AntEnv.t Sim Rng) A) : M (World Z t) A :=
  on_self (zoom super set_super m).
Definition on_mujoco {A} (m : M Sim A) : M (World Z t) A :=
  on_super (zoom AntEnv.mujoco_env AntEnv.set_mujoco_env m).

(** [__init__] (lines 98-102): [self._task] and the goal are set from
    [task], a reference into the heap [h]; [base] is the object as the
    adapter's constructor, called last through [AntEnv.__init__], leaves
    it. *)
Definition __init__ (task : loc) (base : AntEnv.t Sim Rng)
    (h : gmap loc (gmap string Z)) : Res (World Z t) :=
  match h !! task with
  | Some d =>
      Ok (mkWorld h (mk (AntEnv.__init__ base) task
                        (dict_get d "direction" 1)))
  | None => Raise Dangling
  end.

(** [step] (lines 104-124). *)
Definition step (action : ndarray)
    : M (World Z t) (ndarray * float64 * bool * infos) :=
  on_mujoco (forward_dynamics action);;
  comvel ← on_mujoco (gets (get_body_comvel "torso"));
  forward_vel ← lift_res (getitem comvel 0);
  goal_dir ← on_self (gets _goal_dir);
  let forward_reward := F64.mul (F64.of_int goal_dir) forward_vel in
  let survive_reward := F64.c_0_05 in
  scaling ← on_super AntEnv.action_scaling;
  quot ← lift_res (broadcast F64.div action scaling);
  let ctrl_cost :=
    F64.mul (F64.mul F64.c_0_5 F64.c_1e_2) (np_sum (np_square quot)) in
  cfrc ← on_mujoco (gets cfrc_ext);
  let contact_cost :=
    F64.mul (F64.mul F64.c_0_5 F64.c_1e_3)
            (np_sum2 (map np_square (np_clip cfrc (-1) 1))) in
  observation ← on_super AntEnv.get_current_obs;
  let reward :=
    F64.add (F64.sub (F64.sub forward_reward ctrl_cost) contact_cost)
            survive_reward in
  state ← on_mujoco (gets state_vector);
  notdone ←
    (if all (np_isfinite state) then
       h ← lift_res (getitem state 2);
       if F64.geb h F64.c_0_2 then
         h' ← lift_res (getitem state 2);
         mret (F64.leb h' F64.one)
       else mret false
     else mret false);
  let done := negb notdone in
  task ← on_self (gets _task);
  mret (observation, reward, done,
        mk_infos forward_reward (F64.neg ctrl_cost) (F64.neg contact_cost)
                 survive_reward task).

(** [sample_tasks] (lines 126-129). *)
Definition sample_tasks (num_tasks : nat) : M (World Z t) (list loc) :=
  draws ←
    on_super (zoom AntEnv.np_random AntEnv.set_np_random
                (λ r, let '(bs, r') := binomial 1 F64.c_0_5 [num_tasks] r
                      in (Ok bs, r')));
  let directions := map (λ b, wrap64 (wrap64 (2 * b) - 1)) draws in
  tasks ← mapM (λ direction, new_dict {[ "direction" := direction ]})
               directions;
  mret tasks.

(** [reset_task] (lines 131-133). *)
Definition reset_task (task : loc) : M (World Z t) unit :=
  on_self (modify (set_task task));;
  d ← deref task;
  direction ← lift_res (dict_getitem d "direction");
  on_self (modify (set_goal_dir direction)).

(** The adapter state and the cached scaling of an instance. *)
Definition mujoco (w : World Z t) : Sim :=
  AntEnv.mujoco_env (super (self w)).
Definition cache (w : World Z t) : option ndarray :=
  AntEnv._action_scaling (super (self w)).

(** The calls a client makes on an instance, and the world each one
    leaves behind (whether it returns or raises). [Adapter] stands for
    the methods inherited from the adapter ([reset], [render], ...),
    which act on the adapter's state. *)
Inductive call : Type :=
| Step (action : ndarray)
| Sample_tasks (num_tasks : nat)
| Reset_task (task : loc)
| Action_scaling
| Get_current_obs
| Adapter (method : M Sim unit).

Definition exec (c : call) (w : World Z t) : World Z t :=
  match c with
  | Step action => (step action w).2
  | Sample_tasks num_tasks => (sample_tasks num_tasks w).2
  | Reset_task task => (reset_task task w).2
  | Action_scaling => (on_super AntEnv.action_scaling w).2
  | Get_current_obs => (on_super AntEnv.get_current_obs w).2
  | Adapter method => (on_mujoco method w).2
  end.

Definition execs (cs : list call) (w : World Z t) : World Z t :=
  fold_left (λ w c, exec c w) cs w.

End AntDirEnv.
Arguments t : clear implicits.
End AntDirEnv.

(* ================================================================== *)
(** ** class AntPosEnv(AntEnv) *)
(* ================================================================== *)

Module AntPosEnv.
Section AntPosEnv.
Context {Sim Rng : Type} `{!MujocoEnv Sim, !RandomState Rng, !Numpy}.

Record t := mk {
  super : AntEnv.t Sim Rng;
  _task : loc;
  _goal_pos : ndarray
}.

Record infos := mk_infos {
  reward_goal : float64;
  reward_ctrl : float64;
  reward_contact : float64;
  reward_survive : float64;
  task : loc
}.

Definition set_super (x : AntEnv.t Sim Rng) (self : t) : t :=
  mk x (_task self) (_goal_pos self).
Definition set_task (x : loc) (self : t) : t :=
  mk (super self) x (_goal_pos self).
Definition set_goal_pos (x : ndarray) (self : t) : t :=
  mk (super self) (_task self) x.

Definition on_super {A} (m : M (AntEnv.t Sim Rng) A)
    : M (World ndarray t) A :=
  on_self (zoom super set_super m).
Definition on_mujoco {A} (m : M Sim A) : M (World ndarray t) A :=
  on_super (zoom AntEnv.mujoco_env AntEnv.set_mujoco_env m).

(** [np.zeros((2,), dtype=np.float32)] *)
Definition zeros2 : ndarray := [F64.zero; F64.zero].

(** [__init__] (lines 149-153): [self._task] and the goal are set from
    [task], a reference into the heap [h]; [base] is the object as the
    adapter's constructor, called last through [AntEnv.__init__], leaves
    it. *)
Definition __init__ (task : loc) (base : AntEnv.t Sim Rng)
    (h : gmap loc (gmap string ndarray)) : Res (World ndarray t) :=
  match h !! task with
  | Some d =>
      Ok (mkWorld h (mk (AntEnv.__init__ base) task
                        (dict_get d "position" zeros2)))
  | None => Raise Dangling
  end.

(** [step] (lines 155-175). *)
Definition step (action : ndarray)
    : M (World ndarray t) (ndarray * float64 * bool * infos) :=
  on_mujoco (forward_dynamics action);;
  com ← on_mujoco (gets (get_body_com "torso"));
  let xyposafter := take 2 com in
  goal_pos ← on_self (gets _goal_pos);
  diff ← lift_res (broadcast F64.sub xyposafter goal_pos);
  let goal_reward := F64.add (F64.neg (np_sum (np_abs diff))) F64.c_4_0 in
  let survive_reward := F64.c_0_05 in
  scaling ← on_super AntEnv.action_scaling;
  quot ← lift_res (broadcast F64.div action scaling);
  let ctrl_cost :=
    F64.mul (F64.mul F64.c_0_5 F64.c_1e_2) (np_sum (np_square quot)) in
  cfrc ← on_mujoco (gets cfrc_ext);
  let contact_cost :=
    F64.mul (F64.mul F64.c_0_5 F64.c_1e_3)
            (np_sum2 (map np_square (np_clip cfrc (-1) 1))) in
  observation ← on_super AntEnv.get_current_obs;
  let reward :=
    F64.add (F64.sub (F64.sub goal_reward ctrl_cost) contact_cost)
            survive_reward in
  state ← on_mujoco (gets state_vector);
  notdone ←
    (if all (np_isfinite state) then
       h ← lift_res (getitem state 2);
       if F64.geb h F64.c_0_2 then
         h' ← lift_res (getitem state 2);
         mret (F64.leb h' F64.one)
       else mret false
     else mret false);
  let done := negb notdone in
  task ← on_self (gets _task);
  mret (observation, reward, done,
        mk_infos goal_reward (F64.neg ctrl_cost) (F64.neg contact_cost)
                 survive_reward task).

(** [sample_tasks] (lines 177-180). *)
Definition sample_tasks (num_tasks : nat) : M (World ndarray t) (list loc) :=
  data ←
    on_super (zoom AntEnv.np_random AntEnv.set_np_random
                (λ r, let '(xs, r') :=
                        uniform F64.minus_3_0 F64.c_3_0 [num_tasks; 2%nat] r
                      in (Ok xs, r')));
  let positions := rows num_tasks 2 data in
  tasks ← mapM (λ position, new_dict {[ "position" := position ]}) positions;
  mret tasks.

(** [reset_task] (lines 182-184). *)
Definition reset_task (task : loc) : M (World ndarray t) unit :=
  on_self (modify (set_task task));;
  d ← deref task;
  position ← lift_res (dict_getitem d "position");
  on_self (modify (set_goal_pos position)).

(** The adapter state and the cached scaling of an instance. *)
Definition mujoco (w : World ndarray t) : Sim :=
  AntEnv.mujoco_env (super (self w)).
Definition cache (w : World ndarray t) : option ndarray :=
  AntEnv._action_scaling (super (self w)).

(** The calls a client makes on an instance, and the world each one
    leaves behind (whether it returns or raises). [Adapter] stands for
    the methods inherited from the adapter ([reset], [render], ...),
    which act on the adapter's state. *)
Inductive call : Type :=
| Step (action : ndarray)
| Sample_tasks (num_tasks : nat)
| Reset_task (task : loc)
| Action_scaling
| Get_current_obs
| Adapter (method : M Sim unit).

Definition exec (c : call) (w : World ndarray t) : World ndarray t :=
  match c with
  | Step action => (step action w).2
  | Sample_tasks num_tasks => (sample_tasks num_tasks w).2
  | Reset_task task => (reset_task task w).2
  | Action_scaling => (on_super AntEnv.action_scaling w).2
  | Get_current_obs => (on_super AntEnv.get_current_obs w).2
  | Adapter method => (on_mujoco method w).2
  end.

Definition execs (cs : list call) (w : World ndarray t) : World ndarray t :=
  fold_left (λ w c, exec c w) cs w.

End AntPosEnv.
Arguments t : clear implicits.
End AntPosEnv.

(* ================================================================== *)
(** ** The termination test and the reward, as the specification words them *)
(* ================================================================== *)

(** "every entry of the state vector is finite AND 0.2 <= state[2] <= 1.0" *)
Definition healthy (state : ndarray) : Prop :=
  Forall (λ x, F64.is_finite x = true) state ∧
  ∃ h, state !! 2%nat = Some h ∧
       F64.leb F64.c_0_2 h = true ∧ F64.leb h F64.one = true.

(** The torso is at a height in [0.2, 1.0], as [step] tests it. *)
Definition notdone_of (state : ndarray) : bool :=
  all (np_isfinite state) &&
  match state !! 2%nat with
  | Some h => F64.geb h F64.c_0_2 && F64.leb h F64.one
  | None => false
  end.

(** "-|forward_vel - goal_vel| + 1.0", the sign being the product with
    [-1.0] of the source. *)
Definition vel_reward (forward_vel goal_vel : float64) : float64 :=
  F64.add (F64.mul F64.minus_one (F64.abs (F64.sub forward_vel goal_vel)))
          F64.one.

(** What the specification says of [done] for a given state vector: the
    equivalence, and its three test cases. *)
Definition done_as_specified (state : ndarray) (done : bool) : Prop :=
  (done = true ↔ ¬ healthy state) ∧
  (state !! 2%nat = Some F64.c_0_19 → done = true) ∧
  (state !! 2%nat = Some F64.c_0_5 →
   Forall (λ x, F64.is_finite x = true) state → done = false) ∧
  (Exists (λ x, F64.is_nan x = true) state → done = true).

(** "goal_dir * forward_vel" *)
Definition dir_reward (forward_vel : float64) (goal_dir : Z) : float64 :=
  F64.mul (F64.of_int goal_dir) forward_vel.

(** "-sum(|xy - goal_pos|) + 4.0" *)
Definition pos_reward `{!Numpy} (diff : ndarray) : float64 :=
  F64.add (F64.neg (np_sum (np_abs diff))) F64.c_4_0.

(** "0.5 * 1e-2 * sum((action / action_scaling)^2)" and
    "0.5 * 1e-3 * sum(clip(contact_forces, -1, 1)^2)" *)
Definition ctrl_cost_of `{!Numpy} (quot : ndarray) : float64 :=
  F64.mul (F64.mul F64.c_0_5 F64.c_1e_2) (np_sum (np_square quot)).
Definition contact_cost_of `{!Numpy} (cfrc : ndarray2) : float64 :=
  F64.mul (F64.mul F64.c_0_5 F64.c_1e_3)
          (np_sum2 (map np_square (np_clip cfrc (-1) 1))).

(** The observation assembled from an adapter state, before the cast. *)
Definition obs_parts {Sim} `{!MujocoEnv Sim} (s : Sim) : ndarray :=
  qpos s ++ qvel s ++ map (clip F64.minus_one F64.one) (flat (cfrc_ext s))
    ++ flat (get_body_xmat "torso" s) ++ get_body_com "torso" s.

(** "0.5*(ub-lb) element-wise" *)
Definition half_range (b : Box) : ndarray :=
  map (F64.mul F64.c_0_5) (zip_with F64.sub (high b) (low b)).

(** "computed on first access, cached, and the same vector on every
    subsequent access for the life of the instance": [access] is the
    property read on a world, [bounds] and [cached] what the world holds,
    [run] any sequence of calls made on the instance in between. *)
Definition memoized {W Call} (access : M W ndarray) (bounds : W → Box)
    (cached : W → option ndarray) (run : list Call → W → W) : Prop :=
  (∀ w, cached w = None →
        length (low (bounds w)) = length (high (bounds w)) →
        ∃ w1, access w = (Ok (half_range (bounds w)), w1) ∧
              cached w1 = Some (half_range (bounds w))) ∧
  (∀ w v w1, access w = (Ok v, w1) →
        ∀ calls, access (run calls w1) = (Ok v, run calls w1)).

(** Every dictionary that exists in [w] exists unchanged in [w'], and a
    scaling vector cached in [w] is still the cached one in [w']. *)
Definition keeps {V Self} (cache_of : Self → option ndarray)
    (w w' : World V Self) : Prop :=
  (∀ l d, heap w !! l = Some d → heap w' !! l = Some d) ∧
  (∀ v, cache_of (self w) = Some v → cache_of (self w') = Some v).

(* ================================================================== *)
(** ** The goal follows the task *)
(* ================================================================== *)

(** The goal field holds what the current task record gives: the value
    under the variant's key, or the variant's default. *)
Definition vel_in_sync {Sim Rng}
    (w : World float64 (AntVelEnv.t Sim Rng)) : Prop :=
  ∃ d, heap w !! AntVelEnv._task (self w) = Some d ∧
       AntVelEnv._goal_vel (self w) = dict_get d "velocity" F64.zero.

Definition dir_in_sync {Sim Rng}
    (w : World Z (AntDirEnv.t Sim Rng)) : Prop :=
  ∃ d, heap w !! AntDirEnv._task (self w) = Some d ∧
       AntDirEnv._goal_dir (self w) = dict_get d "direction" 1.

Definition pos_in_sync {Sim Rng}
    (w : World ndarray (AntPosEnv.t Sim Rng)) : Prop :=
  ∃ d, heap w !! AntPosEnv._task (self w) = Some d ∧
       AntPosEnv._goal_pos (self w) = dict_get d "position" AntPosEnv.zeros2.

(** A call that is not a [reset_task] to a record without the key (or
    to no record). *)
Definition vel_call_ok {Sim Rng} (w : World float64 (AntVelEnv.t Sim Rng))
    (c : AntVelEnv.call (Sim:=Sim)) : Prop :=
  match c with
  | AntVelEnv.Reset_task l =>
      ∃ d, heap w !! l = Some d ∧ is_Some (d !! "velocity")
  | _ => True
  end.

Definition dir_call_ok {Sim Rng} (w : World Z (AntDirEnv.t Sim Rng))
    (c : AntDirEnv.call (Sim:=Sim)) : Prop :=
  match c with
  | AntDirEnv.Reset_task l =>
      ∃ d, heap w !! l = Some d ∧ is_Some (d !! "direction")
  | _ => True
  end.

Definition pos_call_ok {Sim Rng} (w : World ndarray (AntPosEnv.t Sim Rng))
    (c : AntPosEnv.call (Sim:=Sim)) : Prop :=
  match c with
  | AntPosEnv.Reset_task l =>
      ∃ d, heap w !! l = Some d ∧ is_Some (d !! "position")
  | _ => True
  end.

(** The ways [step] raises, in every variant, once the engine has
    returned and the task-specific reward is computed: the bounds of the
    action space do not broadcast, the action does not broadcast against
    the scaling, or a finite state vector has no entry 2. [mj'] and
    [cache'] are the adapter state and the cache that [step] leaves. *)
Definition step_fails_after {Sim} `{!MujocoEnv Sim}
    (action : ndarray) (e : exn) (mj' : Sim) (cache' : option ndarray)
    : Prop :=
  (e = ValueError ∧ cache' = None ∧
   broadcast F64.sub (high (action_space mj')) (low (action_space mj'))
     = Raise ValueError) ∨
  (e = ValueError ∧
   ∃ scaling, cache' = Some scaling ∧
              broadcast F64.div action scaling = Raise ValueError) ∨
  (e = IndexError ∧
   all (np_isfinite (state_vector mj')) = true ∧
   (length (state_vector mj') < 3)%nat).

(** A session: every call is acceptable in the world the calls before it
    have left. *)
Fixpoint vel_calls_ok {Sim Rng} `{!MujocoEnv Sim, !RandomState Rng, !Numpy}
    (w : World float64 (AntVelEnv.t Sim Rng))
    (cs : list (AntVelEnv.call (Sim:=Sim))) : Prop :=
  match cs with
  | [] => True
  | c :: cs => vel_call_ok w c ∧ vel_calls_ok (AntVelEnv.exec c w) cs
  end.

Fixpoint dir_calls_ok {Sim Rng} `{!MujocoEnv Sim, !RandomState Rng, !Numpy}
    (w : World Z (AntDirEnv.t Sim Rng))
    (cs : list (AntDirEnv.call (Sim:=Sim))) : Prop :=
  match cs with
  | [] => True
  | c :: cs => dir_call_ok w c ∧ dir_calls_ok (AntDirEnv.exec c w) cs
  end.

Fixpoint pos_calls_ok {Sim Rng} `{!MujocoEnv Sim, !RandomState Rng, !Numpy}
    (w : World ndarray (AntPosEnv.t Sim Rng))
    (cs : list (AntPosEnv.call (Sim:=Sim))) : Prop :=
  match cs with
  | [] => True
  | c :: cs => pos_call_ok w c ∧ pos_calls_ok (AntPosEnv.exec c w) cs
  end.


(** A valid binary32 number. *)
Definition valid32 (x : float64) : bool := valid_binary 24 128 x.

(* ================================================================== *)
(** ** A small concrete world to run the definitions on *)
(* ================================================================== *)

Module Demo.

(** A point mass: position [(x, y, z)] and velocity; one step adds the
    action to the position and makes it the velocity. An empty action is
    refused by the engine. *)
Record sim := mk_sim { s_pos : ndarray; s_vel : ndarray }.

#[global] Instance sim_mujoco : MujocoEnv sim := {|
  forward_dynamics action s :=
    match action with
    | [] => (Raise EngineError, s)
    | _ => (Ok tt, mk_sim (zip_with F64.add (s_pos s) action) action)
    end;
  qpos := s_pos;
  qvel := s_vel;
  cfrc_ext s := [[F64.c_2_0; F64.c_0_5]; [F64.minus_3_0; F64.zero]];
  get_body_xmat _ s := [[F64.one; F64.zero]; [F64.zero; F64.one]];
  get_body_com _ s := s_pos s;
  get_body_comvel _ s := s_vel s;
  state_vector s := s_pos s ++ s_vel s;
  action_space s := mkBox [F64.minus_one; F64.minus_one; F64.minus_one]
                          [F64.one; F64.one; F64.one]
|}.

(** A generator that alternates between the two ends of the range. *)
#[global] Instance nat_random : RandomState nat := {|
  uniform lo hi size r :=
    let n := foldr Nat.mul 1%nat size in
    (map (λ i, if Nat.even (r + i) then lo else hi) (seq 0 n), (r + n)%nat);
  binomial n p size r :=
    let k := foldr Nat.mul 1%nat size in
    (map (λ i, if Nat.even (r + i) then 0 else Z.min 1 n) (seq 0 k),
     (r + k)%nat)
|}.

#[global] Instance left_numpy : Numpy := {|
  np_sum := sum_left;
  np_sum2 a := sum_left (concat a)
|}.

(** Standing at height 0.5, at rest. *)
Definition sim0 : sim :=
  mk_sim [F64.zero; F64.zero; F64.c_0_5] [F64.zero; F64.zero; F64.zero].

(** The object as the adapter's constructor leaves it: a stale scaling
    is in the cache. *)
Definition base0 : AntEnv.t sim nat :=
  AntEnv.mk sim0 7%nat (Some [F64.c_3_0]).

Definition zero_action : ndarray := [F64.zero; F64.zero; F64.zero].

(** The default-argument dictionary [{}] at address 0. *)
Definition heap0 {V} : gmap loc (gmap string V) := {[ 0%nat := ∅ ]}.

Definition vel0 : World float64 (AntVelEnv.t sim nat) :=
  mkWorld heap0 (AntVelEnv.mk (AntEnv.__init__ base0) 0%nat F64.zero).
Definition dir0 : World Z (AntDirEnv.t sim nat) :=
  mkWorld heap0 (AntDirEnv.mk (AntEnv.__init__ base0) 0%nat 1).
Definition pos0 : World ndarray (AntPosEnv.t sim nat) :=
  mkWorld heap0 (AntPosEnv.mk (AntEnv.__init__ base0) 0%nat
                              AntPosEnv.zeros2).

(** A caller's record [{'velocity': 2.0}] at address 1. *)
Definition vel1 : World float64 (AntVelEnv.t sim nat) :=
  mkWorld (<[ 1%nat := {[ "velocity" := F64.c_2_0 ]} ]> heap0)
          (AntVelEnv.mk (AntEnv.__init__ base0) 0%nat F64.zero).

(** A session on the velocity variant; the adapter is reset to another
    state on the way, and the last two calls raise. *)
Definition vel_calls : list (AntVelEnv.call (Sim:=sim)) :=
  [AntVelEnv.Sample_tasks 2; AntVelEnv.Reset_task 1%nat;
   AntVelEnv.Step zero_action; AntVelEnv.Action_scaling;
   AntVelEnv.Adapter (modify (λ _, mk_sim [F64.zero; F64.zero] []));
   AntVelEnv.Get_current_obs; AntVelEnv.Reset_task 0%nat; AntVelEnv.Step []].

(** The engine has diverged along x while the goal was set to infinity. *)
Definition inf_action : ndarray := [F64.inf; F64.zero; F64.zero].
Definition vel_inf : World float64 (AntVelEnv.t sim nat) :=
  mkWorld heap0 (AntVelEnv.mk (AntEnv.__init__ base0) 0%nat F64.inf).

(** A state vector of a single entry. *)
Definition short_world : World float64 (AntVelEnv.t sim nat) :=
  mkWorld heap0
    (AntVelEnv.mk (AntEnv.__init__ (AntEnv.mk (mk_sim [] []) 7%nat None)) 0%nat F64.zero).

(** Fallen to height 0.19; a NaN in the position. *)
Definition low_state : ndarray := [F64.zero; F64.zero; F64.c_0_19].
Definition nan_state : ndarray := [F64.nan; F64.zero; F64.c_0_5].

(** Heading backward; a goal of three coordinates; a goal of one. *)
Definition dir_back : World Z (AntDirEnv.t sim nat) :=
  mkWorld heap0 (AntDirEnv.mk (AntEnv.__init__ base0) 0%nat (-1)).
Definition pos_three : World ndarray (AntPosEnv.t sim nat) :=
  mkWorld heap0 (AntPosEnv.mk (AntEnv.__init__ base0) 0%nat
                              [F64.zero; F64.zero; F64.zero]).
Definition pos_one : World ndarray (AntPosEnv.t sim nat) :=
  mkWorld heap0 (AntPosEnv.mk (AntEnv.__init__ base0) 0%nat [F64.c_2_0]).

(** An action of unit speed along x. *)
Definition unit_action : ndarray := [F64.one; F64.zero; F64.zero].

(** A position with a NaN and no third coordinate. *)
Definition nan_world : World float64 (AntVelEnv.t sim nat) :=
  mkWorld heap0
    (AntVelEnv.mk (AntEnv.__init__ (AntEnv.mk (mk_sim [F64.nan] []) 7%nat None))
                  0%nat F64.zero).

(** Two caller's records, at addresses 1 and 2. *)
Definition vel2 : World float64 (AntVelEnv.t sim nat) :=
  mkWorld (<[ 2%nat := {[ "velocity" := F64.c_0_5 ]} ]>
             (<[ 1%nat := {[ "velocity" := F64.c_2_0 ]} ]> heap0))
          (AntVelEnv.mk (AntEnv.__init__ base0) 0%nat F64.zero).

(** A joint at 0.1, which is not a binary32 number. *)
Definition sim_tenth : sim :=
  mk_sim [F64.c_0_1; F64.zero; F64.c_0_5] [F64.zero; F64.zero; F64.zero].

End Demo.

(* ================================================================== *)
(** * Properties *)
(* ================================================================== *)

Arguments F64.add : simpl never.
Arguments F64.sub : simpl never.
Arguments F64.mul : simpl never.
Arguments F64.div : simpl never.
Arguments F64.neg : simpl never.
Arguments F64.abs : simpl never.
Arguments F64.of_int : simpl never.
Arguments F64.to_float32 : simpl never.
Arguments F64.leb : simpl never.
Arguments F64.geb : simpl never.
Arguments F64.ltb : simpl never.
Arguments F64.gtb : simpl never.

(** ** Rounding returns valid numbers *)

Section Validity.
Variables prec emax : Z.
Hypothesis Hprec : 0 < prec.

Lemma digits2_log2 p : Zpos (digits2_pos p) = Z.log2 (Zpos p) + 1.
Proof.
  induction p as [p IH|p IH|]; cbn [digits2_pos].
  - rewrite Pos2Z.inj_succ, IH, Pos2Z.inj_xI, Z.log2_succ_double; lia.
  - rewrite Pos2Z.inj_succ, IH, Pos2Z.inj_xO, Z.log2_double; lia.
  - reflexivity.
Qed.

Lemma Zdigits2_nonneg m : 0 ≤ Zdigits2 m.
Proof. destruct m; cbn; lia. Qed.

Lemma Zdigits2_pos m : 0 < m → 0 < Zdigits2 m.
Proof. destruct m; cbn; lia. Qed.

Lemma Zdigits2_mono a b : 0 ≤ a → a ≤ b → Zdigits2 a ≤ Zdigits2 b.
Proof.
  intros Ha Hab. destruct a as [|a|a]; [apply Zdigits2_nonneg| |lia].
  destruct b as [|b|b]; try lia. cbn [Zdigits2].
  rewrite !digits2_log2. pose proof (Z.log2_le_mono _ _ Hab). lia.
Qed.

Lemma fexp_mono a b : a ≤ b → fexp prec emax a ≤ fexp prec emax b.
Proof. unfold fexp. lia. Qed.

Lemma fexp_ge_emin a : emin prec emax ≤ fexp prec emax a.
Proof. unfold fexp. lia. Qed.

(** If the exponent chosen for [a] is not below [a], it is [emin]. *)
Lemma fexp_above a : a ≤ fexp prec emax a → fexp prec emax a = emin prec emax.
Proof. unfold fexp. lia. Qed.

Lemma iter_xO_digits m d :
  Zpos (digits2_pos (Pos.iter xO m d)) = Zpos (digits2_pos m) + Zpos d.
Proof.
  induction d as [|d IH] using Pos.peano_ind.
  - cbn. lia.
  - rewrite Pos.iter_succ. cbn [digits2_pos].
    rewrite !Pos2Z.inj_succ, IH. lia.
Qed.

Lemma iter_pos_nat {A} (f : A → A) p x :
  SpecFloat.iter_pos f p x = Nat.iter (Pos.to_nat p) f x.
Proof.
  revert x. induction p as [p IH|p IH|]; intros x; cbn [SpecFloat.iter_pos].
  - rewrite !IH, Pos2Nat.inj_xI.
    replace (S (2 * Pos.to_nat p)) with (Pos.to_nat p + (Pos.to_nat p + 1))%nat by lia.
    rewrite !Nat.iter_add. cbn. reflexivity.
  - rewrite !IH, Pos2Nat.inj_xO.
    replace (2 * Pos.to_nat p)%nat with (Pos.to_nat p + Pos.to_nat p)%nat by lia.
    rewrite Nat.iter_add. reflexivity.
  - reflexivity.
Qed.

Lemma shr_1_digits r :
  0 ≤ shr_m r →
  0 ≤ shr_m (shr_1 r) ∧
  Zdigits2 (shr_m (shr_1 r)) = Z.max 0 (Zdigits2 (shr_m r) - 1).
Proof.
  destruct r as [m b s]. cbn [shr_m]. intros Hm.
  destruct m as [|[p|p|]|p]; cbn; try lia.
  all: rewrite ?Pos2Z.inj_succ; lia.
Qed.

Lemma shr_digits n r :
  0 ≤ shr_m r →
  0 ≤ shr_m (Nat.iter n shr_1 r) ∧
  Zdigits2 (shr_m (Nat.iter n shr_1 r))
    = Z.max 0 (Zdigits2 (shr_m r) - Z.of_nat n).
Proof.
  intros Hm. induction n as [|n [IH1 IH2]].
  - cbn. pose proof (Zdigits2_nonneg (shr_m r)). lia.
  - change (Nat.iter (S n) shr_1 r) with (shr_1 (Nat.iter n shr_1 r)).
    destruct (shr_1_digits _ IH1) as [H1 H2].
    split; [exact H1|]. rewrite H2, IH2. lia.
Qed.

Lemma shr_record_of_loc_m m l : shr_m (shr_record_of_loc m l) = m.
Proof. by destruct l as [|[]]. Qed.

(** Shifting to the exponent chosen by [fexp]: the mantissa that comes
    out is canonical for the exponent that comes out. *)
Lemma shr_fexp_canonical m e l :
  0 ≤ m → e ≤ fexp prec emax (Zdigits2 m + e) →
  let '(r, e1) := shr_fexp prec emax m e l in
  0 ≤ shr_m r ∧
  (0 < shr_m r → fexp prec emax (Zdigits2 (shr_m r) + e1) = e1) ∧
  (shr_m r = 0 → e1 = emin prec emax).
Proof.
  intros Hm He. unfold shr_fexp, shr.
  destruct (fexp prec emax (Zdigits2 m + e) - e) as [|n|n] eqn:En; [|clear He|lia].
  - rewrite shr_record_of_loc_m. repeat split; [done| |].
    + intros _. lia.
    + intros ->. cbn [Zdigits2] in *.
      assert (fexp prec emax (0 + e) = e) as H by lia.
      rewrite <- H. apply fexp_above. lia.
  - rewrite iter_pos_nat.
    destruct (shr_digits (Pos.to_nat n) (shr_record_of_loc m l)) as [H1 H2];
      [by rewrite shr_record_of_loc_m|].
    rewrite shr_record_of_loc_m, positive_nat_Z in H2.
    set (m1 := shr_m _) in *. repeat split; [exact H1| |].
    + intros Hpos. pose proof (Zdigits2_pos _ Hpos).
      replace (Zdigits2 m1 + (e + Zpos n)) with (Zdigits2 m + e) by lia. lia.
    + intros H0. rewrite H0 in H2. cbn [Zdigits2] in H2.
      replace (e + Z.pos n) with (fexp prec emax (Zdigits2 m + e)) by lia.
      apply fexp_above. lia.
Qed.

Lemma round_nearest_even_bounds m l :
  m ≤ round_nearest_even m l ≤ m + 1.
Proof. destruct l as [|[]]; cbn; try lia. destruct (Z.even m); lia. Qed.

(** Rounding returns a valid number. *)
Lemma binary_round_aux_valid s m e l :
  0 ≤ m → e ≤ fexp prec emax (Zdigits2 m + e) →
  valid_binary prec emax (binary_round_aux prec emax s m e l) = true.
Proof.
  intros Hm He. unfold binary_round_aux.
  pose proof (shr_fexp_canonical m e l Hm He) as H1.
  destruct (shr_fexp prec emax m e l) as [r1 e1].
  destruct H1 as (Hm1 & Hc1 & Hz1).
  set (m2 := round_nearest_even _ _).
  pose proof (round_nearest_even_bounds (shr_m r1) (loc_of_shr_record r1)) as Hb.
  fold m2 in Hb.
  assert (Hm2 : 0 ≤ m2) by lia.
  assert (He2 : e1 ≤ fexp prec emax (Zdigits2 m2 + e1)).
  { destruct (Z.eq_dec (shr_m r1) 0) as [H0|H0].
    - rewrite (Hz1 H0). apply fexp_ge_emin.
    - rewrite <- (Hc1 ltac:(lia)) at 1. apply fexp_mono.
      pose proof (Zdigits2_mono (shr_m r1) m2 Hm1 ltac:(lia)). lia. }
  pose proof (shr_fexp_canonical m2 e1 loc_Exact Hm2 He2) as H2.
  destruct (shr_fexp prec emax m2 e1 loc_Exact) as [r2 e2].
  destruct H2 as (Hm3 & Hc3 & _).
  destruct (shr_m r2) as [|m3|m3] eqn:E3; [reflexivity| |reflexivity].
  destruct (e2 <=? emax - prec) eqn:Hle; [|reflexivity].
  cbn [valid_binary]. unfold bounded, canonical_mantissa.
  rewrite Hle, andb_true_r. apply Z.eqb_eq.
  apply (Hc3 ltac:(lia)).
Qed.

Lemma shl_align_fexp m e :
  let '(mz, ez) := shl_align m e (fexp prec emax (Zpos (digits2_pos m) + e)) in
  ez ≤ fexp prec emax (Zpos (digits2_pos mz) + ez).
Proof.
  unfold shl_align.
  destruct (fexp prec emax (Zpos (digits2_pos m) + e) - e) as [|d|d] eqn:Ed.
  - lia.
  - lia.
  - rewrite iter_xO_digits.
    replace (Z.pos (digits2_pos m) + Z.pos d +
             fexp prec emax (Z.pos (digits2_pos m) + e))
      with (Z.pos (digits2_pos m) + e) by lia.
    lia.
Qed.

Lemma binary_round_valid s m e :
  valid_binary prec emax (binary_round prec emax s m e) = true.
Proof.
  unfold binary_round. pose proof (shl_align_fexp m e) as H.
  destruct (shl_align m e _) as [mz ez].
  apply binary_round_aux_valid; [lia | exact H].
Qed.

Lemma binary_normalize_valid m e s :
  valid_binary prec emax (binary_normalize prec emax m e s) = true.
Proof. destruct m; cbn [binary_normalize]; auto using binary_round_valid. Qed.

Lemma SFopp_valid x :
  valid_binary prec emax x = true → valid_binary prec emax (SFopp x) = true.
Proof. by destruct x. Qed.

Lemma SFabs_valid x :
  valid_binary prec emax x = true → valid_binary prec emax (SFabs x) = true.
Proof. by destruct x. Qed.

Lemma SFsub_valid x y :
  valid_binary prec emax x = true → valid_binary prec emax y = true →
  valid_binary prec emax (SFsub prec emax x y) = true.
Proof.
  destruct x as [sx|sx| |sx mx ex], y as [sy|sy| |sy my ey]; intros Hx Hy;
    cbn [SFsub]; try done; try (by destruct sx, sy).
  apply binary_normalize_valid.
Qed.

Lemma SFadd_valid x y :
  valid_binary prec emax x = true → valid_binary prec emax y = true →
  valid_binary prec emax (SFadd prec emax x y) = true.
Proof.
  destruct x as [sx|sx| |sx mx ex], y as [sy|sy| |sy my ey]; intros Hx Hy;
    cbn [SFadd]; try done; try (by destruct sx, sy).
  apply binary_normalize_valid.
Qed.

End Validity.

(** ** Floating-point facts *)

Section FloatFacts.

Lemma sub_add_neg x y : F64.sub x y = F64.add x (F64.neg y).
Proof.
  destruct x as [sx|sx| |sx mx ex], y as [sy|sy| |sy my ey];
    try reflexivity; destruct sx, sy; reflexivity.
Qed.

Lemma shl_align_same m e : shl_align m e e = (m, e).
Proof. unfold shl_align. rewrite Z.sub_diag. reflexivity. Qed.

Lemma sub_diag_finite s m e :
  F64.sub (S754_finite s m e) (S754_finite s m e) = S754_zero false.
Proof.
  unfold F64.sub, SFsub. rewrite Z.min_id, shl_align_same. simpl fst.
  rewrite Z.sub_diag. reflexivity.
Qed.

(** [==] on a finite number: both are zeros, or the two are the same. *)
Lemma eqb_finite_inv x y :
  F64.is_finite x = true → F64.eqb x y = true →
  (∃ s s', x = S754_zero s ∧ y = S754_zero s') ∨
  (∃ s m e, x = S754_finite s m e ∧ y = x).
Proof.
  unfold F64.eqb, SFeqb.
  destruct x as [sx|sx| |sx mx ex], y as [sy|sy| |sy my ey]; simpl;
    intros Hf H; try discriminate;
    try (destruct sx; discriminate); try (destruct sy; discriminate).
  - left; eauto.
  - right. exists sx, mx, ex. split; [done|].
    destruct sx, sy; try discriminate;
    destruct (Z.compare_spec ex ey); try discriminate; subst;
    destruct (Pos.compare_cont Eq mx my) eqn:Hc; try discriminate;
    apply Pos.compare_eq in Hc; subst; reflexivity.
Qed.

Lemma vel_reward_at_goal x y :
  F64.is_finite x = true → F64.eqb x y = true → vel_reward x y = F64.one.
Proof.
  intros Hf He. unfold vel_reward.
  destruct (eqb_finite_inv x y Hf He)
    as [(s & s' & -> & ->)|(s & m & e & -> & ->)].
  - destruct s, s'; reflexivity.
  - rewrite sub_diag_finite. reflexivity.
Qed.

(** The literals are the numbers Python reads. *)
Lemma literals_read :
  F64.reads_as 1 1 F64.one = true ∧
  F64.reads_as (-1) 1 F64.minus_one = true ∧
  F64.reads_as 1 2 F64.c_0_5 = true ∧
  F64.reads_as 1 100 F64.c_1e_2 = true ∧
  F64.reads_as 1 1000 F64.c_1e_3 = true ∧
  F64.reads_as 5 100 F64.c_0_05 = true ∧
  F64.reads_as 2 10 F64.c_0_2 = true ∧
  F64.reads_as 3 1 F64.c_3_0 = true ∧
  F64.reads_as (-3) 1 F64.minus_3_0 = true ∧
  F64.reads_as 4 1 F64.c_4_0 = true ∧
  F64.reads_as 19 100 F64.c_0_19 = true ∧
  F64.reads_as 1 10 F64.c_0_1 = true ∧
  F64.reads_as 2 1 F64.c_2_0 = true.
Proof. repeat split; vm_compute; reflexivity. Qed.

(** The two constant factors of the costs, [0.5 * 1e-2] and
    [0.5 * 1e-3], are 0.005 and 0.0005. *)
Lemma cost_factors :
  F64.reads_as 5 1000 (F64.mul F64.c_0_5 F64.c_1e_2) = true ∧
  F64.reads_as 5 10000 (F64.mul F64.c_0_5 F64.c_1e_3) = true.
Proof. split; vm_compute; reflexivity. Qed.

(** The integer bounds of the clip are the floats -1.0 and 1.0. *)
Lemma of_int_clip_bounds :
  F64.of_int (-1) = F64.minus_one ∧ F64.of_int 1 = F64.one.
Proof. split; reflexivity. Qed.

Lemma digits_shift52 m :
  Zpos (digits2_pos (4503599627370496 * m)) = Zpos (digits2_pos m) + 52.
Proof.
  change (4503599627370496 * m)%positive with
    (m~0~0~0~0~0~0~0~0~0~0~0~0~0~0~0~0~0~0~0~0~0~0~0~0~0~0
      ~0~0~0~0~0~0~0~0~0~0~0~0~0~0~0~0~0~0~0~0~0~0~0~0~0~0)%positive.
  cbn [digits2_pos]. rewrite !Pos2Z.inj_succ. lia.
Qed.

Lemma shr52 m :
  SpecFloat.iter_pos shr_1 52%positive
    (Build_shr_record (Zpos (4503599627370496 * m)) false false)
  = Build_shr_record (Zpos m) false false.
Proof. reflexivity. Qed.

(** [-1.0 * x] is [-x] for every valid binary64 number [x]. *)
Lemma mul_minus_one x :
  F64.valid x = true → F64.mul F64.minus_one x = F64.neg x.
Proof.
  destruct x as [s|s| |s m e]; try reflexivity.
  unfold F64.valid, valid_binary, bounded, canonical_mantissa. intros Hv.
  apply andb_true_iff in Hv as [Hc Hb].
  apply Z.eqb_eq in Hc. apply Z.leb_le in Hb.
  unfold F64.mul, SFmul, F64.minus_one, F64.neg, SFopp.
  unfold binary_round_aux, shr_fexp, Zdigits2.
  rewrite digits_shift52.
  replace (Z.pos (digits2_pos m) + 52 + (-52 + e))
    with (Z.pos (digits2_pos m) + e) by lia.
  rewrite Hc. replace (e - (-52 + e)) with 52 by lia.
  unfold shr at 1.
  change (shr_record_of_loc (Z.pos (4503599627370496 * m)) loc_Exact)
    with (Build_shr_record (Z.pos (4503599627370496 * m)) false false).
  rewrite shr52.
  cbn [shr_m loc_of_shr_record round_nearest_even].
  unfold Zdigits2. replace (-52 + e + 52) with e by lia.
  rewrite Hc, Z.sub_diag. cbn [shr shr_record_of_loc shr_m].
  apply Z.leb_le in Hb. rewrite Hb. reflexivity.
Qed.

Lemma abs_sub_valid x y :
  F64.valid x = true → F64.valid y = true →
  F64.valid (F64.abs (F64.sub x y)) = true.
Proof.
  intros Hx Hy. apply SFabs_valid, SFsub_valid; [reflexivity | done | done].
Qed.

(** On valid numbers the velocity reward is [-|x - y| + 1.0], with the
    sign as a negation. *)
Lemma vel_reward_neg x y :
  F64.valid x = true → F64.valid y = true →
  vel_reward x y = F64.add (F64.neg (F64.abs (F64.sub x y))) F64.one.
Proof.
  intros Hx Hy. unfold vel_reward.
  by rewrite mul_minus_one by by apply abs_sub_valid.
Qed.

(** A number that [==] one in [0.0, 3.0] is finite. *)
Lemma eqb_in_range x g :
  F64.leb F64.zero g = true → F64.leb g F64.c_3_0 = true →
  F64.eqb x g = true → F64.is_finite x = true.
Proof.
  intros H0 H3 He.
  destruct x as [s|s| |s m e]; [reflexivity| | |reflexivity].
  - destruct g as [sg|sg| |sg mg eg].
    + destruct s; vm_compute in He; discriminate.
    + destruct sg; vm_compute in H0, H3; discriminate.
    + vm_compute in H0; discriminate.
    + destruct s, sg; vm_compute in He; discriminate.
  - vm_compute in He; discriminate.
Qed.

Lemma geb_leb x y : F64.geb x y = F64.leb y x.
Proof. reflexivity. Qed.

Lemma is_nan_not_finite x : F64.is_nan x = true → F64.is_finite x = false.
Proof. destruct x; simpl; congruence. Qed.

Lemma all_isfinite state :
  all (np_isfinite state) = true ↔
  Forall (λ x, F64.is_finite x = true) state.
Proof.
  unfold all, np_isfinite. rewrite forallb_forall, Forall_forall.
  split.
  - intros H x Hx. apply (H (F64.is_finite x)).
    apply in_map. by apply list_elem_of_In.
  - intros H b Hb. apply in_map_iff in Hb as (x & <- & Hx).
    apply H. by apply list_elem_of_In.
Qed.

(** The test of [step] against the wording of the specification. *)
Lemma notdone_healthy state : notdone_of state = true ↔ healthy state.
Proof.
  unfold notdone_of, healthy. rewrite andb_true_iff, all_isfinite.
  split.
  - intros [Hf Hh]. split; [done|].
    destruct (state !! 2%nat) as [h|]; [|discriminate].
    apply andb_true_iff in Hh as [H1 H2]. eauto.
  - intros [Hf (h & -> & H1 & H2)]. split; [done|].
    rewrite geb_leb, H1, H2. reflexivity.
Qed.

End FloatFacts.

(** ** The monad *)

Section MonadFacts.
Context {St : Type}.

Lemma bind_Ok {A B} (m : M St A) (k : A → M St B) s b s' :
  (m ≫= k) s = (Ok b, s') →
  ∃ a s1, m s = (Ok a, s1) ∧ k a s1 = (Ok b, s').
Proof.
  unfold mbind, M_bind. destruct (m s) as [[a|e] s1]; [eauto | discriminate].
Qed.

Lemma bind_run {A B} (m : M St A) (k : A → M St B) s a s1 :
  m s = (Ok a, s1) → (m ≫= k) s = k a s1.
Proof. unfold mbind, M_bind. intros ->. reflexivity. Qed.

(** A relation between the state before and after that every part of a
    computation respects is respected by the whole. *)
Lemma bind_preserves {A B} (R : St → St → Prop)
    (m : M St A) (k : A → M St B) s :
  (∀ x y z, R x y → R y z → R x z) →
  R s (m s).2 → (∀ a s1, R s1 (k a s1).2) → R s ((m ≫= k) s).2.
Proof.
  intros Ht Hm Hk. unfold mbind, M_bind.
  destruct (m s) as [[a|e] s1]; simpl in *; [|done].
  eapply Ht; [exact Hm | apply Hk].
Qed.

End MonadFacts.

(** ** The test at the end of [step] *)

Section NotdoneFacts.

(** On a state vector that has an entry 2, or is not all finite, the
    test returns. *)
Lemma notdone_run {St} (state : list spec_float) (s : St) :
  (all (np_isfinite state) = true → is_Some (state !! 2%nat)) →
  (if all (np_isfinite state) then
     h ← lift_res (getitem state 2);
     if F64.geb h F64.c_0_2 then
       h' ← lift_res (getitem state 2);
       mret (F64.leb h' F64.one)
     else mret false
   else mret false) s = (Ok (notdone_of state), s).
Proof.
  intros Hlen. unfold notdone_of.
  destruct (all (np_isfinite state)); [|reflexivity].
  destruct (Hlen eq_refl) as [h Hh].
  unfold lift_res, getitem, mbind, M_bind, mret, M_ret. rewrite Hh. cbn.
  by destruct (F64.geb h F64.c_0_2).
Qed.

End NotdoneFacts.

(** ** The base class *)

Section AntEnvFacts.
Context {Sim Rng : Type} `{!MujocoEnv Sim}.
Implicit Types s : AntEnv.t Sim Rng.

Lemma action_scaling_cached s v :
  AntEnv._action_scaling s = Some v → AntEnv.action_scaling s = (Ok v, s).
Proof.
  intros H. unfold AntEnv.action_scaling, get, mbind, M_bind; cbn.
  rewrite H. reflexivity.
Qed.

Lemma action_scaling_fresh s :
  AntEnv._action_scaling s = None →
  AntEnv.action_scaling s =
    match broadcast F64.sub (high (action_space (AntEnv.mujoco_env s)))
                            (low (action_space (AntEnv.mujoco_env s))) with
    | Ok d => (Ok (map (F64.mul F64.c_0_5) d),
               AntEnv.set_action_scaling (Some (map (F64.mul F64.c_0_5) d)) s)
    | Raise e => (Raise e, s)
    end.
Proof.
  intros H.
  unfold AntEnv.action_scaling, get, modify, lift_res, mbind, M_bind; cbn.
  rewrite H. destruct (broadcast _ _ _); reflexivity.
Qed.

(** Whatever an access does, it only touches the cache, and a value it
    returns is the cached one afterwards. *)
Lemma action_scaling_inv s r s' :
  AntEnv.action_scaling s = (r, s') →
  AntEnv.mujoco_env s' = AntEnv.mujoco_env s ∧
  AntEnv.np_random s' = AntEnv.np_random s ∧
  (∀ v, r = Ok v → AntEnv._action_scaling s' = Some v) ∧
  (∀ v, AntEnv._action_scaling s = Some v → r = Ok v ∧ s' = s).
Proof.
  destruct (AntEnv._action_scaling s) as [v|] eqn:Hc.
  - rewrite (action_scaling_cached _ _ Hc). intros [= <- <-].
    repeat split; try congruence. all: intros ? [= ->]; reflexivity.
  - rewrite (action_scaling_fresh _ Hc).
    destruct (broadcast _ _ _) as [d|e]; intros [= <- <-]; cbn;
      repeat split; try congruence. all: intros ? [= ->]; done.
Qed.

Lemma broadcast_same_length f (a b : list spec_float) :
  length a = length b → broadcast f a b = Ok (zip_with f a b).
Proof. intros H. unfold broadcast. by rewrite decide_True. Qed.

Lemma flat_np_clip (a : list (list spec_float)) :
  flat (np_clip a (-1) 1) = map (clip F64.minus_one F64.one) (flat a).
Proof.
  unfold flat, np_clip. induction a as [|row a IH]; [reflexivity|].
  cbn [map concat]. rewrite map_app, <- IH. reflexivity.
Qed.

Lemma get_current_obs_run s :
  AntEnv.get_current_obs s =
    (Ok (astype_float32 (obs_parts (AntEnv.mujoco_env s))), s).
Proof.
  unfold AntEnv.get_current_obs, get, mbind, M_bind, mret, M_ret, obs_parts.
  cbn. rewrite flat_np_clip. reflexivity.
Qed.

End AntEnvFacts.

(** ** The heap *)

Section WorldFacts.
Context {V Self : Type} (cache_of : Self → option (list spec_float)).
Implicit Types w : World V Self.

Lemma keeps_refl w : keeps cache_of w w.
Proof. split; auto. Qed.

Lemma keeps_trans w1 w2 w3 :
  keeps cache_of w1 w2 → keeps cache_of w2 w3 → keeps cache_of w1 w3.
Proof. intros [H1 H2] [H3 H4]. split; auto. Qed.

Lemma keeps_same_heap w w' :
  heap w' = heap w →
  (∀ v, cache_of (self w) = Some v → cache_of (self w') = Some v) →
  keeps cache_of w w'.
Proof. intros Hh Hc. split; [|done]. intros l d. by rewrite Hh. Qed.

Lemma fresh_not_allocated w : heap w !! fresh (dom (heap w)) = None.
Proof. apply not_elem_of_dom, is_fresh. Qed.

Lemma new_dict_run d w :
  new_dict d w =
    (Ok (fresh (dom (heap w))),
     mkWorld (<[fresh (dom (heap w)) := d]> (heap w)) (self w)).
Proof. reflexivity. Qed.

Lemma deref_run l d w : heap w !! l = Some d → deref l w = (Ok d, w).
Proof. intros H. unfold deref. by rewrite H. Qed.

(** A list comprehension of dictionary displays: as many new objects as
    there are values, in order, all distinct, none of them an object that
    existed before; the objects that existed are left as they were. *)
Lemma mapM_new_dict (f : V → gmap string V) (xs : list V) w :
  ∃ ls w',
    mapM (λ x, new_dict (Self:=Self) (f x)) xs w = (Ok ls, w') ∧
    self w' = self w ∧
    Forall2 (λ l x, heap w' !! l = Some (f x)) ls xs ∧
    Forall (λ l, heap w !! l = None) ls ∧
    NoDup ls ∧
    (∀ l d, heap w !! l = Some d → heap w' !! l = Some d).
Proof.
  revert w. induction xs as [|x xs IH]; intros w.
  - exists [], w. cbn. repeat split; auto using NoDup_nil_2.
  - pose proof (fresh_not_allocated w) as Hfr.
    set (l := fresh (dom (heap w))) in *.
    set (w1 := mkWorld (<[l := f x]> (heap w)) (self w)).
    destruct (IH w1) as (ls & w' & Hrun & Hself & Hall & Hnew & Hnd & Hold).
    exists (l :: ls), w'.
    assert (Hl : heap w1 !! l = Some (f x)) by apply lookup_insert_eq.
    repeat split.
    + cbn [mapM]. rewrite (bind_run _ _ w l w1) by apply new_dict_run.
      fold (mapM (λ x, new_dict (Self:=Self) (f x)) xs).
      rewrite (bind_run _ _ w1 ls w') by exact Hrun. reflexivity.
    + by rewrite Hself.
    + constructor; [by apply Hold | exact Hall].
    + constructor; [exact Hfr|].
      eapply Forall_impl; [exact Hnew|]. intros l' Hl'. cbn in Hl'.
      destruct (decide (l = l')) as [->|Hne].
      * by rewrite lookup_insert_eq in Hl'.
      * by rewrite lookup_insert_ne in Hl'.
    + constructor; [|exact Hnd].
      intros Hin. rewrite Forall_forall in Hnew.
      specialize (Hnew _ Hin). congruence.
    + intros l' d Hd. apply Hold. cbn.
      destruct (decide (l = l')) as [<-|Hne]; [congruence|].
      by rewrite lookup_insert_ne.
Qed.

End WorldFacts.

(** ** The velocity variant *)

Section VelFacts.
Context {Sim Rng : Type} `{!MujocoEnv Sim, !RandomState Rng, !Numpy}.
Implicit Types w : World spec_float (AntVelEnv.t Sim Rng).

Lemma vel_on_super_run {A} (m : M (AntEnv.t Sim Rng) A) h sup tk g :
  AntVelEnv.on_super m (mkWorld h (AntVelEnv.mk sup tk g)) =
    let '(r, sup') := m sup in (r, mkWorld h (AntVelEnv.mk sup' tk g)).
Proof.
  unfold AntVelEnv.on_super, on_self, zoom; cbn. by destruct (m sup).
Qed.

Lemma vel_on_mujoco_run {A} (m : M Sim A) h mj (rng : Rng) sc tk g :
  AntVelEnv.on_mujoco m
      (mkWorld h (AntVelEnv.mk (AntEnv.mk mj rng sc) tk g)) =
    let '(r, mj') := m mj in
    (r, mkWorld h (AntVelEnv.mk (AntEnv.mk mj' rng sc) tk g)).
Proof.
  unfold AntVelEnv.on_mujoco. rewrite vel_on_super_run.
  unfold zoom; cbn. by destruct (m mj).
Qed.

(** What a returning [step] has done. *)
Lemma vel_step_inv a w o r d i w' :
  AntVelEnv.step a w = (Ok (o, r, d, i), w') →
  ∃ mj fv scaling quot sup,
    forward_dynamics a (AntVelEnv.mujoco w) = (Ok tt, mj) ∧
    get_body_comvel "torso" mj !! 0%nat = Some fv ∧
    AntEnv.action_scaling
        (AntEnv.set_mujoco_env mj (AntVelEnv.super (self w)))
      = (Ok scaling, sup) ∧
    broadcast F64.div a scaling = Ok quot ∧
    w' = mkWorld (heap w) (AntVelEnv.set_super sup (self w)) ∧
    AntEnv.mujoco_env sup = mj ∧
    o = astype_float32 (obs_parts mj) ∧
    i = AntVelEnv.mk_infos
          (vel_reward fv (AntVelEnv._goal_vel (self w)))
          (F64.neg (ctrl_cost_of quot))
          (F64.neg (contact_cost_of (cfrc_ext mj)))
          F64.c_0_05 (AntVelEnv._task (self w)) ∧
    r = F64.add (F64.sub (F64.sub
                   (vel_reward fv (AntVelEnv._goal_vel (self w)))
                   (ctrl_cost_of quot))
                   (contact_cost_of (cfrc_ext mj))) F64.c_0_05 ∧
    d = negb (notdone_of (state_vector mj)).
Proof.
  destruct w as [h [[mj0 rng sc] tk g]]. unfold AntVelEnv.step.
  intros Hs.
  apply bind_Ok in Hs as ([] & w1 & H1 & Hs).
  rewrite vel_on_mujoco_run in H1.
  destruct (forward_dynamics a mj0) as [r1 mj] eqn:Hfd.
  injection H1 as -> <-.
  apply bind_Ok in Hs as (comvel & w1 & H1 & Hs).
  rewrite vel_on_mujoco_run in H1. injection H1 as <- <-.
  apply bind_Ok in Hs as (fv & w1 & H1 & Hs).
  unfold lift_res, getitem in H1.
  destruct (get_body_comvel "torso" mj !! 0%nat) as [fv'|] eqn:Hfv;
    [|discriminate]. injection H1 as -> <-.
  apply bind_Ok in Hs as (goal_vel & w1 & H1 & Hs).
  injection H1 as <- <-. cbn [self AntVelEnv._goal_vel] in Hs.
  apply bind_Ok in Hs as (scaling & w1 & H1 & Hs).
  rewrite vel_on_super_run in H1.
  destruct (AntEnv.action_scaling (AntEnv.mk mj rng sc))
    as [rs sup] eqn:Hsc.
  injection H1 as -> <-.
  destruct (action_scaling_inv _ _ _ Hsc) as (Hmj & _ & _ & _).
  cbn in Hmj.
  apply bind_Ok in Hs as (quot & w1 & H1 & Hs).
  unfold lift_res in H1. injection H1 as Hq <-.
  apply bind_Ok in Hs as (cfrc & w1 & H1 & Hs).
  destruct sup as [mj' rng' sc']. cbn in Hmj. subst mj'.
  rewrite vel_on_mujoco_run in H1. injection H1 as <- <-.
  apply bind_Ok in Hs as (obs & w1 & H1 & Hs).
  rewrite vel_on_super_run, get_current_obs_run in H1.
  injection H1 as <- <-.
  apply bind_Ok in Hs as (state & w1 & H1 & Hs).
  rewrite vel_on_mujoco_run in H1. injection H1 as <- <-.
  cbn [AntEnv.mujoco_env] in Hs.
  apply bind_Ok in Hs as (notdone & w1 & H1 & Hs).
  apply bind_Ok in Hs as (task & w2 & H2 & Hs).
  assert (Hnd : notdone = notdone_of (state_vector mj) ∧
                w1 = mkWorld h (AntVelEnv.mk (AntEnv.mk mj rng' sc') tk g)).
  { unfold notdone_of. clear Hs H2. revert H1.
    destruct (all (np_isfinite (state_vector mj))); cbn [andb].
    - unfold lift_res, getitem.
      destruct (state_vector mj !! 2%nat) as [x|]; [|discriminate].
      unfold mbind at 1, M_bind at 1.
      destruct (F64.geb x F64.c_0_2); cbn [andb].
      + unfold mbind, M_bind, mret, M_ret. by intros [= <- <-].
      + by intros [= <- <-].
    - by intros [= <- <-]. }
  destruct Hnd as [-> ->].
  injection H2 as <- <-. injection Hs as <- <- <- <- <-.
  exists mj, fv, scaling, quot, (AntEnv.mk mj rng' sc').
  cbn. repeat split; auto.
Qed.

(** When [step] returns. *)
Lemma vel_step_run a w mj fv scaling sup quot :
  forward_dynamics a (AntVelEnv.mujoco w) = (Ok tt, mj) →
  get_body_comvel "torso" mj !! 0%nat = Some fv →
  AntEnv.action_scaling
      (AntEnv.set_mujoco_env mj (AntVelEnv.super (self w)))
    = (Ok scaling, sup) →
  broadcast F64.div a scaling = Ok quot →
  (all (np_isfinite (state_vector mj)) = true →
   is_Some (state_vector mj !! 2%nat)) →
  ∃ res, AntVelEnv.step a w
         = (Ok res, mkWorld (heap w) (AntVelEnv.set_super sup (self w))).
Proof.
  destruct w as [h [[mj0 rng sc] tk g]].
  unfold AntVelEnv.mujoco; cbn. intros Hfd Hfv Hsc Hq Hlen.
  destruct (action_scaling_inv _ _ _ Hsc) as (Hmj & _ & _ & _).
  destruct sup as [mj' rng' sc']. cbn in Hmj. subst mj'.
  pose (w1 := mkWorld h (AntVelEnv.mk (AntEnv.mk mj rng sc) tk g)).
  pose (w2 := mkWorld h (AntVelEnv.mk (AntEnv.mk mj rng' sc') tk g)).
  eexists. unfold AntVelEnv.step.
  rewrite (bind_run _ _ _ tt w1) by by rewrite vel_on_mujoco_run, Hfd.
  rewrite (bind_run _ _ w1 (get_body_comvel "torso" mj) w1)
    by by unfold w1; rewrite vel_on_mujoco_run.
  rewrite (bind_run _ _ w1 fv w1) by by unfold lift_res, getitem; rewrite Hfv.
  rewrite (bind_run _ _ w1 g w1) by reflexivity.
  rewrite (bind_run _ _ w1 scaling w2)
    by (unfold w1; rewrite vel_on_super_run;
        unfold AntEnv.set_mujoco_env in Hsc; cbn in Hsc; by rewrite Hsc).
  rewrite (bind_run _ _ w2 quot w2) by by unfold lift_res; rewrite Hq.
  rewrite (bind_run _ _ w2 (cfrc_ext mj) w2)
    by by unfold w2; rewrite vel_on_mujoco_run.
  rewrite (bind_run _ _ w2 (astype_float32 (obs_parts mj)) w2)
    by by unfold w2; rewrite vel_on_super_run, get_current_obs_run.
  rewrite (bind_run _ _ w2 (state_vector mj) w2)
    by by unfold w2; rewrite vel_on_mujoco_run.
  rewrite (bind_run _ _ w2 (notdone_of (state_vector mj)) w2)
    by by apply notdone_run.
  rewrite (bind_run _ _ w2 tk w2) by reflexivity.
  reflexivity.
Qed.
(** What any [step] leaves in place, whether it returns or raises: the
    heap, the task and its goal, the generator, and a cached scaling. *)
Lemma vel_step_frame a w :
  let w' := (AntVelEnv.step a w).2 in
  heap w' = heap w ∧
  AntVelEnv._task (self w') = AntVelEnv._task (self w) ∧
  AntVelEnv._goal_vel (self w') = AntVelEnv._goal_vel (self w) ∧
  AntEnv.np_random (AntVelEnv.super (self w'))
    = AntEnv.np_random (AntVelEnv.super (self w)) ∧
  (∀ v, AntVelEnv.cache w = Some v → AntVelEnv.cache w' = Some v).
Proof.
  set (R := λ w w' : World spec_float (AntVelEnv.t Sim Rng),
         heap w' = heap w ∧
         AntVelEnv._task (self w') = AntVelEnv._task (self w) ∧
         AntVelEnv._goal_vel (self w') = AntVelEnv._goal_vel (self w) ∧
         AntEnv.np_random (AntVelEnv.super (self w'))
           = AntEnv.np_random (AntVelEnv.super (self w)) ∧
         (∀ v, AntVelEnv.cache w = Some v → AntVelEnv.cache w' = Some v)).
  assert (Htrans : ∀ x y z, R x y → R y z → R x z).
  { intros x y z (?&?&?&?&?) (?&?&?&?&?). unfold R.
    repeat split; try congruence. auto. }
  assert (Hrefl : ∀ x, R x x) by (intros x; unfold R; auto).
  assert (Hmj : ∀ A (m : M Sim A) x, R x (AntVelEnv.on_mujoco m x).2).
  { intros A m [h [[mj rng sc] tk g]]. rewrite vel_on_mujoco_run.
    destruct (m mj). unfold R. cbn. auto. }
  assert (Hsc : ∀ x, R x (AntVelEnv.on_super AntEnv.action_scaling x).2).
  { intros [h [sup tk g]]. rewrite vel_on_super_run.
    destruct (AntEnv.action_scaling sup) as [r sup'] eqn:E.
    destruct (action_scaling_inv _ _ _ E) as (_ & Hr & _ & Hc).
    unfold R, AntVelEnv.cache. cbn. repeat split; auto.
    intros v Hv. by destruct (Hc v Hv) as [_ ->]. }
  assert (Hobs : ∀ x, R x (AntVelEnv.on_super AntEnv.get_current_obs x).2).
  { intros [h [sup tk g]].
    rewrite vel_on_super_run, get_current_obs_run. apply Hrefl. }
  change (R w (AntVelEnv.step a w).2). unfold AntVelEnv.step.
  repeat first
    [ apply bind_preserves; [exact Htrans | | intros ? ?]
    | apply Hmj | apply Hsc | apply Hobs | apply Hrefl ].
  destruct (all _); [|apply Hrefl].
  apply bind_preserves; [exact Htrans | apply Hrefl | intros ? ?].
  destruct (F64.geb _ _); [|apply Hrefl].
  apply bind_preserves; [exact Htrans | apply Hrefl | intros ? ?].
  apply Hrefl.
Qed.

Lemma vel_reset_task_run l d v w :
  heap w !! l = Some d → d !! "velocity" = Some v →
  AntVelEnv.reset_task l w =
    (Ok tt, mkWorld (heap w) (AntVelEnv.mk (AntVelEnv.super (self w)) l v)).
Proof.
  intros Hl Hv. destruct w as [h [sup tk g]]. cbn in Hl.
  unfold AntVelEnv.reset_task, on_self, zoom, modify, deref, lift_res,
    dict_getitem, mbind, M_bind; cbn.
  rewrite Hl, Hv. reflexivity.
Qed.

Lemma vel_reset_task_missing l d w :
  heap w !! l = Some d → d !! "velocity" = None →
  AntVelEnv.reset_task l w =
    (Raise KeyError, mkWorld (heap w) (AntVelEnv.set_task l (self w))).
Proof.
  intros Hl Hv. destruct w as [h [sup tk g]]. cbn in Hl.
  unfold AntVelEnv.reset_task, on_self, zoom, modify, deref, lift_res,
    dict_getitem, mbind, M_bind; cbn.
  rewrite Hl, Hv. reflexivity.
Qed.

(** Whatever [reset_task] does, it leaves the heap and the base-class
    part of the instance alone. *)
Lemma vel_reset_task_frame l w :
  heap (AntVelEnv.reset_task l w).2 = heap w ∧
  AntVelEnv.super (self (AntVelEnv.reset_task l w).2)
    = AntVelEnv.super (self w).
Proof.
  destruct w as [h [sup tk g]].
  unfold AntVelEnv.reset_task, on_self, zoom, modify, deref, lift_res,
    dict_getitem, mbind, M_bind; cbn.
  destruct (h !! l) as [d|]; cbn; [|done].
  destruct (d !! "velocity"); done.
Qed.

(** [sample_tasks] always returns: one new dictionary per draw. *)
Lemma vel_sample_tasks_run n w :
  let rng := AntEnv.np_random (AntVelEnv.super (self w)) in
  let draws := (uniform F64.zero F64.c_3_0 [n] rng).1 in
  ∃ ls w',
    AntVelEnv.sample_tasks n w = (Ok ls, w') ∧
    Forall2 (λ l v, heap w' !! l = Some {[ "velocity" := v ]}) ls draws ∧
    Forall (λ l, heap w !! l = None) ls ∧
    NoDup ls ∧
    (∀ l d, heap w !! l = Some d → heap w' !! l = Some d) ∧
    self w' =
      AntVelEnv.set_super
        (AntEnv.set_np_random (uniform F64.zero F64.c_3_0 [n] rng).2
           (AntVelEnv.super (self w))) (self w).
Proof.
  destruct w as [h [[mj rng0 sc] tk g]]. cbn.
  destruct (uniform F64.zero F64.c_3_0 [n] rng0) as [xs rng1] eqn:Hu.
  set (w1 := mkWorld h (AntVelEnv.mk (AntEnv.mk mj rng1 sc) tk g)).
  destruct (mapM_new_dict (Self:=AntVelEnv.t Sim Rng)
              (λ v : spec_float, {[ "velocity" := v ]}) xs w1)
    as (ls & w' & Hrun & Hself & Hall & Hnew & Hnd & Hold).
  exists ls, w'. repeat split; auto.
  unfold AntVelEnv.sample_tasks.
  erewrite bind_run; [erewrite bind_run; [reflexivity | exact Hrun]|].
  rewrite vel_on_super_run. unfold zoom. cbn. by rewrite Hu.
Qed.

Lemma vel_exec_keeps c w :
  keeps (λ s, AntEnv._action_scaling (AntVelEnv.super s))
        w (AntVelEnv.exec c w).
Proof.
  destruct c as [a|n|l| | |m]; cbn [AntVelEnv.exec].
  - destruct (vel_step_frame a w) as (Hh & _ & _ & _ & Hc).
    by apply keeps_same_heap.
  - destruct (vel_sample_tasks_run n w) as (ls & w' & -> & _ & _ & _ & Hold & Hs).
    split; [exact Hold|]. cbn. rewrite Hs. by destruct w as [h [[] ? ?]].
  - destruct (vel_reset_task_frame l w) as [Hh Hs].
    apply keeps_same_heap; [done|]. by rewrite Hs.
  - destruct w as [h [sup tk g]]. rewrite vel_on_super_run.
    destruct (AntEnv.action_scaling sup) as [r sup'] eqn:E.
    destruct (action_scaling_inv _ _ _ E) as (_ & _ & _ & Hc).
    apply keeps_same_heap; [done|]. cbn. intros v Hv.
    by destruct (Hc v Hv) as [_ ->].
  - destruct w as [h [sup tk g]].
    rewrite vel_on_super_run, get_current_obs_run. apply keeps_refl.
  - destruct w as [h [[mj rng sc] tk g]]. rewrite vel_on_mujoco_run.
    destruct (m mj). by apply keeps_same_heap.
Qed.

Lemma vel_execs_keeps cs w :
  keeps (λ s, AntEnv._action_scaling (AntVelEnv.super s))
        w (AntVelEnv.execs cs w).
Proof.
  revert w. induction cs as [|c cs IH]; intros w; [apply keeps_refl|].
  cbn. eapply keeps_trans; [apply vel_exec_keeps | apply IH].
Qed.

End VelFacts.

(** ** The direction variant *)

Section DirFacts.
Context {Sim Rng : Type} `{!MujocoEnv Sim, !RandomState Rng, !Numpy}.
Implicit Types w : World Z (AntDirEnv.t Sim Rng).

Lemma dir_on_super_run {A} (m : M (AntEnv.t Sim Rng) A) h sup tk g :
  AntDirEnv.on_super m (mkWorld h (AntDirEnv.mk sup tk g)) =
    let '(r, sup') := m sup in (r, mkWorld h (AntDirEnv.mk sup' tk g)).
Proof.
  unfold AntDirEnv.on_super, on_self, zoom; cbn. by destruct (m sup).
Qed.

Lemma dir_on_mujoco_run {A} (m : M Sim A) h mj (rng : Rng) sc tk (g : Z) :
  AntDirEnv.on_mujoco m
      (mkWorld h (AntDirEnv.mk (AntEnv.mk mj rng sc) tk g)) =
    let '(r, mj') := m mj in
    (r, mkWorld h (AntDirEnv.mk (AntEnv.mk mj' rng sc) tk g)).
Proof.
  unfold AntDirEnv.on_mujoco. rewrite dir_on_super_run.
  unfold zoom; cbn. by destruct (m mj).
Qed.

(** What a returning [step] has done. *)
Lemma dir_step_inv a w o r d i w' :
  AntDirEnv.step a w = (Ok (o, r, d, i), w') →
  ∃ mj fv scaling quot sup,
    forward_dynamics a (AntDirEnv.mujoco w) = (Ok tt, mj) ∧
    get_body_comvel "torso" mj !! 0%nat = Some fv ∧
    AntEnv.action_scaling
        (AntEnv.set_mujoco_env mj (AntDirEnv.super (self w)))
      = (Ok scaling, sup) ∧
    broadcast F64.div a scaling = Ok quot ∧
    w' = mkWorld (heap w) (AntDirEnv.set_super sup (self w)) ∧
    AntEnv.mujoco_env sup = mj ∧
    o = astype_float32 (obs_parts mj) ∧
    i = AntDirEnv.mk_infos
          (dir_reward fv (AntDirEnv._goal_dir (self w)))
          (F64.neg (ctrl_cost_of quot))
          (F64.neg (contact_cost_of (cfrc_ext mj)))
          F64.c_0_05 (AntDirEnv._task (self w)) ∧
    r = F64.add (F64.sub (F64.sub
                   (dir_reward fv (AntDirEnv._goal_dir (self w)))
                   (ctrl_cost_of quot))
                   (contact_cost_of (cfrc_ext mj))) F64.c_0_05 ∧
    d = negb (notdone_of (state_vector mj)).
Proof.
  destruct w as [h [[mj0 rng sc] tk g]]. unfold AntDirEnv.step.
  intros Hs.
  apply bind_Ok in Hs as ([] & w1 & H1 & Hs).
  rewrite dir_on_mujoco_run in H1.
  destruct (forward_dynamics a mj0) as [r1 mj] eqn:Hfd.
  injection H1 as -> <-.
  apply bind_Ok in Hs as (comvel & w1 & H1 & Hs).
  rewrite dir_on_mujoco_run in H1. injection H1 as <- <-.
  apply bind_Ok in Hs as (fv & w1 & H1 & Hs).
  unfold lift_res, getitem in H1.
  destruct (get_body_comvel "torso" mj !! 0%nat) as [fv'|] eqn:Hfv;
    [|discriminate]. injection H1 as -> <-.
  apply bind_Ok in Hs as (goal_dir & w1 & H1 & Hs).
  injection H1 as <- <-. cbn [self AntDirEnv._goal_dir] in Hs.
  apply bind_Ok in Hs as (scaling & w1 & H1 & Hs).
  rewrite dir_on_super_run in H1.
  destruct (AntEnv.action_scaling (AntEnv.mk mj rng sc))
    as [rs sup] eqn:Hsc.
  injection H1 as -> <-.
  destruct (action_scaling_inv _ _ _ Hsc) as (Hmj & _ & _ & _).
  cbn in Hmj.
  apply bind_Ok in Hs as (quot & w1 & H1 & Hs).
  unfold lift_res in H1. injection H1 as Hq <-.
  apply bind_Ok in Hs as (cfrc & w1 & H1 & Hs).
  destruct sup as [mj' rng' sc']. cbn in Hmj. subst mj'.
  rewrite dir_on_mujoco_run in H1. injection H1 as <- <-.
  apply bind_Ok in Hs as (obs & w1 & H1 & Hs).
  rewrite dir_on_super_run, get_current_obs_run in H1.
  injection H1 as <- <-.
  apply bind_Ok in Hs as (state & w1 & H1 & Hs).
  rewrite dir_on_mujoco_run in H1. injection H1 as <- <-.
  cbn [AntEnv.mujoco_env] in Hs.
  apply bind_Ok in Hs as (notdone & w1 & H1 & Hs).
  apply bind_Ok in Hs as (task & w2 & H2 & Hs).
  assert (Hnd : notdone = notdone_of (state_vector mj) ∧
                w1 = mkWorld h (AntDirEnv.mk (AntEnv.mk mj rng' sc') tk g)).
  { unfold notdone_of. clear Hs H2. revert H1.
    destruct (all (np_isfinite (state_vector mj))); cbn [andb].
    - unfold lift_res, getitem.
      destruct (state_vector mj !! 2%nat) as [x|]; [|discriminate].
      unfold mbind at 1, M_bind at 1.
      destruct (F64.geb x F64.c_0_2); cbn [andb].
      + unfold mbind, M_bind, mret, M_ret. by intros [= <- <-].
      + by intros [= <- <-].
    - by intros [= <- <-]. }
  destruct Hnd as [-> ->].
  injection H2 as <- <-. injection Hs as <- <- <- <- <-.
  exists mj, fv, scaling, quot, (AntEnv.mk mj rng' sc').
  cbn. repeat split; auto.
Qed.

(** When [step] returns. *)
Lemma dir_step_run a w mj fv scaling sup quot :
  forward_dynamics a (AntDirEnv.mujoco w) = (Ok tt, mj) →
  get_body_comvel "torso" mj !! 0%nat = Some fv →
  AntEnv.action_scaling
      (AntEnv.set_mujoco_env mj (AntDirEnv.super (self w)))
    = (Ok scaling, sup) →
  broadcast F64.div a scaling = Ok quot →
  (all (np_isfinite (state_vector mj)) = true →
   is_Some (state_vector mj !! 2%nat)) →
  ∃ res, AntDirEnv.step a w
         = (Ok res, mkWorld (heap w) (AntDirEnv.set_super sup (self w))).
Proof.
  destruct w as [h [[mj0 rng sc] tk g]].
  unfold AntDirEnv.mujoco; cbn. intros Hfd Hfv Hsc Hq Hlen.
  destruct (action_scaling_inv _ _ _ Hsc) as (Hmj & _ & _ & _).
  destruct sup as [mj' rng' sc']. cbn in Hmj. subst mj'.
  pose (w1 := mkWorld h (AntDirEnv.mk (AntEnv.mk mj rng sc) tk g)).
  pose (w2 := mkWorld h (AntDirEnv.mk (AntEnv.mk mj rng' sc') tk g)).
  eexists. unfold AntDirEnv.step.
  rewrite (bind_run _ _ _ tt w1) by by rewrite dir_on_mujoco_run, Hfd.
  rewrite (bind_run _ _ w1 (get_body_comvel "torso" mj) w1)
    by by unfold w1; rewrite dir_on_mujoco_run.
  rewrite (bind_run _ _ w1 fv w1) by by unfold lift_res, getitem; rewrite Hfv.
  rewrite (bind_run _ _ w1 g w1) by reflexivity.
  rewrite (bind_run _ _ w1 scaling w2)
    by (unfold w1; rewrite dir_on_super_run;
        unfold AntEnv.set_mujoco_env in Hsc; cbn in Hsc; by rewrite Hsc).
  rewrite (bind_run _ _ w2 quot w2) by by unfold lift_res; rewrite Hq.
  rewrite (bind_run _ _ w2 (cfrc_ext mj) w2)
    by by unfold w2; rewrite dir_on_mujoco_run.
  rewrite (bind_run _ _ w2 (astype_float32 (obs_parts mj)) w2)
    by by unfold w2; rewrite dir_on_super_run, get_current_obs_run.
  rewrite (bind_run _ _ w2 (state_vector mj) w2)
    by by unfold w2; rewrite dir_on_mujoco_run.
  rewrite (bind_run _ _ w2 (notdone_of (state_vector mj)) w2)
    by by apply notdone_run.
  rewrite (bind_run _ _ w2 tk w2) by reflexivity.
  reflexivity.
Qed.
(** What any [step] leaves in place, whether it returns or raises: the
    heap, the task and its goal, the generator, and a cached scaling. *)
Lemma dir_step_frame a w :
  let w' := (AntDirEnv.step a w).2 in
  heap w' = heap w ∧
  AntDirEnv._task (self w') = AntDirEnv._task (self w) ∧
  AntDirEnv._goal_dir (self w') = AntDirEnv._goal_dir (self w) ∧
  AntEnv.np_random (AntDirEnv.super (self w'))
    = AntEnv.np_random (AntDirEnv.super (self w)) ∧
  (∀ v, AntDirEnv.cache w = Some v → AntDirEnv.cache w' = Some v).
Proof.
  set (R := λ w w' : World Z (AntDirEnv.t Sim Rng),
         heap w' = heap w ∧
         AntDirEnv._task (self w') = AntDirEnv._task (self w) ∧
         AntDirEnv._goal_dir (self w') = AntDirEnv._goal_dir (self w) ∧
         AntEnv.np_random (AntDirEnv.super (self w'))
           = AntEnv.np_random (AntDirEnv.super (self w)) ∧
         (∀ v, AntDirEnv.cache w = Some v → AntDirEnv.cache w' = Some v)).
  assert (Htrans : ∀ x y z, R x y → R y z → R x z).
  { intros x y z (?&?&?&?&?) (?&?&?&?&?). unfold R.
    repeat split; try congruence. auto. }
  assert (Hrefl : ∀ x, R x x) by (intros x; unfold R; auto).
  assert (Hmj : ∀ A (m : M Sim A) x, R x (AntDirEnv.on_mujoco m x).2).
  { intros A m [h [[mj rng sc] tk g]]. rewrite dir_on_mujoco_run.
    destruct (m mj). unfold R. cbn. auto. }
  assert (Hsc : ∀ x, R x (AntDirEnv.on_super AntEnv.action_scaling x).2).
  { intros [h [sup tk g]]. rewrite dir_on_super_run.
    destruct (AntEnv.action_scaling sup) as [r sup'] eqn:E.
    destruct (action_scaling_inv _ _ _ E) as (_ & Hr & _ & Hc).
    unfold R, AntDirEnv.cache. cbn. repeat split; auto.
    intros v Hv. by destruct (Hc v Hv) as [_ ->]. }
  assert (Hobs : ∀ x, R x (AntDirEnv.on_super AntEnv.get_current_obs x).2).
  { intros [h [sup tk g]].
    rewrite dir_on_super_run, get_current_obs_run. apply Hrefl. }
  change (R w (AntDirEnv.step a w).2). unfold AntDirEnv.step.
  repeat first
    [ apply bind_preserves; [exact Htrans | | intros ? ?]
    | apply Hmj | apply Hsc | apply Hobs | apply Hrefl ].
  destruct (all _); [|apply Hrefl].
  apply bind_preserves; [exact Htrans | apply Hrefl | intros ? ?].
  destruct (F64.geb _ _); [|apply Hrefl].
  apply bind_preserves; [exact Htrans | apply Hrefl | intros ? ?].
  apply Hrefl.
Qed.

Lemma dir_reset_task_run l d v w :
  heap w !! l = Some d → d !! "direction" = Some v →
  AntDirEnv.reset_task l w =
    (Ok tt, mkWorld (heap w) (AntDirEnv.mk (AntDirEnv.super (self w)) l v)).
Proof.
  intros Hl Hv. destruct w as [h [sup tk g]]. cbn in Hl.
  unfold AntDirEnv.reset_task, on_self, zoom, modify, deref, lift_res,
    dict_getitem, mbind, M_bind; cbn.
  rewrite Hl, Hv. reflexivity.
Qed.

Lemma dir_reset_task_missing l d w :
  heap w !! l = Some d → d !! "direction" = None →
  AntDirEnv.reset_task l w =
    (Raise KeyError, mkWorld (heap w) (AntDirEnv.set_task l (self w))).
Proof.
  intros Hl Hv. destruct w as [h [sup tk g]]. cbn in Hl.
  unfold AntDirEnv.reset_task, on_self, zoom, modify, deref, lift_res,
    dict_getitem, mbind, M_bind; cbn.
  rewrite Hl, Hv. reflexivity.
Qed.

(** Whatever [reset_task] does, it leaves the heap and the base-class
    part of the instance alone. *)
Lemma dir_reset_task_frame l w :
  heap (AntDirEnv.reset_task l w).2 = heap w ∧
  AntDirEnv.super (self (AntDirEnv.reset_task l w).2)
    = AntDirEnv.super (self w).
Proof.
  destruct w as [h [sup tk g]].
  unfold AntDirEnv.reset_task, on_self, zoom, modify, deref, lift_res,
    dict_getitem, mbind, M_bind; cbn.
  destruct (h !! l) as [d|]; cbn; [|done].
  destruct (d !! "direction"); done.
Qed.

(** [sample_tasks] always returns: one new dictionary per draw. *)
Lemma dir_sample_tasks_run n w :
  let rng := AntEnv.np_random (AntDirEnv.super (self w)) in
  let draws := (binomial 1 F64.c_0_5 [n] rng).1 in
  ∃ ls w',
    AntDirEnv.sample_tasks n w = (Ok ls, w') ∧
    Forall2 (λ l b, heap w' !! l
                    = Some {[ "direction" := wrap64 (wrap64 (2 * b) - 1) ]})
            ls draws ∧
    Forall (λ l, heap w !! l = None) ls ∧
    NoDup ls ∧
    (∀ l d, heap w !! l = Some d → heap w' !! l = Some d) ∧
    self w' =
      AntDirEnv.set_super
        (AntEnv.set_np_random (binomial 1 F64.c_0_5 [n] rng).2
           (AntDirEnv.super (self w))) (self w).
Proof.
  destruct w as [h [[mj rng0 sc] tk g]]. cbn.
  destruct (binomial 1 F64.c_0_5 [n] rng0) as [bs rng1] eqn:Hu.
  set (w1 := mkWorld h (AntDirEnv.mk (AntEnv.mk mj rng1 sc) tk g)).
  destruct (mapM_new_dict (Self:=AntDirEnv.t Sim Rng)
              (λ v : Z, {[ "direction" := v ]})
              (map (λ b, wrap64 (wrap64 (2 * b) - 1)) bs) w1)
    as (ls & w' & Hrun & Hself & Hall & Hnew & Hnd & Hold).
  exists ls, w'. repeat split; auto.
  - unfold AntDirEnv.sample_tasks.
    erewrite bind_run; [erewrite bind_run; [reflexivity | exact Hrun]|].
    rewrite dir_on_super_run. unfold zoom. cbn. by rewrite Hu.
  - cbn. by apply Forall2_fmap_r in Hall.
Qed.

Lemma dir_exec_keeps c w :
  keeps (λ s, AntEnv._action_scaling (AntDirEnv.super s))
        w (AntDirEnv.exec c w).
Proof.
  destruct c as [a|n|l| | |m]; cbn [AntDirEnv.exec].
  - destruct (dir_step_frame a w) as (Hh & _ & _ & _ & Hc).
    by apply keeps_same_heap.
  - destruct (dir_sample_tasks_run n w) as (ls & w' & -> & _ & _ & _ & Hold & Hs).
    split; [exact Hold|]. cbn. rewrite Hs. by destruct w as [h [[] ? ?]].
  - destruct (dir_reset_task_frame l w) as [Hh Hs].
    apply keeps_same_heap; [done|]. by rewrite Hs.
  - destruct w as [h [sup tk g]]. rewrite dir_on_super_run.
    destruct (AntEnv.action_scaling sup) as [r sup'] eqn:E.
    destruct (action_scaling_inv _ _ _ E) as (_ & _ & _ & Hc).
    apply keeps_same_heap; [done|]. cbn. intros v Hv.
    by destruct (Hc v Hv) as [_ ->].
  - destruct w as [h [sup tk g]].
    rewrite dir_on_super_run, get_current_obs_run. apply keeps_refl.
  - destruct w as [h [[mj rng sc] tk g]]. rewrite dir_on_mujoco_run.
    destruct (m mj). by apply keeps_same_heap.
Qed.

Lemma dir_execs_keeps cs w :
  keeps (λ s, AntEnv._action_scaling (AntDirEnv.super s))
        w (AntDirEnv.execs cs w).
Proof.
  revert w. induction cs as [|c cs IH]; intros w; [apply keeps_refl|].
  cbn. eapply keeps_trans; [apply dir_exec_keeps | apply IH].
Qed.

End DirFacts.

(** ** The position variant *)

Section PosFacts.
Context {Sim Rng : Type} `{!MujocoEnv Sim, !RandomState Rng, !Numpy}.
Implicit Types w : World (list spec_float) (AntPosEnv.t Sim Rng).

Lemma pos_on_super_run {A} (m : M (AntEnv.t Sim Rng) A) h sup tk g :
  AntPosEnv.on_super m (mkWorld h (AntPosEnv.mk sup tk g)) =
    let '(r, sup') := m sup in (r, mkWorld h (AntPosEnv.mk sup' tk g)).
Proof.
  unfold AntPosEnv.on_super, on_self, zoom; cbn. by destruct (m sup).
Qed.

Lemma pos_on_mujoco_run {A} (m : M Sim A) h mj (rng : Rng) sc tk (g : list spec_float) :
  AntPosEnv.on_mujoco m
      (mkWorld h (AntPosEnv.mk (AntEnv.mk mj rng sc) tk g)) =
    let '(r, mj') := m mj in
    (r, mkWorld h (AntPosEnv.mk (AntEnv.mk mj' rng sc) tk g)).
Proof.
  unfold AntPosEnv.on_mujoco. rewrite pos_on_super_run.
  unfold zoom; cbn. by destruct (m mj).
Qed.

(** What a returning [step] has done. *)
Lemma pos_step_inv a w o r d i w' :
  AntPosEnv.step a w = (Ok (o, r, d, i), w') →
  ∃ mj diff scaling quot sup,
    forward_dynamics a (AntPosEnv.mujoco w) = (Ok tt, mj) ∧
    broadcast F64.sub (take 2 (get_body_com "torso" mj))
              (AntPosEnv._goal_pos (self w)) = Ok diff ∧
    AntEnv.action_scaling
        (AntEnv.set_mujoco_env mj (AntPosEnv.super (self w)))
      = (Ok scaling, sup) ∧
    broadcast F64.div a scaling = Ok quot ∧
    w' = mkWorld (heap w) (AntPosEnv.set_super sup (self w)) ∧
    AntEnv.mujoco_env sup = mj ∧
    o = astype_float32 (obs_parts mj) ∧
    i = AntPosEnv.mk_infos
          (pos_reward diff)
          (F64.neg (ctrl_cost_of quot))
          (F64.neg (contact_cost_of (cfrc_ext mj)))
          F64.c_0_05 (AntPosEnv._task (self w)) ∧
    r = F64.add (F64.sub (F64.sub (pos_reward diff) (ctrl_cost_of quot))
                   (contact_cost_of (cfrc_ext mj))) F64.c_0_05 ∧
    d = negb (notdone_of (state_vector mj)).
Proof.
  destruct w as [h [[mj0 rng sc] tk g]]. unfold AntPosEnv.step.
  intros Hs.
  apply bind_Ok in Hs as ([] & w1 & H1 & Hs).
  rewrite pos_on_mujoco_run in H1.
  destruct (forward_dynamics a mj0) as [r1 mj] eqn:Hfd.
  injection H1 as -> <-.
  apply bind_Ok in Hs as (com & w1 & H1 & Hs).
  rewrite pos_on_mujoco_run in H1. injection H1 as <- <-.
  apply bind_Ok in Hs as (goal_pos & w1 & H1 & Hs).
  injection H1 as <- <-. cbn [self AntPosEnv._goal_pos] in Hs.
  apply bind_Ok in Hs as (diff & w1 & H1 & Hs).
  unfold lift_res in H1. injection H1 as Hdiff <-.
  apply bind_Ok in Hs as (scaling & w1 & H1 & Hs).
  rewrite pos_on_super_run in H1.
  destruct (AntEnv.action_scaling (AntEnv.mk mj rng sc))
    as [rs sup] eqn:Hsc.
  injection H1 as -> <-.
  destruct (action_scaling_inv _ _ _ Hsc) as (Hmj & _ & _ & _).
  cbn in Hmj.
  apply bind_Ok in Hs as (quot & w1 & H1 & Hs).
  unfold lift_res in H1. injection H1 as Hq <-.
  apply bind_Ok in Hs as (cfrc & w1 & H1 & Hs).
  destruct sup as [mj' rng' sc']. cbn in Hmj. subst mj'.
  rewrite pos_on_mujoco_run in H1. injection H1 as <- <-.
  apply bind_Ok in Hs as (obs & w1 & H1 & Hs).
  rewrite pos_on_super_run, get_current_obs_run in H1.
  injection H1 as <- <-.
  apply bind_Ok in Hs as (state & w1 & H1 & Hs).
  rewrite pos_on_mujoco_run in H1. injection H1 as <- <-.
  cbn [AntEnv.mujoco_env] in Hs.
  apply bind_Ok in Hs as (notdone & w1 & H1 & Hs).
  apply bind_Ok in Hs as (task & w2 & H2 & Hs).
  assert (Hnd : notdone = notdone_of (state_vector mj) ∧
                w1 = mkWorld h (AntPosEnv.mk (AntEnv.mk mj rng' sc') tk g)).
  { unfold notdone_of. clear Hs H2. revert H1.
    destruct (all (np_isfinite (state_vector mj))); cbn [andb].
    - unfold lift_res, getitem.
      destruct (state_vector mj !! 2%nat) as [x|]; [|discriminate].
      unfold mbind at 1, M_bind at 1.
      destruct (F64.geb x F64.c_0_2); cbn [andb].
      + unfold mbind, M_bind, mret, M_ret. by intros [= <- <-].
      + by intros [= <- <-].
    - by intros [= <- <-]. }
  destruct Hnd as [-> ->].
  injection H2 as <- <-. injection Hs as <- <- <- <- <-.
  exists mj, diff, scaling, quot, (AntEnv.mk mj rng' sc').
  cbn. repeat split; auto.
Qed.

(** When [step] returns. *)
Lemma pos_step_run a w mj diff scaling sup quot :
  forward_dynamics a (AntPosEnv.mujoco w) = (Ok tt, mj) →
  broadcast F64.sub (take 2 (get_body_com "torso" mj))
            (AntPosEnv._goal_pos (self w)) = Ok diff →
  AntEnv.action_scaling
      (AntEnv.set_mujoco_env mj (AntPosEnv.super (self w)))
    = (Ok scaling, sup) →
  broadcast F64.div a scaling = Ok quot →
  (all (np_isfinite (state_vector mj)) = true →
   is_Some (state_vector mj !! 2%nat)) →
  ∃ res, AntPosEnv.step a w
         = (Ok res, mkWorld (heap w) (AntPosEnv.set_super sup (self w))).
Proof.
  destruct w as [h [[mj0 rng sc] tk g]].
  unfold AntPosEnv.mujoco; cbn. intros Hfd Hdiff Hsc Hq Hlen.
  destruct (action_scaling_inv _ _ _ Hsc) as (Hmj & _ & _ & _).
  destruct sup as [mj' rng' sc']. cbn in Hmj. subst mj'.
  pose (w1 := mkWorld h (AntPosEnv.mk (AntEnv.mk mj rng sc) tk g)).
  pose (w2 := mkWorld h (AntPosEnv.mk (AntEnv.mk mj rng' sc') tk g)).
  eexists. unfold AntPosEnv.step.
  rewrite (bind_run _ _ _ tt w1) by by rewrite pos_on_mujoco_run, Hfd.
  rewrite (bind_run _ _ w1 (get_body_com "torso" mj) w1)
    by by unfold w1; rewrite pos_on_mujoco_run.
  rewrite (bind_run _ _ w1 g w1) by reflexivity.
  rewrite (bind_run _ _ w1 diff w1) by by unfold lift_res; rewrite Hdiff.
  rewrite (bind_run _ _ w1 scaling w2)
    by (unfold w1; rewrite pos_on_super_run;
        unfold AntEnv.set_mujoco_env in Hsc; cbn in Hsc; by rewrite Hsc).
  rewrite (bind_run _ _ w2 quot w2) by by unfold lift_res; rewrite Hq.
  rewrite (bind_run _ _ w2 (cfrc_ext mj) w2)
    by by unfold w2; rewrite pos_on_mujoco_run.
  rewrite (bind_run _ _ w2 (astype_float32 (obs_parts mj)) w2)
    by by unfold w2; rewrite pos_on_super_run, get_current_obs_run.
  rewrite (bind_run _ _ w2 (state_vector mj) w2)
    by by unfold w2; rewrite pos_on_mujoco_run.
  rewrite (bind_run _ _ w2 (notdone_of (state_vector mj)) w2)
    by by apply notdone_run.
  rewrite (bind_run _ _ w2 tk w2) by reflexivity.
  reflexivity.
Qed.

(** What any [step] leaves in place, whether it returns or raises: the
    heap, the task and its goal, the generator, and a cached scaling. *)
Lemma pos_step_frame a w :
  let w' := (AntPosEnv.step a w).2 in
  heap w' = heap w ∧
  AntPosEnv._task (self w') = AntPosEnv._task (self w) ∧
  AntPosEnv._goal_pos (self w') = AntPosEnv._goal_pos (self w) ∧
  AntEnv.np_random (AntPosEnv.super (self w'))
    = AntEnv.np_random (AntPosEnv.super (self w)) ∧
  (∀ v, AntPosEnv.cache w = Some v → AntPosEnv.cache w' = Some v).
Proof.
  set (R := λ w w' : World (list spec_float) (AntPosEnv.t Sim Rng),
         heap w' = heap w ∧
         AntPosEnv._task (self w') = AntPosEnv._task (self w) ∧
         AntPosEnv._goal_pos (self w') = AntPosEnv._goal_pos (self w) ∧
         AntEnv.np_random (AntPosEnv.super (self w'))
           = AntEnv.np_random (AntPosEnv.super (self w)) ∧
         (∀ v, AntPosEnv.cache w = Some v → AntPosEnv.cache w' = Some v)).
  assert (Htrans : ∀ x y z, R x y → R y z → R x z).
  { intros x y z (?&?&?&?&?) (?&?&?&?&?). unfold R.
    repeat split; try congruence. auto. }
  assert (Hrefl : ∀ x, R x x) by (intros x; unfold R; auto).
  assert (Hmj : ∀ A (m : M Sim A) x, R x (AntPosEnv.on_mujoco m x).2).
  { intros A m [h [[mj rng sc] tk g]]. rewrite pos_on_mujoco_run.
    destruct (m mj). unfold R. cbn. auto. }
  assert (Hsc : ∀ x, R x (AntPosEnv.on_super AntEnv.action_scaling x).2).
  { intros [h [sup tk g]]. rewrite pos_on_super_run.
    destruct (AntEnv.action_scaling sup) as [r sup'] eqn:E.
    destruct (action_scaling_inv _ _ _ E) as (_ & Hr & _ & Hc).
    unfold R, AntPosEnv.cache. cbn. repeat split; auto.
    intros v Hv. by destruct (Hc v Hv) as [_ ->]. }
  assert (Hobs : ∀ x, R x (AntPosEnv.on_super AntEnv.get_current_obs x).2).
  { intros [h [sup tk g]].
    rewrite pos_on_super_run, get_current_obs_run. apply Hrefl. }
  change (R w (AntPosEnv.step a w).2). unfold AntPosEnv.step.
  repeat first
    [ apply bind_preserves; [exact Htrans | | intros ? ?]
    | apply Hmj | apply Hsc | apply Hobs | apply Hrefl ].
  destruct (all _); [|apply Hrefl].
  apply bind_preserves; [exact Htrans | apply Hrefl | intros ? ?].
  destruct (F64.geb _ _); [|apply Hrefl].
  apply bind_preserves; [exact Htrans | apply Hrefl | intros ? ?].
  apply Hrefl.
Qed.

Lemma pos_reset_task_run l d v w :
  heap w !! l = Some d → d !! "position" = Some v →
  AntPosEnv.reset_task l w =
    (Ok tt, mkWorld (heap w) (AntPosEnv.mk (AntPosEnv.super (self w)) l v)).
Proof.
  intros Hl Hv. destruct w as [h [sup tk g]]. cbn in Hl.
  unfold AntPosEnv.reset_task, on_self, zoom, modify, deref, lift_res,
    dict_getitem, mbind, M_bind; cbn.
  rewrite Hl, Hv. reflexivity.
Qed.

Lemma pos_reset_task_missing l d w :
  heap w !! l = Some d → d !! "position" = None →
  AntPosEnv.reset_task l w =
    (Raise KeyError, mkWorld (heap w) (AntPosEnv.set_task l (self w))).
Proof.
  intros Hl Hv. destruct w as [h [sup tk g]]. cbn in Hl.
  unfold AntPosEnv.reset_task, on_self, zoom, modify, deref, lift_res,
    dict_getitem, mbind, M_bind; cbn.
  rewrite Hl, Hv. reflexivity.
Qed.

(** Whatever [reset_task] does, it leaves the heap and the base-class
    part of the instance alone. *)
Lemma pos_reset_task_frame l w :
  heap (AntPosEnv.reset_task l w).2 = heap w ∧
  AntPosEnv.super (self (AntPosEnv.reset_task l w).2)
    = AntPosEnv.super (self w).
Proof.
  destruct w as [h [sup tk g]].
  unfold AntPosEnv.reset_task, on_self, zoom, modify, deref, lift_res,
    dict_getitem, mbind, M_bind; cbn.
  destruct (h !! l) as [d|]; cbn; [|done].
  destruct (d !! "position"); done.
Qed.

(** [sample_tasks] always returns: one new dictionary per row. *)
Lemma pos_sample_tasks_run n w :
  let rng := AntEnv.np_random (AntPosEnv.super (self w)) in
  let data := (uniform F64.minus_3_0 F64.c_3_0 [n; 2%nat] rng).1 in
  ∃ ls w',
    AntPosEnv.sample_tasks n w = (Ok ls, w') ∧
    Forall2 (λ l p, heap w' !! l = Some {[ "position" := p ]})
            ls (rows n 2 data) ∧
    Forall (λ l, heap w !! l = None) ls ∧
    NoDup ls ∧
    (∀ l d, heap w !! l = Some d → heap w' !! l = Some d) ∧
    self w' =
      AntPosEnv.set_super
        (AntEnv.set_np_random
           (uniform F64.minus_3_0 F64.c_3_0 [n; 2%nat] rng).2
           (AntPosEnv.super (self w))) (self w).
Proof.
  destruct w as [h [[mj rng0 sc] tk g]]. cbn.
  destruct (uniform F64.minus_3_0 F64.c_3_0 [n; 2%nat] rng0)
    as [xs rng1] eqn:Hu.
  set (w1 := mkWorld h (AntPosEnv.mk (AntEnv.mk mj rng1 sc) tk g)).
  destruct (mapM_new_dict (Self:=AntPosEnv.t Sim Rng)
              (λ v : list spec_float, {[ "position" := v ]})
              (rows n 2 xs) w1)
    as (ls & w' & Hrun & Hself & Hall & Hnew & Hnd & Hold).
  exists ls, w'. repeat split; auto.
  unfold AntPosEnv.sample_tasks.
  erewrite bind_run; [erewrite bind_run; [reflexivity | exact Hrun]|].
  rewrite pos_on_super_run. unfold zoom. cbn. by rewrite Hu.
Qed.

Lemma pos_exec_keeps c w :
  keeps (λ s, AntEnv._action_scaling (AntPosEnv.super s))
        w (AntPosEnv.exec c w).
Proof.
  destruct c as [a|n|l| | |m]; cbn [AntPosEnv.exec].
  - destruct (pos_step_frame a w) as (Hh & _ & _ & _ & Hc).
    by apply keeps_same_heap.
  - destruct (pos_sample_tasks_run n w) as (ls & w' & -> & _ & _ & _ & Hold & Hs).
    split; [exact Hold|]. cbn. rewrite Hs. by destruct w as [h [[] ? ?]].
  - destruct (pos_reset_task_frame l w) as [Hh Hs].
    apply keeps_same_heap; [done|]. by rewrite Hs.
  - destruct w as [h [sup tk g]]. rewrite pos_on_super_run.
    destruct (AntEnv.action_scaling sup) as [r sup'] eqn:E.
    destruct (action_scaling_inv _ _ _ E) as (_ & _ & _ & Hc).
    apply keeps_same_heap; [done|]. cbn. intros v Hv.
    by destruct (Hc v Hv) as [_ ->].
  - destruct w as [h [sup tk g]].
    rewrite pos_on_super_run, get_current_obs_run. apply keeps_refl.
  - destruct w as [h [[mj rng sc] tk g]]. rewrite pos_on_mujoco_run.
    destruct (m mj). by apply keeps_same_heap.
Qed.

Lemma pos_execs_keeps cs w :
  keeps (λ s, AntEnv._action_scaling (AntPosEnv.super s))
        w (AntPosEnv.execs cs w).
Proof.
  revert w. induction cs as [|c cs IH]; intros w; [apply keeps_refl|].
  cbn. eapply keeps_trans; [apply pos_exec_keeps | apply IH].
Qed.

End PosFacts.

(** ** Facts shared by the claims *)

Section ClaimFacts.
Context {Sim Rng : Type} `{!MujocoEnv Sim, !RandomState Rng, !Numpy}.

Lemma vel_access_cached (w : World spec_float (AntVelEnv.t Sim Rng)) v :
  AntVelEnv.cache w = Some v →
  AntVelEnv.on_super AntEnv.action_scaling w = (Ok v, w).
Proof.
  destruct w as [h [sup tk g]]. unfold AntVelEnv.cache; cbn. intros Hc.
  by rewrite vel_on_super_run, (action_scaling_cached _ _ Hc).
Qed.

Lemma dir_access_cached (w : World Z (AntDirEnv.t Sim Rng)) v :
  AntDirEnv.cache w = Some v →
  AntDirEnv.on_super AntEnv.action_scaling w = (Ok v, w).
Proof.
  destruct w as [h [sup tk g]]. unfold AntDirEnv.cache; cbn. intros Hc.
  by rewrite dir_on_super_run, (action_scaling_cached _ _ Hc).
Qed.

Lemma pos_access_cached (w : World (list spec_float) (AntPosEnv.t Sim Rng)) v :
  AntPosEnv.cache w = Some v →
  AntPosEnv.on_super AntEnv.action_scaling w = (Ok v, w).
Proof.
  destruct w as [h [sup tk g]]. unfold AntPosEnv.cache; cbn. intros Hc.
  by rewrite pos_on_super_run, (action_scaling_cached _ _ Hc).
Qed.

Lemma action_scaling_first (s : AntEnv.t Sim Rng) :
  AntEnv._action_scaling s = None →
  length (low (action_space (AntEnv.mujoco_env s)))
    = length (high (action_space (AntEnv.mujoco_env s))) →
  AntEnv.action_scaling s =
    (Ok (half_range (action_space (AntEnv.mujoco_env s))),
     AntEnv.set_action_scaling
       (Some (half_range (action_space (AntEnv.mujoco_env s)))) s).
Proof.
  intros Hc Hlen. rewrite (action_scaling_fresh _ Hc).
  by rewrite broadcast_same_length.
Qed.

Lemma vel_memoized :
  memoized (AntVelEnv.on_super AntEnv.action_scaling)
           (λ w, action_space (AntVelEnv.mujoco w))
           AntVelEnv.cache (AntVelEnv.execs (Sim:=Sim) (Rng:=Rng)).
Proof.
  split.
  - intros [h [sup tk g]]. unfold AntVelEnv.cache, AntVelEnv.mujoco; cbn.
    intros Hc Hlen. eexists.
    rewrite vel_on_super_run, (action_scaling_first _ Hc Hlen).
    split; reflexivity.
  - intros w v w1 Hacc calls. apply vel_access_cached.
    apply (vel_execs_keeps calls w1). revert Hacc.
    destruct w as [h [sup tk g]]. rewrite vel_on_super_run.
    destruct (AntEnv.action_scaling sup) as [r sup'] eqn:E.
    intros [= -> <-]. cbn.
    by destruct (action_scaling_inv _ _ _ E) as (_ & _ & Hr & _); apply Hr.
Qed.

Lemma dir_memoized :
  memoized (AntDirEnv.on_super AntEnv.action_scaling)
           (λ w, action_space (AntDirEnv.mujoco w))
           AntDirEnv.cache (AntDirEnv.execs (Sim:=Sim) (Rng:=Rng)).
Proof.
  split.
  - intros [h [sup tk g]]. unfold AntDirEnv.cache, AntDirEnv.mujoco; cbn.
    intros Hc Hlen. eexists.
    rewrite dir_on_super_run, (action_scaling_first _ Hc Hlen).
    split; reflexivity.
  - intros w v w1 Hacc calls. apply dir_access_cached.
    apply (dir_execs_keeps calls w1). revert Hacc.
    destruct w as [h [sup tk g]]. rewrite dir_on_super_run.
    destruct (AntEnv.action_scaling sup) as [r sup'] eqn:E.
    intros [= -> <-]. cbn.
    by destruct (action_scaling_inv _ _ _ E) as (_ & _ & Hr & _); apply Hr.
Qed.

Lemma pos_memoized :
  memoized (AntPosEnv.on_super AntEnv.action_scaling)
           (λ w, action_space (AntPosEnv.mujoco w))
           AntPosEnv.cache (AntPosEnv.execs (Sim:=Sim) (Rng:=Rng)).
Proof.
  split.
  - intros [h [sup tk g]]. unfold AntPosEnv.cache, AntPosEnv.mujoco; cbn.
    intros Hc Hlen. eexists.
    rewrite pos_on_super_run, (action_scaling_first _ Hc Hlen).
    split; reflexivity.
  - intros w v w1 Hacc calls. apply pos_access_cached.
    apply (pos_execs_keeps calls w1). revert Hacc.
    destruct w as [h [sup tk g]]. rewrite pos_on_super_run.
    destruct (AntEnv.action_scaling sup) as [r sup'] eqn:E.
    intros [= -> <-]. cbn.
    by destruct (action_scaling_inv _ _ _ E) as (_ & _ & Hr & _); apply Hr.
Qed.

End ClaimFacts.

(** ** Rows, clipping and comparisons *)

Section ArrayFacts.

Lemma rows_length n k (data : list spec_float) : length (rows n k data) = n.
Proof. unfold rows. by rewrite length_map, length_seq. Qed.

Lemma rows_shape n k (data : list spec_float) :
  length data = (n * k)%nat →
  Forall (λ row, length row = k) (rows n k data).
Proof.
  intros Hlen. unfold rows. apply Forall_forall. intros row Hrow.
  apply list_elem_of_In, in_map_iff in Hrow as (i & <- & Hi).
  apply in_seq in Hi. rewrite length_take, length_drop. nia.
Qed.

Lemma rows_Forall (P : spec_float → Prop) n k data :
  Forall P data → Forall (Forall P) (rows n k data).
Proof.
  intros HP. unfold rows. apply Forall_forall. intros row Hrow.
  apply list_elem_of_In, in_map_iff in Hrow as (i & <- & _).
  by apply Forall_take, Forall_drop.
Qed.

Lemma ltb_leb x y : F64.ltb x y = true → F64.leb x y = true.
Proof.
  unfold F64.ltb, F64.leb, SFltb, SFleb.
  by destruct (SFcompare x y) as [[]|].
Qed.

Lemma compare_refl x : F64.is_nan x = false → SFcompare x x = Some Eq.
Proof.
  destruct x as [s|s| |s m e]; cbn; try done; try (by destruct s).
  intros _. rewrite Z.compare_refl, Pos.compare_cont_refl. by destruct s.
Qed.

Lemma leb_refl x : F64.is_nan x = false → F64.leb x x = true.
Proof. intros H. unfold F64.leb, SFleb. by rewrite compare_refl. Qed.

Lemma leb_not_nan x y :
  F64.leb x y = true → F64.is_nan x = false ∧ F64.is_nan y = false.
Proof. destruct x, y; cbn; try done. Qed.

(** Clipping to [-1, 1]: a NaN stays, anything else lands in the
    interval, and what is strictly inside is not moved. *)
Lemma clip_range x :
  F64.is_nan x = false →
  F64.leb F64.minus_one (clip F64.minus_one F64.one x) = true ∧
  F64.leb (clip F64.minus_one F64.one x) F64.one = true.
Proof.
  intros Hn. unfold clip, clip_max, clip_min. rewrite Hn.
  destruct (F64.gtb x F64.minus_one) eqn:E1.
  - rewrite Hn. destruct (F64.ltb x F64.one) eqn:E2.
    + split; by apply ltb_leb.
    + split; reflexivity.
  - cbn. split; reflexivity.
Qed.

Lemma clip_inside x :
  F64.ltb F64.minus_one x = true → F64.ltb x F64.one = true →
  clip F64.minus_one F64.one x = x.
Proof.
  intros H1 H2. unfold clip, clip_max, clip_min, F64.gtb, F64.ltb in *.
  assert (Hn : F64.is_nan x = false) by (by destruct x).
  rewrite H1, Hn. cbn iota. by rewrite Hn, H2.
Qed.

End ArrayFacts.

Section ListFacts.

Lemma Forall2_and_r {A B} (R : A → B → Prop) (P : B → Prop) ls xs :
  Forall2 R ls xs → Forall P xs → Forall2 (λ l x, R l x ∧ P x) ls xs.
Proof.
  induction 1 as [|l x ls xs Hl _ IH]; [constructor|].
  intros Hx. apply Forall_cons in Hx as [Hx Hxs].
  constructor; [done | by apply IH].
Qed.

End ListFacts.

(* ================================================================== *)
(** * The claims *)
(* ================================================================== *)

Section DoneFacts.

Lemma done_of_notdone state :
  done_as_specified state (negb (notdone_of state)).
Proof.
  unfold done_as_specified. repeat split.
  - intros Hd Hh. apply notdone_healthy in Hh. rewrite Hh in Hd. done.
  - intros Hn. destruct (notdone_of state) eqn:E; [|done].
    apply notdone_healthy in E. done.
  - intros H2. unfold notdone_of. rewrite H2.
    by destruct (all (np_isfinite state)).
  - intros H2 Hf. unfold notdone_of. rewrite H2.
    apply all_isfinite in Hf. rewrite Hf. reflexivity.
  - intros Hn. unfold notdone_of.
    destruct (all (np_isfinite state)) eqn:E; [|done].
    apply all_isfinite in E. apply Exists_exists in Hn as (x & Hx & Hnan).
    rewrite Forall_forall in E. specialize (E x Hx).
    rewrite (is_nan_not_finite x Hnan) in E. done.
Qed.

End DoneFacts.

Section Claims.
Context {Sim Rng : Type} `{!MujocoEnv Sim, !RandomState Rng, !Numpy}.

(** C1. In each of the three variants, the [done] flag of a returning
    [step] is computed from the state vector of the adapter as the
    physics step has left it: [done] is true if and only if it is not the
    case that every entry is finite and [0.2 <= state[2] <= 1.0]. In
    particular it is true when [state[2] = 0.19], false when
    [state[2] = 0.5] and all entries are finite, and true when some entry
    is NaN, whatever [state[2]] is. And [step] does return when the
    engine advances, the quantity the reward is computed from exists, the
    scaling can be read and divides the action, and the state vector has
    an entry 2. *)
Theorem C1_done_from_post_step_state :
  ((∀ a w o r d i w',
      AntVelEnv.step (Sim:=Sim) (Rng:=Rng) a w = (Ok (o, r, d, i), w') →
      forward_dynamics a (AntVelEnv.mujoco w) = (Ok tt, AntVelEnv.mujoco w') ∧
      done_as_specified (state_vector (AntVelEnv.mujoco w')) d) ∧
   (∀ a w mj fv scaling sup quot,
      forward_dynamics a (AntVelEnv.mujoco w) = (Ok tt, mj) →
      get_body_comvel "torso" mj !! 0%nat = Some fv →
      AntEnv.action_scaling
          (AntEnv.set_mujoco_env mj (AntVelEnv.super (self w)))
        = (Ok scaling, sup) →
      broadcast F64.div a scaling = Ok quot →
      (3 ≤ length (state_vector mj))%nat →
      ∃ res w', AntVelEnv.step (Sim:=Sim) (Rng:=Rng) a w = (Ok res, w'))) ∧
  ((∀ a w o r d i w',
      AntDirEnv.step (Sim:=Sim) (Rng:=Rng) a w = (Ok (o, r, d, i), w') →
      forward_dynamics a (AntDirEnv.mujoco w) = (Ok tt, AntDirEnv.mujoco w') ∧
      done_as_specified (state_vector (AntDirEnv.mujoco w')) d) ∧
   (∀ a w mj fv scaling sup quot,
      forward_dynamics a (AntDirEnv.mujoco w) = (Ok tt, mj) →
      get_body_comvel "torso" mj !! 0%nat = Some fv →
      AntEnv.action_scaling
          (AntEnv.set_mujoco_env mj (AntDirEnv.super (self w)))
        = (Ok scaling, sup) →
      broadcast F64.div a scaling = Ok quot →
      (3 ≤ length (state_vector mj))%nat →
      ∃ res w', AntDirEnv.step (Sim:=Sim) (Rng:=Rng) a w = (Ok res, w'))) ∧
  ((∀ a w o r d i w',
      AntPosEnv.step (Sim:=Sim) (Rng:=Rng) a w = (Ok (o, r, d, i), w') →
      forward_dynamics a (AntPosEnv.mujoco w) = (Ok tt, AntPosEnv.mujoco w') ∧
      done_as_specified (state_vector (AntPosEnv.mujoco w')) d) ∧
   (∀ a w mj diff scaling sup quot,
      forward_dynamics a (AntPosEnv.mujoco w) = (Ok tt, mj) →
      broadcast F64.sub (take 2 (get_body_com "torso" mj))
                (AntPosEnv._goal_pos (self w)) = Ok diff →
      AntEnv.action_scaling
          (AntEnv.set_mujoco_env mj (AntPosEnv.super (self w)))
        = (Ok scaling, sup) →
      broadcast F64.div a scaling = Ok quot →
      (3 ≤ length (state_vector mj))%nat →
      ∃ res w', AntPosEnv.step (Sim:=Sim) (Rng:=Rng) a w = (Ok res, w'))).
Proof.
  split; [|split]; split.
  1,3,5: intros a w o r d i w' Hstep.
  1: apply vel_step_inv in Hstep
       as (mj & fv & sc & q & sup & Hfd & _ & _ & _ & -> & Hmj & _ & _ & _ & ->).
  2: apply dir_step_inv in Hstep
       as (mj & fv & sc & q & sup & Hfd & _ & _ & _ & -> & Hmj & _ & _ & _ & ->).
  3: apply pos_step_inv in Hstep
       as (mj & fv & sc & q & sup & Hfd & _ & _ & _ & -> & Hmj & _ & _ & _ & ->).
  1-3: unfold AntVelEnv.mujoco, AntDirEnv.mujoco, AntPosEnv.mujoco in *;
       cbn; rewrite Hmj; split; [exact Hfd | apply done_of_notdone].
  all: intros a w mj x scaling sup quot Hfd Hx Hsc Hq Hlen.
  all: assert (Hsome : all (np_isfinite (state_vector mj)) = true →
                       is_Some (state_vector mj !! 2%nat))
         by (intros _; apply lookup_lt_is_Some; lia).
  - destruct (vel_step_run _ _ _ _ _ _ _ Hfd Hx Hsc Hq Hsome); eauto.
  - destruct (dir_step_run _ _ _ _ _ _ _ Hfd Hx Hsc Hq Hsome); eauto.
  - destruct (pos_step_run _ _ _ _ _ _ _ Hfd Hx Hsc Hq Hsome); eauto.
Qed.

(** C2 (amended). In the velocity variant, the [reward_forward] entry of
    the [infos] of a returning [step] is [-1.0 * |forward_vel - goal_vel|
    + 1.0], where [forward_vel] is the first component of the torso's
    centre-of-mass velocity after the physics step, the product with
    [-1.0] being the negation on valid binary64 numbers; whenever
    [forward_vel] is finite and equals [goal_vel], that entry is exactly
    [1.0]. This is so in particular for every goal velocity in
    [0.0, 3.0]. *)
Theorem C2_forward_reward_velocity a w o r d i w' :
  AntVelEnv.step (Sim:=Sim) (Rng:=Rng) a w = (Ok (o, r, d, i), w') →
  ∃ forward_vel,
    forward_dynamics a (AntVelEnv.mujoco w) = (Ok tt, AntVelEnv.mujoco w') ∧
    get_body_comvel "torso" (AntVelEnv.mujoco w') !! 0%nat
      = Some forward_vel ∧
    AntVelEnv.reward_forward i
      = F64.add (F64.mul F64.minus_one
                   (F64.abs (F64.sub forward_vel
                                     (AntVelEnv._goal_vel (self w)))))
                F64.one ∧
    (F64.valid forward_vel = true →
     F64.valid (AntVelEnv._goal_vel (self w)) = true →
     AntVelEnv.reward_forward i
       = F64.add (F64.neg (F64.abs (F64.sub forward_vel
                                      (AntVelEnv._goal_vel (self w)))))
                 F64.one) ∧
    (F64.is_finite forward_vel = true →
     F64.eqb forward_vel (AntVelEnv._goal_vel (self w)) = true →
     AntVelEnv.reward_forward i = F64.one) ∧
    (F64.leb F64.zero (AntVelEnv._goal_vel (self w)) = true →
     F64.leb (AntVelEnv._goal_vel (self w)) F64.c_3_0 = true →
     F64.eqb forward_vel (AntVelEnv._goal_vel (self w)) = true →
     AntVelEnv.reward_forward i = F64.one).
Proof.
  intros Hstep. apply vel_step_inv in Hstep
    as (mj & fv & sc & q & sup & Hfd & Hfv & _ & _ & -> & Hmj & _ & -> & _).
  exists fv. unfold AntVelEnv.mujoco in *. cbn. rewrite Hmj.
  repeat split; auto.
  - intros Hx Hy. by apply vel_reward_neg.
  - intros Hf He. by apply vel_reward_at_goal.
  - intros H0 H3 He. apply vel_reward_at_goal; [|done].
    by eapply eqb_in_range.
Qed.

(** C3. In each variant a new instance has no scaling cached; the first
    read of [action_scaling] computes [0.5 * (ub - lb)] element-wise from
    the bounds of the action space and caches it; and once a read has
    returned a vector, every later read returns that same vector and
    changes nothing, whatever calls ([step], [sample_tasks],
    [reset_task] any number of times, reads of the property or of the
    observation, methods of the adapter) were made on the instance in
    between, returning or raising. *)
Theorem C3_action_scaling_memoized :
  ((∀ task base h w,
      AntVelEnv.__init__ (Sim:=Sim) (Rng:=Rng) task base h = Ok w →
      AntVelEnv.cache w = None) ∧
   memoized (AntVelEnv.on_super AntEnv.action_scaling)
            (λ w, action_space (AntVelEnv.mujoco w))
            AntVelEnv.cache (AntVelEnv.execs (Sim:=Sim) (Rng:=Rng))) ∧
  ((∀ task base h w,
      AntDirEnv.__init__ (Sim:=Sim) (Rng:=Rng) task base h = Ok w →
      AntDirEnv.cache w = None) ∧
   memoized (AntDirEnv.on_super AntEnv.action_scaling)
            (λ w, action_space (AntDirEnv.mujoco w))
            AntDirEnv.cache (AntDirEnv.execs (Sim:=Sim) (Rng:=Rng))) ∧
  ((∀ task base h w,
      AntPosEnv.__init__ (Sim:=Sim) (Rng:=Rng) task base h = Ok w →
      AntPosEnv.cache w = None) ∧
   memoized (AntPosEnv.on_super AntEnv.action_scaling)
            (λ w, action_space (AntPosEnv.mujoco w))
            AntPosEnv.cache (AntPosEnv.execs (Sim:=Sim) (Rng:=Rng))).
Proof.
  split; [|split]; (split; [|auto using vel_memoized, dir_memoized, pos_memoized]).
  - intros task base h w.
    unfold AntVelEnv.__init__. destruct (h !! task); [|done].
    by intros [= <-].
  - intros task base h w.
    unfold AntDirEnv.__init__. destruct (h !! task); [|done].
    by intros [= <-].
  - intros task base h w.
    unfold AntPosEnv.__init__. destruct (h !! task); [|done].
    by intros [= <-].
Qed.

(** C4. In each variant [reset_task(record)], for a record that has the
    variant's key, stores the record as the task and sets the goal field
    to the record's value; the resulting world differs from the previous
    one in these two fields only: the heap, the adapter's state, the
    generator and the cached scaling are the same. The task-specific
    reward of the next [step] is computed against the new goal. *)
Theorem C4_reset_task_replaces_goal_only :
  (∀ (w : World spec_float (AntVelEnv.t Sim Rng)) l d v,
     heap w !! l = Some d → d !! "velocity" = Some v →
     let w1 := mkWorld (heap w) (AntVelEnv.mk (AntVelEnv.super (self w)) l v) in
     AntVelEnv.reset_task l w = (Ok tt, w1) ∧
     ∀ a o r dn i w2,
       AntVelEnv.step a w1 = (Ok (o, r, dn, i), w2) →
       ∃ forward_vel,
         get_body_comvel "torso" (AntVelEnv.mujoco w2) !! 0%nat
           = Some forward_vel ∧
         AntVelEnv.reward_forward i = vel_reward forward_vel v) ∧
  (∀ (w : World Z (AntDirEnv.t Sim Rng)) l d v,
     heap w !! l = Some d → d !! "direction" = Some v →
     let w1 := mkWorld (heap w) (AntDirEnv.mk (AntDirEnv.super (self w)) l v) in
     AntDirEnv.reset_task l w = (Ok tt, w1) ∧
     ∀ a o r dn i w2,
       AntDirEnv.step a w1 = (Ok (o, r, dn, i), w2) →
       ∃ forward_vel,
         get_body_comvel "torso" (AntDirEnv.mujoco w2) !! 0%nat
           = Some forward_vel ∧
         AntDirEnv.reward_forward i = dir_reward forward_vel v) ∧
  (∀ (w : World (list spec_float) (AntPosEnv.t Sim Rng)) l d v,
     heap w !! l = Some d → d !! "position" = Some v →
     let w1 := mkWorld (heap w) (AntPosEnv.mk (AntPosEnv.super (self w)) l v) in
     AntPosEnv.reset_task l w = (Ok tt, w1) ∧
     ∀ a o r dn i w2,
       AntPosEnv.step a w1 = (Ok (o, r, dn, i), w2) →
       ∃ diff,
         broadcast F64.sub
           (take 2 (get_body_com "torso" (AntPosEnv.mujoco w2))) v
           = Ok diff ∧
         AntPosEnv.reward_goal i = pos_reward diff).
Proof.
  split; [|split]; intros w l d v Hl Hv w1.
  - split; [by eapply vel_reset_task_run|].
    intros a o r dn i w2 Hstep. apply vel_step_inv in Hstep
      as (mj & fv & sc & q & sup & _ & Hfv & _ & _ & -> & Hmj & _ & -> & _).
    exists fv. unfold AntVelEnv.mujoco; cbn. by rewrite Hmj.
  - split; [by eapply dir_reset_task_run|].
    intros a o r dn i w2 Hstep. apply dir_step_inv in Hstep
      as (mj & fv & sc & q & sup & _ & Hfv & _ & _ & -> & Hmj & _ & -> & _).
    exists fv. unfold AntDirEnv.mujoco; cbn. by rewrite Hmj.
  - split; [by eapply pos_reset_task_run|].
    intros a o r dn i w2 Hstep. apply pos_step_inv in Hstep
      as (mj & diff & sc & q & sup & _ & Hdiff & _ & _ & -> & Hmj & _ & -> & _).
    exists diff. unfold AntPosEnv.mujoco; cbn. by rewrite Hmj.
Qed.

(** C5 (amended). In each variant a task record that lacks the variant's
    key is accepted at construction time, the goal falling back to its
    default ([0.0], [+1], [(0, 0)]); passed to [reset_task], such a record
    raises [KeyError]: no default is substituted and the goal field keeps
    its previous value. *)
Theorem C5_missing_key :
  (∀ l d base (h : gmap loc (gmap string spec_float)),
     h !! l = Some d → d !! "velocity" = None →
     AntVelEnv.__init__ (Sim:=Sim) (Rng:=Rng) l base h
       = Ok (mkWorld h (AntVelEnv.mk (AntEnv.__init__ base) l F64.zero)) ∧
     ∀ w : World spec_float (AntVelEnv.t Sim Rng), heap w = h →
       AntVelEnv.reset_task l w
         = (Raise KeyError, mkWorld h (AntVelEnv.set_task l (self w)))) ∧
  (∀ l d base (h : gmap loc (gmap string Z)),
     h !! l = Some d → d !! "direction" = None →
     AntDirEnv.__init__ (Sim:=Sim) (Rng:=Rng) l base h
       = Ok (mkWorld h (AntDirEnv.mk (AntEnv.__init__ base) l 1)) ∧
     ∀ w : World Z (AntDirEnv.t Sim Rng), heap w = h →
       AntDirEnv.reset_task l w
         = (Raise KeyError, mkWorld h (AntDirEnv.set_task l (self w)))) ∧
  (∀ l d base (h : gmap loc (gmap string (list spec_float))),
     h !! l = Some d → d !! "position" = None →
     AntPosEnv.__init__ (Sim:=Sim) (Rng:=Rng) l base h
       = Ok (mkWorld h (AntPosEnv.mk (AntEnv.__init__ base) l
                                      [F64.zero; F64.zero])) ∧
     ∀ w : World (list spec_float) (AntPosEnv.t Sim Rng), heap w = h →
       AntPosEnv.reset_task l w
         = (Raise KeyError, mkWorld h (AntPosEnv.set_task l (self w)))).
Proof.
  split; [|split]; intros l d base h Hl Hk; split.
  - unfold AntVelEnv.__init__, dict_get. by rewrite Hl, Hk.
  - intros w <-. by eapply vel_reset_task_missing.
  - unfold AntDirEnv.__init__, dict_get. by rewrite Hl, Hk.
  - intros w <-. by eapply dir_reset_task_missing.
  - unfold AntPosEnv.__init__, dict_get. by rewrite Hl, Hk.
  - intros w <-. by eapply pos_reset_task_missing.
Qed.

(** C6. In each variant, a record returned by [sample_tasks] and passed
    to [reset_task] is stored as it is (the same object), and the next
    [step] returns that object under [task] in [infos], its contents
    being those it was created with; no sequence of calls on the
    environment changes the contents of a record it has returned. *)
Theorem C6_task_round_trip :
  (∀ n (w : World spec_float (AntVelEnv.t Sim Rng)) ls w1,
     AntVelEnv.sample_tasks n w = (Ok ls, w1) →
     ∀ l, l ∈ ls →
     ∃ d w2,
       heap w1 !! l = Some d ∧
       AntVelEnv.reset_task l w1 = (Ok tt, w2) ∧
       AntVelEnv._task (self w2) = l ∧
       (∀ a o r dn i w3,
          AntVelEnv.step a w2 = (Ok (o, r, dn, i), w3) →
          AntVelEnv.task i = l ∧ heap w3 !! l = Some d) ∧
       (∀ calls, heap (AntVelEnv.execs calls w1) !! l = Some d)) ∧
  (∀ n (w : World Z (AntDirEnv.t Sim Rng)) ls w1,
     AntDirEnv.sample_tasks n w = (Ok ls, w1) →
     ∀ l, l ∈ ls →
     ∃ d w2,
       heap w1 !! l = Some d ∧
       AntDirEnv.reset_task l w1 = (Ok tt, w2) ∧
       AntDirEnv._task (self w2) = l ∧
       (∀ a o r dn i w3,
          AntDirEnv.step a w2 = (Ok (o, r, dn, i), w3) →
          AntDirEnv.task i = l ∧ heap w3 !! l = Some d) ∧
       (∀ calls, heap (AntDirEnv.execs calls w1) !! l = Some d)) ∧
  (∀ n (w : World (list spec_float) (AntPosEnv.t Sim Rng)) ls w1,
     AntPosEnv.sample_tasks n w = (Ok ls, w1) →
     ∀ l, l ∈ ls →
     ∃ d w2,
       heap w1 !! l = Some d ∧
       AntPosEnv.reset_task l w1 = (Ok tt, w2) ∧
       AntPosEnv._task (self w2) = l ∧
       (∀ a o r dn i w3,
          AntPosEnv.step a w2 = (Ok (o, r, dn, i), w3) →
          AntPosEnv.task i = l ∧ heap w3 !! l = Some d) ∧
       (∀ calls, heap (AntPosEnv.execs calls w1) !! l = Some d)).
Proof.
  split; [|split]; intros n w ls w1 Hsample l Hin.
  - destruct (vel_sample_tasks_run n w)
      as (ls' & w' & Hrun & Hall & _ & _ & _ & _).
    rewrite Hsample in Hrun. injection Hrun as <- <-.
    apply list_elem_of_lookup in Hin as [k Hk].
    destruct (Forall2_lookup_l _ _ _ _ _ Hall Hk) as (v & _ & Hd).
    eexists _, _. split; [exact Hd|].
    split; [eapply vel_reset_task_run; [exact Hd | apply lookup_singleton_eq]|].
    split; [reflexivity|]. split.
    + intros a o r dn i w3 Hstep. apply vel_step_inv in Hstep
        as (? & ? & ? & ? & ? & _ & _ & _ & _ & -> & _ & _ & -> & _).
      by cbn.
    + intros calls. by apply (vel_execs_keeps calls w1).
  - destruct (dir_sample_tasks_run n w)
      as (ls' & w' & Hrun & Hall & _ & _ & _ & _).
    rewrite Hsample in Hrun. injection Hrun as <- <-.
    apply list_elem_of_lookup in Hin as [k Hk].
    destruct (Forall2_lookup_l _ _ _ _ _ Hall Hk) as (v & _ & Hd).
    eexists _, _. split; [exact Hd|].
    split; [eapply dir_reset_task_run; [exact Hd | apply lookup_singleton_eq]|].
    split; [reflexivity|]. split.
    + intros a o r dn i w3 Hstep. apply dir_step_inv in Hstep
        as (? & ? & ? & ? & ? & _ & _ & _ & _ & -> & _ & _ & -> & _).
      by cbn.
    + intros calls. by apply (dir_execs_keeps calls w1).
  - destruct (pos_sample_tasks_run n w)
      as (ls' & w' & Hrun & Hall & _ & _ & _ & _).
    rewrite Hsample in Hrun. injection Hrun as <- <-.
    apply list_elem_of_lookup in Hin as [k Hk].
    destruct (Forall2_lookup_l _ _ _ _ _ Hall Hk) as (v & _ & Hd).
    eexists _, _. split; [exact Hd|].
    split; [eapply pos_reset_task_run; [exact Hd | apply lookup_singleton_eq]|].
    split; [reflexivity|]. split.
    + intros a o r dn i w3 Hstep. apply pos_step_inv in Hstep
        as (? & ? & ? & ? & ? & _ & _ & _ & _ & -> & _ & _ & -> & _).
      by cbn.
    + intros calls. by apply (pos_execs_keeps calls w1).
Qed.

Context `{!RandomStateSpec Rng}.

(** C7. In the direction variant [sample_tasks(n)] returns [n] new task
    records, one per draw of the generator's [binomial(1, p=0.5,
    size=(n,))] and in the order of the draws; each draw [b] is 0 or 1 and
    its record is [{direction: 2*b - 1}], so that every direction is -1
    or +1. *)
Theorem C7_direction_sample_tasks n (w : World Z (AntDirEnv.t Sim Rng)) :
  let draws :=
    (binomial 1 F64.c_0_5 [n]
       (AntEnv.np_random (AntDirEnv.super (self w)))).1 in
  ∃ ls w',
    AntDirEnv.sample_tasks n w = (Ok ls, w') ∧
    length ls = n ∧ NoDup ls ∧
    Forall2 (λ l b, (b = 0 ∨ b = 1) ∧
                    heap w' !! l = Some {[ "direction" := 2 * b - 1 ]})
            ls draws ∧
    Forall (λ l, ∃ d, heap w' !! l = Some {[ "direction" := d ]} ∧
                      (d = -1 ∨ d = 1)) ls.
Proof.
  intros draws.
  destruct (dir_sample_tasks_run n w)
    as (ls & w' & Hrun & Hall & _ & Hnd & _ & _).
  fold draws in Hall.
  assert (Hrange : Forall (λ b, b = 0 ∨ b = 1) draws).
  { eapply Forall_impl; [apply (binomial_range 1); lia|].
    intros b Hb. cbn in Hb. lia. }
  assert (Hall' : Forall2 (λ l b, (b = 0 ∨ b = 1) ∧
                    heap w' !! l = Some {[ "direction" := 2 * b - 1 ]})
                    ls draws).
  { clear Hrun Hnd. induction Hall as [|l b ls bs Hl Hall IH];
      [constructor|].
    apply Forall_cons in Hrange as [Hb Hbs].
    constructor; [|by apply IH].
    split; [exact Hb|]. rewrite Hl. by destruct Hb as [-> | ->]. }
  exists ls, w'. repeat split; auto.
  - rewrite (Forall2_length _ _ _ Hall). unfold draws.
    rewrite binomial_size. cbn. lia.
  - clear Hrun Hnd Hall Hrange. induction Hall' as [|l b ls bs [Hb Hl] _ IH];
      constructor; [|exact IH].
    exists (2 * b - 1). split; [exact Hl | lia].
Qed.

(** C8. In the velocity variant [sample_tasks(n)] returns [n] new
    records [{velocity: v}], one per value of the generator's
    [uniform(0.0, 3.0, size=(n,))], every [v] lying in [0.0, 3.0]. In
    the position variant it returns [n] new records [{position: p}], one
    per row of the generator's [uniform(-3.0, 3.0, size=(n, 2))]: every
    [p] has exactly 2 components, each lying in [-3.0, 3.0]. *)
Theorem C8_uniform_sample_tasks :
  (∀ n (w : World spec_float (AntVelEnv.t Sim Rng)),
     let draws :=
       (uniform F64.zero F64.c_3_0 [n]
          (AntEnv.np_random (AntVelEnv.super (self w)))).1 in
     ∃ ls w',
       AntVelEnv.sample_tasks n w = (Ok ls, w') ∧
       length ls = n ∧ NoDup ls ∧
       Forall2 (λ l v, heap w' !! l = Some {[ "velocity" := v ]} ∧
                       F64.leb F64.zero v = true ∧
                       F64.leb v F64.c_3_0 = true) ls draws) ∧
  (∀ n (w : World (list spec_float) (AntPosEnv.t Sim Rng)),
     let data :=
       (uniform F64.minus_3_0 F64.c_3_0 [n; 2%nat]
          (AntEnv.np_random (AntPosEnv.super (self w)))).1 in
     ∃ ls w',
       AntPosEnv.sample_tasks n w = (Ok ls, w') ∧
       length ls = n ∧ NoDup ls ∧
       Forall2 (λ l p, heap w' !! l = Some {[ "position" := p ]} ∧
                       length p = 2%nat ∧
                       Forall (λ x, F64.leb F64.minus_3_0 x = true ∧
                                    F64.leb x F64.c_3_0 = true) p)
               ls (rows n 2 data)).
Proof.
  split; intros n w.
  - intros draws.
    destruct (vel_sample_tasks_run n w)
      as (ls & w' & Hrun & Hall & _ & Hnd & _ & _).
    fold draws in Hall.
    exists ls, w'. repeat split; auto.
    + rewrite (Forall2_length _ _ _ Hall). unfold draws.
      rewrite uniform_size. cbn. lia.
    + apply Forall2_and_r; [exact Hall|].
      by apply (uniform_range F64.zero F64.c_3_0).
  - intros data.
    destruct (pos_sample_tasks_run n w)
      as (ls & w' & Hrun & Hall & _ & Hnd & _ & _).
    fold data in Hall.
    assert (Hlen : length data = (n * 2)%nat).
    { unfold data. rewrite uniform_size. cbn. lia. }
    exists ls, w'. repeat split; auto.
    + by rewrite (Forall2_length _ _ _ Hall), rows_length.
    + apply Forall2_and_r; [exact Hall|].
      apply Forall_and. split.
      * by apply rows_shape.
      * apply rows_Forall.
        by apply (uniform_range F64.minus_3_0 F64.c_3_0).
Qed.

(** C9 (amended). [get_current_obs] returns one flat vector: the
    concatenation, in this order, of the joint positions, the joint
    velocities, the external contact forces with each component clipped
    to [-1, 1], the torso's orientation matrix flattened and the torso's
    centre-of-mass position, every component then converted to 32-bit
    floating point. Nothing but the clip and that conversion is applied,
    and the environment is left as it was. Clipping keeps a NaN, puts
    anything else in [-1, 1] and does not move what is strictly inside. *)
Theorem C9_observation_layout (s : AntEnv.t Sim Rng) :
  let mj := AntEnv.mujoco_env s in
  AntEnv.get_current_obs s =
    (Ok (map F64.to_float32
           (qpos mj ++ qvel mj
              ++ map (clip F64.minus_one F64.one) (concat (cfrc_ext mj))
              ++ concat (get_body_xmat "torso" mj)
              ++ get_body_com "torso" mj)), s) ∧
  ∀ x, (F64.is_nan x = true → clip F64.minus_one F64.one x = x) ∧
       (F64.is_nan x = false →
        F64.leb F64.minus_one (clip F64.minus_one F64.one x) = true ∧
        F64.leb (clip F64.minus_one F64.one x) F64.one = true) ∧
       (F64.ltb F64.minus_one x = true → F64.ltb x F64.one = true →
        clip F64.minus_one F64.one x = x).
Proof.
  split; [apply get_current_obs_run|].
  intros x. split; [|split].
  - by destruct x.
  - apply clip_range.
  - apply clip_inside.
Qed.

(** C10. In each variant the reward returned by [step] is the sum, from
    left to right, of the four components reported in [infos]:
    [reward_forward] (or [reward_goal]) plus [reward_ctrl] plus
    [reward_contact] plus [reward_survive], the control and contact
    entries being the negated costs. *)
Theorem C10_reward_is_sum_of_infos :
  (∀ a w o r d i w',
     AntVelEnv.step (Sim:=Sim) (Rng:=Rng) a w = (Ok (o, r, d, i), w') →
     r = F64.add (F64.add (F64.add (AntVelEnv.reward_forward i)
                                   (AntVelEnv.reward_ctrl i))
                          (AntVelEnv.reward_contact i))
                 (AntVelEnv.reward_survive i) ∧
     ∃ quot, AntVelEnv.reward_ctrl i = F64.neg (ctrl_cost_of quot) ∧
             AntVelEnv.reward_contact i
               = F64.neg (contact_cost_of (cfrc_ext (AntVelEnv.mujoco w')))) ∧
  (∀ a w o r d i w',
     AntDirEnv.step (Sim:=Sim) (Rng:=Rng) a w = (Ok (o, r, d, i), w') →
     r = F64.add (F64.add (F64.add (AntDirEnv.reward_forward i)
                                   (AntDirEnv.reward_ctrl i))
                          (AntDirEnv.reward_contact i))
                 (AntDirEnv.reward_survive i) ∧
     ∃ quot, AntDirEnv.reward_ctrl i = F64.neg (ctrl_cost_of quot) ∧
             AntDirEnv.reward_contact i
               = F64.neg (contact_cost_of (cfrc_ext (AntDirEnv.mujoco w')))) ∧
  (∀ a w o r d i w',
     AntPosEnv.step (Sim:=Sim) (Rng:=Rng) a w = (Ok (o, r, d, i), w') →
     r = F64.add (F64.add (F64.add (AntPosEnv.reward_goal i)
                                   (AntPosEnv.reward_ctrl i))
                          (AntPosEnv.reward_contact i))
                 (AntPosEnv.reward_survive i) ∧
     ∃ quot, AntPosEnv.reward_ctrl i = F64.neg (ctrl_cost_of quot) ∧
             AntPosEnv.reward_contact i
               = F64.neg (contact_cost_of (cfrc_ext (AntPosEnv.mujoco w')))).
Proof.
  split; [|split]; intros a w o r d i w' Hstep.
  1: apply vel_step_inv in Hstep
       as (mj & fv & sc & q & sup & _ & _ & _ & _ & -> & Hmj & _ & -> & -> & _).
  2: apply dir_step_inv in Hstep
       as (mj & fv & sc & q & sup & _ & _ & _ & _ & -> & Hmj & _ & -> & -> & _).
  3: apply pos_step_inv in Hstep
       as (mj & fv & sc & q & sup & _ & _ & _ & _ & -> & Hmj & _ & -> & -> & _).
  all: unfold AntVelEnv.mujoco, AntDirEnv.mujoco, AntPosEnv.mujoco; cbn.
  all: split; [rewrite !sub_add_neg; reflexivity|].
  all: exists q; rewrite Hmj; split; reflexivity.
Qed.

End Claims.

(* ================================================================== *)
(** * The claims on the concrete world *)
(* ================================================================== *)

(** The alternating generator meets what NumPy documents. *)
#[global] Instance nat_random_spec : RandomStateSpec nat.
Proof.
  split.
  - intros lo hi size r. cbn. by rewrite length_map, length_seq.
  - intros lo hi size r Hle. cbn.
    destruct (leb_not_nan _ _ Hle) as [Hlo Hhi].
    apply Forall_forall. intros x Hx.
    apply list_elem_of_In, in_map_iff in Hx as (i & <- & _).
    destruct (Nat.even (r + i)); split; auto using leb_refl.
  - intros n p size r. cbn. by rewrite length_map, length_seq.
  - intros n p size r Hn. cbn.
    apply Forall_forall. intros x Hx.
    apply list_elem_of_In, in_map_iff in Hx as (i & <- & _).
    destruct (Nat.even (r + i)); lia.
Qed.

(** ** Runs *)

Example done_at_height_0_19 : notdone_of Demo.low_state = false.
Proof. reflexivity. Qed.

Example done_at_height_0_5 : notdone_of (state_vector Demo.sim0) = true.
Proof. reflexivity. Qed.

Example done_at_nan : notdone_of Demo.nan_state = false.
Proof. reflexivity. Qed.

(** The engine refuses an empty action, and [step] passes that on. *)
Example step_engine_error :
  (AntVelEnv.step [] Demo.vel0).1 = Raise EngineError.
Proof. reflexivity. Qed.

(** An action of two components against three bounds. *)
Example step_shape_error :
  (AntVelEnv.step [F64.zero; F64.zero] Demo.vel0).1 = Raise ValueError.
Proof. vm_compute. reflexivity. Qed.

(** A finite state vector that has no entry 2. *)
Example step_index_error :
  (AntVelEnv.step [F64.zero] Demo.short_world).1 = Raise IndexError.
Proof. vm_compute. reflexivity. Qed.

(** [reset_task] on a record without the key leaves the task replaced
    and the goal as it was. *)
Example reset_task_key_error :
  AntDirEnv.reset_task 0%nat Demo.dir0 = (Raise KeyError, Demo.dir0).
Proof. vm_compute. reflexivity. Qed.

(** ** Witnesses *)

(** A [step] of the velocity variant, from rest and with no action: the
    episode goes on. *)
Lemma C1_witness :
  ∃ o r i w',
    AntVelEnv.step Demo.zero_action Demo.vel0 = (Ok (o, r, false, i), w') ∧
    forward_dynamics Demo.zero_action (AntVelEnv.mujoco Demo.vel0)
      = (Ok tt, AntVelEnv.mujoco w') ∧
    done_as_specified (state_vector (AntVelEnv.mujoco w')) false.
Proof.
  eexists _, _, _, _. split; [vm_compute; reflexivity|].
  eapply (proj1 (proj1 C1_done_from_post_step_state)). vm_compute. reflexivity.
Defined.

(** C2, as it is stated, at a torso velocity and a goal velocity that are
    both infinite: the two are equal and the forward reward is NaN, not
    1.0. *)
Lemma C2_counterexample :
  ∃ o r d i w',
    AntVelEnv.step Demo.inf_action Demo.vel_inf = (Ok (o, r, d, i), w') ∧
    get_body_comvel "torso" (AntVelEnv.mujoco w') !! 0%nat = Some F64.inf ∧
    AntVelEnv._goal_vel (self Demo.vel_inf) = F64.inf ∧
    F64.eqb F64.inf F64.inf = true ∧
    AntVelEnv.reward_forward i = F64.nan ∧
    F64.eqb (AntVelEnv.reward_forward i) F64.one = false.
Proof.
  eexists _, _, _, _, _. split; [vm_compute; reflexivity|].
  repeat split.
Qed.

(** At rest with goal velocity 0.0 the forward reward is 1.0. *)
Lemma C2_witness :
  ∃ o r d i w',
    AntVelEnv.step Demo.zero_action Demo.vel0 = (Ok (o, r, d, i), w') ∧
    AntVelEnv.reward_forward i = F64.one.
Proof.
  eexists _, _, _, _, _. split; [vm_compute; reflexivity|].
  edestruct (C2_forward_reward_velocity (Sim:=Demo.sim) (Rng:=nat)
               Demo.zero_action Demo.vel0) as (fv & _ & Hfv & _ & _ & Hone & _);
    [vm_compute; reflexivity|].
  vm_compute in Hfv. injection Hfv as <-.
  apply Hone; reflexivity.
Defined.

(** The bounds are -1 and 1: the scaling is 1 in each component, before
    and after a session of calls. *)
Lemma C3_witness :
  ∃ w1,
    AntVelEnv.on_super AntEnv.action_scaling Demo.vel0
      = (Ok [F64.one; F64.one; F64.one], w1) ∧
    AntVelEnv.on_super AntEnv.action_scaling
        (AntVelEnv.execs Demo.vel_calls w1)
      = (Ok [F64.one; F64.one; F64.one], AntVelEnv.execs Demo.vel_calls w1).
Proof.
  destruct (C3_action_scaling_memoized (Sim:=Demo.sim) (Rng:=nat))
    as [[_ [Hfirst Hnext]] _].
  destruct (Hfirst Demo.vel0) as (w1 & Hacc & _);
    [reflexivity | reflexivity |].
  exists w1. split; [exact Hacc|]. exact (Hnext _ _ _ Hacc Demo.vel_calls).
Defined.

(** [reset_task({'velocity': 2.0})]: the next forward reward is computed
    against 2.0. *)
Lemma C4_witness :
  ∃ w1 o r dn i w2,
    AntVelEnv.reset_task 1%nat Demo.vel1 = (Ok tt, w1) ∧
    AntVelEnv._goal_vel (self w1) = F64.c_2_0 ∧
    AntVelEnv.step Demo.zero_action w1 = (Ok (o, r, dn, i), w2) ∧
    AntVelEnv.reward_forward i = vel_reward F64.zero F64.c_2_0.
Proof.
  edestruct (proj1 (C4_reset_task_replaces_goal_only (Sim:=Demo.sim) (Rng:=nat))
               Demo.vel1 1%nat)
    as [Hreset Hstep]; [vm_compute; reflexivity | vm_compute; reflexivity |].
  eexists _, _, _, _, _, _. split; [exact Hreset|].
  split; [reflexivity|]. split; [vm_compute; reflexivity|].
  edestruct (Hstep Demo.zero_action) as (fv & Hfv & Hrew);
    [vm_compute; reflexivity|].
  vm_compute in Hfv. injection Hfv as <-. exact Hrew.
Defined.

(** C5, as it is stated, at the empty record [{}]: [reset_task] raises. *)
Lemma C5_counterexample :
  heap Demo.vel0 !! 0%nat = Some ∅ ∧
  (AntVelEnv.reset_task 0%nat Demo.vel0).1 = Raise KeyError.
Proof. split; vm_compute; reflexivity. Qed.

Lemma C5_witness :
  AntVelEnv.__init__ 0%nat Demo.base0 Demo.heap0 = Ok Demo.vel0 ∧
  AntVelEnv.reset_task 0%nat Demo.vel0 = (Raise KeyError, Demo.vel0).
Proof.
  destruct (proj1 (C5_missing_key (Sim:=Demo.sim) (Rng:=nat))
              0%nat ∅ Demo.base0 Demo.heap0)
    as [Hinit Hreset]; [vm_compute; reflexivity | vm_compute; reflexivity |].
  split; [exact Hinit|]. exact (Hreset Demo.vel0 eq_refl).
Defined.

(** The second of three sampled records, passed to [reset_task]. *)
Lemma C6_witness :
  ∃ ls w1 d w2,
    AntVelEnv.sample_tasks 3 Demo.vel0 = (Ok ls, w1) ∧
    ls !! 1%nat = Some 2%nat ∧
    heap w1 !! 2%nat = Some d ∧
    AntVelEnv.reset_task 2%nat w1 = (Ok tt, w2) ∧
    AntVelEnv._task (self w2) = 2%nat ∧
    (∀ a o r dn i w3,
       AntVelEnv.step a w2 = (Ok (o, r, dn, i), w3) →
       AntVelEnv.task i = 2%nat ∧ heap w3 !! 2%nat = Some d) ∧
    (∀ calls, heap (AntVelEnv.execs calls w1) !! 2%nat = Some d).
Proof.
  eexists _, _. 
  edestruct (proj1 (C6_task_round_trip (Sim:=Demo.sim) (Rng:=nat))
               3%nat Demo.vel0) as (d & w2 & H);
    [vm_compute; reflexivity | |].
  2: { exists d, w2. split; [reflexivity|]. split; [reflexivity|]. exact H. }
  apply list_elem_of_lookup. exists 1%nat. reflexivity.
Defined.

Lemma C7_witness :
  ∃ ls w',
    AntDirEnv.sample_tasks 4 Demo.dir0 = (Ok ls, w') ∧
    length ls = 4%nat ∧ NoDup ls ∧
    Forall2 (λ l b, (b = 0 ∨ b = 1) ∧
                    heap w' !! l = Some {[ "direction" := 2 * b - 1 ]})
            ls [1; 0; 1; 0] ∧
    Forall (λ l, ∃ d, heap w' !! l = Some {[ "direction" := d ]} ∧
                      (d = -1 ∨ d = 1)) ls.
Proof. exact (C7_direction_sample_tasks (Rng:=nat) 4 Demo.dir0). Defined.

Lemma C8_witness :
  (∃ ls w',
     AntVelEnv.sample_tasks 3 Demo.vel0 = (Ok ls, w') ∧
     length ls = 3%nat ∧ NoDup ls ∧
     Forall2 (λ l v, heap w' !! l = Some {[ "velocity" := v ]} ∧
                     F64.leb F64.zero v = true ∧
                     F64.leb v F64.c_3_0 = true)
             ls [F64.c_3_0; F64.zero; F64.c_3_0]) ∧
  (∃ ls w',
     AntPosEnv.sample_tasks 2 Demo.pos0 = (Ok ls, w') ∧
     length ls = 2%nat ∧ NoDup ls ∧
     Forall2 (λ l p, heap w' !! l = Some {[ "position" := p ]} ∧
                     length p = 2%nat ∧
                     Forall (λ x, F64.leb F64.minus_3_0 x = true ∧
                                  F64.leb x F64.c_3_0 = true) p)
             ls [[F64.c_3_0; F64.minus_3_0]; [F64.c_3_0; F64.minus_3_0]]).
Proof.
  split.
  - exact (proj1 (C8_uniform_sample_tasks (Rng:=nat)) 3%nat Demo.vel0).
  - exact (proj2 (C8_uniform_sample_tasks (Rng:=nat)) 2%nat Demo.pos0).
Defined.

(** C9, as it is stated, with a joint at 0.1: the first entry of the
    observation is the binary32 number nearest to 0.1, which is not the
    joint position. *)
Lemma C9_counterexample :
  let s := AntEnv.mk Demo.sim_tenth 7%nat None in
  ∃ obs,
    AntEnv.get_current_obs s = (Ok obs, s) ∧
    qpos (AntEnv.mujoco_env s) !! 0%nat = Some F64.c_0_1 ∧
    obs !! 0%nat = Some (S754_finite false 13421773 (-27)) ∧
    F64.eqb (S754_finite false 13421773 (-27)) F64.c_0_1 = false ∧
    obs ≠ obs_parts (AntEnv.mujoco_env s).
Proof.
  eexists. split; [vm_compute; reflexivity|].
  repeat split. vm_compute. discriminate.
Qed.

Lemma C9_witness :
  (∃ obs, AntEnv.get_current_obs (AntEnv.__init__ Demo.base0)
          = (Ok obs, AntEnv.__init__ Demo.base0) ∧ length obs = 17%nat) ∧
  clip F64.minus_one F64.one F64.c_0_5 = F64.c_0_5 ∧
  F64.leb (clip F64.minus_one F64.one F64.c_2_0) F64.one = true.
Proof.
  destruct (C9_observation_layout (AntEnv.__init__ Demo.base0))
    as [Hobs Hclip].
  split; [eexists; split; [exact Hobs | reflexivity]|].
  split.
  - apply (Hclip F64.c_0_5); reflexivity.
  - apply (Hclip F64.c_2_0). reflexivity.
Defined.

Lemma C10_witness :
  ∃ o r d i w',
    AntDirEnv.step Demo.zero_action Demo.dir0 = (Ok (o, r, d, i), w') ∧
    r = F64.add (F64.add (F64.add (AntDirEnv.reward_forward i)
                                  (AntDirEnv.reward_ctrl i))
                         (AntDirEnv.reward_contact i))
                (AntDirEnv.reward_survive i).
Proof.
  eexists _, _, _, _, _. split; [vm_compute; reflexivity|].
  edestruct (proj1 (proj2 (C10_reward_is_sum_of_infos (Sim:=Demo.sim) (Rng:=nat)))
               Demo.zero_action Demo.dir0) as [Hsum _];
    [vm_compute; reflexivity|].
  exact Hsum.
Defined.


(* ================================================================== *)
(** * Further properties of the code *)
(* ================================================================== *)

(** ** How computations fail *)

Section FailureFacts.

Lemma bind_Raise {St A B} (m : M St A) (k : A → M St B) s e s' :
  (m ≫= k) s = (Raise e, s') →
  m s = (Raise e, s') ∨ ∃ a s1, m s = (Ok a, s1) ∧ k a s1 = (Raise e, s').
Proof.
  unfold mbind, M_bind. destruct (m s) as [[a|e1] s1]; [eauto|].
  intros [= -> ->]. by left.
Qed.

(** Two shapes that do not broadcast: different lengths, neither of
    them 1. *)
Lemma broadcast_Raise f (a b : list spec_float) e :
  broadcast f a b = Raise e →
  e = ValueError ∧ length a ≠ length b ∧ length a ≠ 1%nat ∧ length b ≠ 1%nat.
Proof.
  unfold broadcast. destruct (decide (length a = length b)) as [|Hne]; [done|].
  destruct a as [|x [|x' a]], b as [|y [|y' b]]; try done;
    intros [= <-]; cbn in *; repeat split; congruence.
Qed.

Lemma broadcast_fails f (a b : list spec_float) :
  length a ≠ length b → length a ≠ 1%nat → length b ≠ 1%nat →
  broadcast f a b = Raise ValueError.
Proof.
  intros Hne Ha Hb. unfold broadcast. rewrite decide_False by done.
  destruct a as [|x [|x' a]], b as [|y [|y' b]]; done.
Qed.

Lemma broadcast_Ok_shape f (a b c : list spec_float) :
  broadcast f a b = Ok c →
  length a = length b ∨ length a = 1%nat ∨ length b = 1%nat.
Proof.
  intros H. destruct (decide (length a = length b)); [by left|].
  destruct (decide (length a = 1%nat)); [by right; left|].
  destruct (decide (length b = 1%nat)); [by right; right|].
  by rewrite broadcast_fails in H.
Qed.

(** A scalar against a vector: the scalar is used for every entry. *)
Lemma broadcast_scalar_r f (a : list spec_float) y :
  length a ≠ 1%nat → broadcast f a [y] = Ok (map (λ x, f x y) a).
Proof.
  intros Ha. unfold broadcast. rewrite decide_False by done.
  by destruct a as [|x [|x' a]].
Qed.

(** The test of the state vector raises only on a finite vector that is
    too short. *)
Lemma notdone_Raise {St} (state : list spec_float) (s s' : St) e :
  (if all (np_isfinite state) then
     h ← lift_res (getitem state 2);
     if F64.geb h F64.c_0_2 then
       h' ← lift_res (getitem state 2);
       mret (F64.leb h' F64.one)
     else mret false
   else mret false) s = (Raise e, s') →
  e = IndexError ∧ s' = s ∧ all (np_isfinite state) = true ∧
  (length state < 3)%nat.
Proof.
  destruct (all (np_isfinite state)) eqn:Hall; [|done].
  unfold lift_res, getitem, mbind, M_bind, mret, M_ret.
  destruct (state !! 2%nat) as [h|] eqn:Hh.
  - by destruct (F64.geb h F64.c_0_2).
  - intros [= <- <-]. apply lookup_ge_None in Hh. repeat split; lia.
Qed.

End FailureFacts.

Section AntEnvFailure.
Context {Sim Rng : Type} `{!MujocoEnv Sim}.

(** A read of [action_scaling] that raises: the bounds do not broadcast,
    the exception is [ValueError], and nothing has been cached. *)
Lemma action_scaling_Raise (s s' : AntEnv.t Sim Rng) e :
  AntEnv.action_scaling s = (Raise e, s') →
  e = ValueError ∧ s' = s ∧ AntEnv._action_scaling s = None ∧
  broadcast F64.sub (high (action_space (AntEnv.mujoco_env s)))
                    (low (action_space (AntEnv.mujoco_env s)))
    = Raise ValueError.
Proof.
  destruct (AntEnv._action_scaling s) as [v|] eqn:Hc.
  - by rewrite (action_scaling_cached _ _ Hc).
  - rewrite (action_scaling_fresh _ Hc).
    destruct (broadcast _ _ _) as [d|e1] eqn:Hb; [done|].
    intros [= -> <-]. destruct (broadcast_Raise _ _ _ _ Hb) as [-> _].
    done.
Qed.

End AntEnvFailure.

Section VelFailure.
Context {Sim Rng : Type} `{!MujocoEnv Sim, !RandomState Rng, !Numpy}.
Implicit Types w : World spec_float (AntVelEnv.t Sim Rng).

Lemma vel_step_raise a w e w' :
  AntVelEnv.step a w = (Raise e, w') →
  heap w' = heap w ∧
  AntVelEnv._task (self w') = AntVelEnv._task (self w) ∧
  AntVelEnv._goal_vel (self w') = AntVelEnv._goal_vel (self w) ∧
  (forward_dynamics a (AntVelEnv.mujoco w) = (Raise e, AntVelEnv.mujoco w') ∨
   forward_dynamics a (AntVelEnv.mujoco w) = (Ok tt, AntVelEnv.mujoco w') ∧
   ((e = IndexError ∧ get_body_comvel "torso" (AntVelEnv.mujoco w') = []) ∨
    (e = ValueError ∧ AntVelEnv.cache w' = None ∧
     broadcast F64.sub (high (action_space (AntVelEnv.mujoco w')))
                       (low (action_space (AntVelEnv.mujoco w')))
       = Raise ValueError) ∨
    (e = ValueError ∧
     ∃ scaling, AntVelEnv.cache w' = Some scaling ∧
                broadcast F64.div a scaling = Raise ValueError) ∨
    (e = IndexError ∧
     all (np_isfinite (state_vector (AntVelEnv.mujoco w'))) = true ∧
     (length (state_vector (AntVelEnv.mujoco w')) < 3)%nat))).
Proof.
  intros Hs.
  pose proof (vel_step_frame a w) as Hframe. rewrite Hs in Hframe.
  cbn [snd] in Hframe. destruct Hframe as (Hh & Ht & Hg & _ & _).
  repeat (split; [done|]). clear Hh Ht Hg.
  destruct w as [h [[mj0 rng sc] tk g]]. unfold AntVelEnv.step in Hs.
  unfold AntVelEnv.mujoco, AntVelEnv.cache.
  apply bind_Raise in Hs as [H1|([] & w1 & H1 & Hs)];
    rewrite vel_on_mujoco_run in H1;
    destruct (forward_dynamics a mj0) as [r1 mj] eqn:Hfd.
  { injection H1 as -> <-. cbn. by left. }
  injection H1 as -> <-. right.
  apply bind_Raise in Hs as [H1|(comvel & w1 & H1 & Hs)];
    rewrite vel_on_mujoco_run in H1; [done|].
  injection H1 as <- <-.
  apply bind_Raise in Hs as [H1|(fv & w1 & H1 & Hs)].
  { unfold lift_res, getitem in H1.
    destruct (get_body_comvel "torso" mj) as [|x xs] eqn:Hcv; [|done].
    injection H1 as <- <-. cbn. split; [done|]. by left. }
  unfold lift_res in H1. injection H1 as _ <-.
  apply bind_Raise in Hs as [H1|(goal_vel & w1 & H1 & Hs)]; [done|].
  injection H1 as <- <-.
  apply bind_Raise in Hs as [H1|(scaling & w1 & H1 & Hs)];
    rewrite vel_on_super_run in H1;
    destruct (AntEnv.action_scaling (AntEnv.mk mj rng sc))
      as [rs sup] eqn:Hsc; injection H1 as -> <-.
  { destruct (action_scaling_Raise _ _ _ Hsc) as (-> & -> & Hc & Hb).
    cbn in *. split; [done|]. right; left. done. }
  destruct (action_scaling_inv _ _ _ Hsc) as (Hmj & _ & Hc & _).
  destruct sup as [mj' rng' sc']. cbn in Hmj. subst mj'.
  specialize (Hc _ eq_refl). cbn in Hc. subst sc'.
  apply bind_Raise in Hs as [H1|(quot & w1 & H1 & Hs)].
  { unfold lift_res in H1. injection H1 as Hq <-.
    destruct (broadcast_Raise _ _ _ _ Hq) as [-> _]. cbn.
    split; [done|]. right; right; left. eauto. }
  unfold lift_res in H1. injection H1 as _ <-.
  apply bind_Raise in Hs as [H1|(cfrc & w1 & H1 & Hs)];
    rewrite vel_on_mujoco_run in H1; [done|]. injection H1 as <- <-.
  apply bind_Raise in Hs as [H1|(obs & w1 & H1 & Hs)];
    rewrite vel_on_super_run, get_current_obs_run in H1; [done|].
  injection H1 as <- <-.
  apply bind_Raise in Hs as [H1|(state & w1 & H1 & Hs)];
    rewrite vel_on_mujoco_run in H1; [done|]. injection H1 as <- <-.
  cbn [AntEnv.mujoco_env] in Hs.
  apply bind_Raise in Hs as [H1|(notdone & w1 & H1 & Hs)].
  { apply notdone_Raise in H1 as (-> & -> & Hall & Hlen). cbn.
    split; [done|]. right; right; right. done. }
  clear H1.
  apply bind_Raise in Hs as [H1|(task & w2 & H1 & Hs)]; done.
Qed.

End VelFailure.

Section DirFailure.
Context {Sim Rng : Type} `{!MujocoEnv Sim, !RandomState Rng, !Numpy}.
Implicit Types w : World Z (AntDirEnv.t Sim Rng).

Lemma dir_step_raise a w e w' :
  AntDirEnv.step a w = (Raise e, w') →
  heap w' = heap w ∧
  AntDirEnv._task (self w') = AntDirEnv._task (self w) ∧
  AntDirEnv._goal_dir (self w') = AntDirEnv._goal_dir (self w) ∧
  (forward_dynamics a (AntDirEnv.mujoco w) = (Raise e, AntDirEnv.mujoco w') ∨
   forward_dynamics a (AntDirEnv.mujoco w) = (Ok tt, AntDirEnv.mujoco w') ∧
   ((e = IndexError ∧ get_body_comvel "torso" (AntDirEnv.mujoco w') = []) ∨
    (e = ValueError ∧ AntDirEnv.cache w' = None ∧
     broadcast F64.sub (high (action_space (AntDirEnv.mujoco w')))
                       (low (action_space (AntDirEnv.mujoco w')))
       = Raise ValueError) ∨
    (e = ValueError ∧
     ∃ scaling, AntDirEnv.cache w' = Some scaling ∧
                broadcast F64.div a scaling = Raise ValueError) ∨
    (e = IndexError ∧
     all (np_isfinite (state_vector (AntDirEnv.mujoco w'))) = true ∧
     (length (state_vector (AntDirEnv.mujoco w')) < 3)%nat))).
Proof.
  intros Hs.
  pose proof (dir_step_frame a w) as Hframe. rewrite Hs in Hframe.
  cbn [snd] in Hframe. destruct Hframe as (Hh & Ht & Hg & _ & _).
  repeat (split; [done|]). clear Hh Ht Hg.
  destruct w as [h [[mj0 rng sc] tk g]]. unfold AntDirEnv.step in Hs.
  unfold AntDirEnv.mujoco, AntDirEnv.cache.
  apply bind_Raise in Hs as [H1|([] & w1 & H1 & Hs)];
    rewrite dir_on_mujoco_run in H1;
    destruct (forward_dynamics a mj0) as [r1 mj] eqn:Hfd.
  { injection H1 as -> <-. cbn. by left. }
  injection H1 as -> <-. right.
  apply bind_Raise in Hs as [H1|(comvel & w1 & H1 & Hs)];
    rewrite dir_on_mujoco_run in H1; [done|].
  injection H1 as <- <-.
  apply bind_Raise in Hs as [H1|(fv & w1 & H1 & Hs)].
  { unfold lift_res, getitem in H1.
    destruct (get_body_comvel "torso" mj) as [|x xs] eqn:Hcv; [|done].
    injection H1 as <- <-. cbn. split; [done|]. by left. }
  unfold lift_res in H1. injection H1 as _ <-.
  apply bind_Raise in Hs as [H1|(goal_dir & w1 & H1 & Hs)]; [done|].
  injection H1 as <- <-.
  apply bind_Raise in Hs as [H1|(scaling & w1 & H1 & Hs)];
    rewrite dir_on_super_run in H1;
    destruct (AntEnv.action_scaling (AntEnv.mk mj rng sc))
      as [rs sup] eqn:Hsc; injection H1 as -> <-.
  { destruct (action_scaling_Raise _ _ _ Hsc) as (-> & -> & Hc & Hb).
    cbn in *. split; [done|]. right; left. done. }
  destruct (action_scaling_inv _ _ _ Hsc) as (Hmj & _ & Hc & _).
  destruct sup as [mj' rng' sc']. cbn in Hmj. subst mj'.
  specialize (Hc _ eq_refl). cbn in Hc. subst sc'.
  apply bind_Raise in Hs as [H1|(quot & w1 & H1 & Hs)].
  { unfold lift_res in H1. injection H1 as Hq <-.
    destruct (broadcast_Raise _ _ _ _ Hq) as [-> _]. cbn.
    split; [done|]. right; right; left. eauto. }
  unfold lift_res in H1. injection H1 as _ <-.
  apply bind_Raise in Hs as [H1|(cfrc & w1 & H1 & Hs)];
    rewrite dir_on_mujoco_run in H1; [done|]. injection H1 as <- <-.
  apply bind_Raise in Hs as [H1|(obs & w1 & H1 & Hs)];
    rewrite dir_on_super_run, get_current_obs_run in H1; [done|].
  injection H1 as <- <-.
  apply bind_Raise in Hs as [H1|(state & w1 & H1 & Hs)];
    rewrite dir_on_mujoco_run in H1; [done|]. injection H1 as <- <-.
  cbn [AntEnv.mujoco_env] in Hs.
  apply bind_Raise in Hs as [H1|(notdone & w1 & H1 & Hs)].
  { apply notdone_Raise in H1 as (-> & -> & Hall & Hlen). cbn.
    split; [done|]. right; right; right. done. }
  clear H1.
  apply bind_Raise in Hs as [H1|(task & w2 & H1 & Hs)]; done.
Qed.

End DirFailure.

Section PosFailure.
Context {Sim Rng : Type} `{!MujocoEnv Sim, !RandomState Rng, !Numpy}.
Implicit Types w : World (list spec_float) (AntPosEnv.t Sim Rng).

Lemma pos_step_raise a w e w' :
  AntPosEnv.step a w = (Raise e, w') →
  heap w' = heap w ∧
  AntPosEnv._task (self w') = AntPosEnv._task (self w) ∧
  AntPosEnv._goal_pos (self w') = AntPosEnv._goal_pos (self w) ∧
  (forward_dynamics a (AntPosEnv.mujoco w) = (Raise e, AntPosEnv.mujoco w') ∨
   forward_dynamics a (AntPosEnv.mujoco w) = (Ok tt, AntPosEnv.mujoco w') ∧
   ((e = ValueError ∧ AntPosEnv.cache w' = AntPosEnv.cache w ∧
     broadcast F64.sub
       (take 2 (get_body_com "torso" (AntPosEnv.mujoco w')))
       (AntPosEnv._goal_pos (self w)) = Raise ValueError) ∨
    (e = ValueError ∧ AntPosEnv.cache w' = None ∧
     broadcast F64.sub (high (action_space (AntPosEnv.mujoco w')))
                       (low (action_space (AntPosEnv.mujoco w')))
       = Raise ValueError) ∨
    (e = ValueError ∧
     ∃ scaling, AntPosEnv.cache w' = Some scaling ∧
                broadcast F64.div a scaling = Raise ValueError) ∨
    (e = IndexError ∧
     all (np_isfinite (state_vector (AntPosEnv.mujoco w'))) = true ∧
     (length (state_vector (AntPosEnv.mujoco w')) < 3)%nat))).
Proof.
  intros Hs.
  pose proof (pos_step_frame a w) as Hframe. rewrite Hs in Hframe.
  cbn [snd] in Hframe. destruct Hframe as (Hh & Ht & Hg & _ & _).
  repeat (split; [done|]). clear Hh Ht Hg.
  destruct w as [h [[mj0 rng sc] tk g]]. unfold AntPosEnv.step in Hs.
  unfold AntPosEnv.mujoco, AntPosEnv.cache.
  apply bind_Raise in Hs as [H1|([] & w1 & H1 & Hs)];
    rewrite pos_on_mujoco_run in H1;
    destruct (forward_dynamics a mj0) as [r1 mj] eqn:Hfd.
  { injection H1 as -> <-. cbn. by left. }
  injection H1 as -> <-. right.
  apply bind_Raise in Hs as [H1|(com & w1 & H1 & Hs)];
    rewrite pos_on_mujoco_run in H1; [done|].
  injection H1 as <- <-.
  apply bind_Raise in Hs as [H1|(goal_pos & w1 & H1 & Hs)]; [done|].
  injection H1 as <- <-. cbn [self AntPosEnv._goal_pos] in Hs.
  apply bind_Raise in Hs as [H1|(diff & w1 & H1 & Hs)].
  { unfold lift_res in H1. injection H1 as Hd <-.
    destruct (broadcast_Raise _ _ _ _ Hd) as [-> _]. cbn.
    split; [done|]. by left. }
  unfold lift_res in H1. injection H1 as _ <-.
  apply bind_Raise in Hs as [H1|(scaling & w1 & H1 & Hs)];
    rewrite pos_on_super_run in H1;
    destruct (AntEnv.action_scaling (AntEnv.mk mj rng sc))
      as [rs sup] eqn:Hsc; injection H1 as -> <-.
  { destruct (action_scaling_Raise _ _ _ Hsc) as (-> & -> & Hc & Hb).
    cbn in *. split; [done|]. right; left. done. }
  destruct (action_scaling_inv _ _ _ Hsc) as (Hmj & _ & Hc & _).
  destruct sup as [mj' rng' sc']. cbn in Hmj. subst mj'.
  specialize (Hc _ eq_refl). cbn in Hc. subst sc'.
  apply bind_Raise in Hs as [H1|(quot & w1 & H1 & Hs)].
  { unfold lift_res in H1. injection H1 as Hq <-.
    destruct (broadcast_Raise _ _ _ _ Hq) as [-> _]. cbn.
    split; [done|]. right; right; left. eauto. }
  unfold lift_res in H1. injection H1 as _ <-.
  apply bind_Raise in Hs as [H1|(cfrc & w1 & H1 & Hs)];
    rewrite pos_on_mujoco_run in H1; [done|]. injection H1 as <- <-.
  apply bind_Raise in Hs as [H1|(obs & w1 & H1 & Hs)];
    rewrite pos_on_super_run, get_current_obs_run in H1; [done|].
  injection H1 as <- <-.
  apply bind_Raise in Hs as [H1|(state & w1 & H1 & Hs)];
    rewrite pos_on_mujoco_run in H1; [done|]. injection H1 as <- <-.
  cbn [AntEnv.mujoco_env] in Hs.
  apply bind_Raise in Hs as [H1|(notdone & w1 & H1 & Hs)].
  { apply notdone_Raise in H1 as (-> & -> & Hall & Hlen). cbn.
    split; [done|]. right; right; right. done. }
  clear H1.
  apply bind_Raise in Hs as [H1|(task & w2 & H1 & Hs)]; done.
Qed.

End PosFailure.

(** ** Facts about the calls *)

Section CallFacts.
Context {Sim Rng : Type} `{!MujocoEnv Sim, !RandomState Rng, !Numpy}.

Lemma bind_fail {St A B} (m : M St A) (k : A → M St B) s e s1 :
  m s = (Raise e, s1) → (m ≫= k) s = (Raise e, s1).
Proof. unfold mbind, M_bind. intros ->. reflexivity. Qed.

(** [1.0 * x] is [x] for every valid binary64 number [x]. *)
Lemma mul_one x : F64.valid x = true → F64.mul F64.one x = x.
Proof.
  destruct x as [s|s| |s m e]; try reflexivity.
  unfold F64.valid, valid_binary, bounded, canonical_mantissa. intros Hv.
  apply andb_true_iff in Hv as [Hc Hb].
  apply Z.eqb_eq in Hc. apply Z.leb_le in Hb.
  unfold F64.mul, SFmul, F64.one.
  unfold binary_round_aux, shr_fexp, Zdigits2.
  rewrite digits_shift52.
  replace (Z.pos (digits2_pos m) + 52 + (-52 + e))
    with (Z.pos (digits2_pos m) + e) by lia.
  rewrite Hc. replace (e - (-52 + e)) with 52 by lia.
  unfold shr at 1.
  change (shr_record_of_loc (Z.pos (4503599627370496 * m)) loc_Exact)
    with (Build_shr_record (Z.pos (4503599627370496 * m)) false false).
  rewrite shr52.
  cbn [shr_m loc_of_shr_record round_nearest_even].
  unfold Zdigits2. replace (-52 + e + 52) with e by lia.
  rewrite Hc, Z.sub_diag. cbn [shr shr_record_of_loc shr_m].
  apply Z.leb_le in Hb. rewrite Hb. reflexivity.
Qed.

Lemma to_float32_valid x : valid32 (F64.to_float32 x) = true.
Proof.
  destruct x as [s|s| |s m e]; try reflexivity.
  apply binary_normalize_valid. reflexivity.
Qed.

(** What a call other than [reset_task] leaves in place. *)
Lemma vel_exec_frame (c : AntVelEnv.call) (w : World spec_float (AntVelEnv.t Sim Rng)) :
  (∀ l, c ≠ AntVelEnv.Reset_task l) →
  AntVelEnv._task (self (AntVelEnv.exec c w)) = AntVelEnv._task (self w) ∧
  AntVelEnv._goal_vel (self (AntVelEnv.exec c w))
    = AntVelEnv._goal_vel (self w).
Proof.
  intros Hc. destruct c as [a|n|l| | |m]; cbn [AntVelEnv.exec].
  - by destruct (vel_step_frame a w) as (_ & ? & ? & _).
  - destruct (vel_sample_tasks_run n w) as (ls & w' & -> & _ & _ & _ & _ & Hs).
    cbn [snd]. rewrite Hs. by destruct w as [h [[] ? ?]].
  - by destruct (Hc l).
  - destruct w as [h [sup tk g]]. rewrite vel_on_super_run.
    by destruct (AntEnv.action_scaling sup).
  - destruct w as [h [sup tk g]].
    by rewrite vel_on_super_run, get_current_obs_run.
  - destruct w as [h [[mj rng sc] tk g]]. rewrite vel_on_mujoco_run.
    by destruct (m mj).
Qed.

Lemma dir_exec_frame (c : AntDirEnv.call) (w : World Z (AntDirEnv.t Sim Rng)) :
  (∀ l, c ≠ AntDirEnv.Reset_task l) →
  AntDirEnv._task (self (AntDirEnv.exec c w)) = AntDirEnv._task (self w) ∧
  AntDirEnv._goal_dir (self (AntDirEnv.exec c w))
    = AntDirEnv._goal_dir (self w).
Proof.
  intros Hc. destruct c as [a|n|l| | |m]; cbn [AntDirEnv.exec].
  - by destruct (dir_step_frame a w) as (_ & ? & ? & _).
  - destruct (dir_sample_tasks_run n w) as (ls & w' & -> & _ & _ & _ & _ & Hs).
    cbn [snd]. rewrite Hs. by destruct w as [h [[] ? ?]].
  - by destruct (Hc l).
  - destruct w as [h [sup tk g]]. rewrite dir_on_super_run.
    by destruct (AntEnv.action_scaling sup).
  - destruct w as [h [sup tk g]].
    by rewrite dir_on_super_run, get_current_obs_run.
  - destruct w as [h [[mj rng sc] tk g]]. rewrite dir_on_mujoco_run.
    by destruct (m mj).
Qed.

Lemma pos_exec_frame (c : AntPosEnv.call)
    (w : World (list spec_float) (AntPosEnv.t Sim Rng)) :
  (∀ l, c ≠ AntPosEnv.Reset_task l) →
  AntPosEnv._task (self (AntPosEnv.exec c w)) = AntPosEnv._task (self w) ∧
  AntPosEnv._goal_pos (self (AntPosEnv.exec c w))
    = AntPosEnv._goal_pos (self w).
Proof.
  intros Hc. destruct c as [a|n|l| | |m]; cbn [AntPosEnv.exec].
  - by destruct (pos_step_frame a w) as (_ & ? & ? & _).
  - destruct (pos_sample_tasks_run n w) as (ls & w' & -> & _ & _ & _ & _ & Hs).
    cbn [snd]. rewrite Hs. by destruct w as [h [[] ? ?]].
  - by destruct (Hc l).
  - destruct w as [h [sup tk g]]. rewrite pos_on_super_run.
    by destruct (AntEnv.action_scaling sup).
  - destruct w as [h [sup tk g]].
    by rewrite pos_on_super_run, get_current_obs_run.
  - destruct w as [h [[mj rng sc] tk g]]. rewrite pos_on_mujoco_run.
    by destruct (m mj).
Qed.

End CallFacts.

(** ** Rounding a number that is already in the format *)

Section Canonical.
Variables prec emax : Z.
Hypothesis Hprec : 0 < prec.

Lemma binary_round_canonical s m e :
  bounded prec emax m e = true →
  binary_round prec emax s m e = S754_finite s m e.
Proof.
  unfold bounded, canonical_mantissa. intros Hb.
  apply andb_true_iff in Hb as [Hc Hb]. apply Z.eqb_eq in Hc.
  unfold binary_round. rewrite Hc, shl_align_same.
  unfold binary_round_aux, shr_fexp. cbn [Zdigits2].
  rewrite Hc, Z.sub_diag. cbn [shr shr_record_of_loc shr_m].
  cbn [loc_of_shr_record round_nearest_even Zdigits2].
  rewrite Hc, Z.sub_diag. cbn [shr shr_record_of_loc shr_m].
  by rewrite Hb.
Qed.

Lemma binary_normalize_canonical s m e :
  bounded prec emax m e = true →
  binary_normalize prec emax (cond_Zopp s (Zpos m)) e s = S754_finite s m e.
Proof. intros Hb. destruct s; cbn; by apply binary_round_canonical. Qed.

(** Rounding makes no NaN. *)
Lemma binary_round_aux_not_nan s m e l :
  0 ≤ m → e ≤ fexp prec emax (Zdigits2 m + e) →
  binary_round_aux prec emax s m e l ≠ S754_nan.
Proof.
  intros Hm He. unfold binary_round_aux.
  pose proof (shr_fexp_canonical prec emax Hprec m e l Hm He) as H1.
  destruct (shr_fexp prec emax m e l) as [r1 e1].
  destruct H1 as (Hm1 & Hc1 & Hz1).
  set (m2 := round_nearest_even _ _).
  pose proof (round_nearest_even_bounds (shr_m r1) (loc_of_shr_record r1)) as Hb.
  fold m2 in Hb.
  assert (Hm2 : 0 ≤ m2) by lia.
  assert (He2 : e1 ≤ fexp prec emax (Zdigits2 m2 + e1)).
  { destruct (Z.eq_dec (shr_m r1) 0) as [H0|H0].
    - rewrite (Hz1 H0). apply fexp_ge_emin.
    - rewrite <- (Hc1 ltac:(lia)) at 1. apply fexp_mono.
      pose proof (Zdigits2_mono (shr_m r1) m2 Hm1 ltac:(lia)). lia. }
  pose proof (shr_fexp_canonical prec emax Hprec m2 e1 loc_Exact Hm2 He2) as H2.
  destruct (shr_fexp prec emax m2 e1 loc_Exact) as [r2 e2].
  destruct H2 as (Hm3 & _ & _).
  destruct (shr_m r2) as [|m3|m3] eqn:E3; [done| |lia].
  by destruct (e2 <=? emax - prec).
Qed.

Lemma binary_normalize_not_nan m e s :
  binary_normalize prec emax m e s ≠ S754_nan.
Proof.
  destruct m as [|m|m]; cbn [binary_normalize]; [done| |];
    unfold binary_round;
    pose proof (shl_align_fexp prec emax m e) as H;
    destruct (shl_align m e _) as [mz ez];
    apply binary_round_aux_not_nan; (lia || exact H).
Qed.

End Canonical.

Section CastFacts.

(** A binary32 number is left as it is by the cast. *)
Lemma to_float32_fixed x : valid32 x = true → F64.to_float32 x = x.
Proof.
  destruct x as [s|s| |s m e]; try reflexivity.
  unfold valid32, valid_binary, F64.to_float32.
  apply binary_normalize_canonical.
Qed.

Lemma to_float32_idem x :
  F64.to_float32 (F64.to_float32 x) = F64.to_float32 x.
Proof. apply to_float32_fixed, to_float32_valid. Qed.

Lemma to_float32_nan x : F64.is_nan (F64.to_float32 x) = F64.is_nan x.
Proof.
  destruct x as [s|s| |s m e]; try reflexivity.
  unfold F64.to_float32. cbn [F64.is_nan].
  pose proof (binary_normalize_not_nan 24 128 eq_refl (cond_Zopp s (Zpos m)) e s) as H.
  by destruct (binary_normalize _ _ _ _ _).
Qed.

End CastFacts.

(** ** Computations that do not look into the heap *)

Section HeapBlind.
Context {V Self : Type}.





End HeapBlind.

Section SessionFacts.
Context {Sim Rng : Type} `{!MujocoEnv Sim, !RandomState Rng, !Numpy}.




(** One acceptable call keeps the goal in step with the task. *)
Lemma vel_exec_in_sync c (w : World spec_float (AntVelEnv.t Sim Rng)) :
  vel_in_sync w → vel_call_ok w c → vel_in_sync (AntVelEnv.exec c w).
Proof.
  intros (d & Hd & Hg) Hok.
  assert (Hother : (∀ l, c ≠ AntVelEnv.Reset_task l) →
                   vel_in_sync (AntVelEnv.exec c w)).
  { intros Hc. destruct (vel_exec_frame c w Hc) as [Ht Hgl].
    exists d. rewrite Ht, Hgl. split; [|done].
    by apply (vel_exec_keeps c w). }
  destruct c as [a|n|l| | |m]; try (by apply Hother).
  destruct Hok as (d' & Hd' & v & Hv). cbn [AntVelEnv.exec].
  rewrite (vel_reset_task_run _ _ _ _ Hd' Hv). exists d'. cbn.
  split; [done|]. unfold dict_get. by rewrite Hv.
Qed.

Lemma dir_exec_in_sync c (w : World Z (AntDirEnv.t Sim Rng)) :
  dir_in_sync w → dir_call_ok w c → dir_in_sync (AntDirEnv.exec c w).
Proof.
  intros (d & Hd & Hg) Hok.
  assert (Hother : (∀ l, c ≠ AntDirEnv.Reset_task l) →
                   dir_in_sync (AntDirEnv.exec c w)).
  { intros Hc. destruct (dir_exec_frame c w Hc) as [Ht Hgl].
    exists d. rewrite Ht, Hgl. split; [|done].
    by apply (dir_exec_keeps c w). }
  destruct c as [a|n|l| | |m]; try (by apply Hother).
  destruct Hok as (d' & Hd' & v & Hv). cbn [AntDirEnv.exec].
  rewrite (dir_reset_task_run _ _ _ _ Hd' Hv). exists d'. cbn.
  split; [done|]. unfold dict_get. by rewrite Hv.
Qed.

Lemma pos_exec_in_sync c (w : World (list spec_float) (AntPosEnv.t Sim Rng)) :
  pos_in_sync w → pos_call_ok w c → pos_in_sync (AntPosEnv.exec c w).
Proof.
  intros (d & Hd & Hg) Hok.
  assert (Hother : (∀ l, c ≠ AntPosEnv.Reset_task l) →
                   pos_in_sync (AntPosEnv.exec c w)).
  { intros Hc. destruct (pos_exec_frame c w Hc) as [Ht Hgl].
    exists d. rewrite Ht, Hgl. split; [|done].
    by apply (pos_exec_keeps c w). }
  destruct c as [a|n|l| | |m]; try (by apply Hother).
  destruct Hok as (d' & Hd' & v & Hv). cbn [AntPosEnv.exec].
  rewrite (pos_reset_task_run _ _ _ _ Hd' Hv). exists d'. cbn.
  split; [done|]. unfold dict_get. by rewrite Hv.
Qed.

End SessionFacts.

Section AllocationFacts.
Context {V Self : Type}.

(** The objects a list comprehension of dictionary displays creates are
    those it returns, and no other. *)
Lemma mapM_new_dict_dom (f : V → gmap string V) (xs : list V)
    (w : World V Self) ls w' :
  mapM (λ x, new_dict (Self:=Self) (f x)) xs w = (Ok ls, w') →
  dom (heap w') = dom (heap w) ∪ list_to_set ls.
Proof.
  revert w ls. induction xs as [|x xs IH]; intros w ls.
  - cbn. intros [= <- <-]. simpl. by rewrite (right_id_L ∅ (∪)).
  - cbn [mapM]. intros Hrun.
    apply bind_Ok in Hrun as (l & w1 & H1 & Hrun).
    rewrite new_dict_run in H1. injection H1 as <- <-.
    apply bind_Ok in Hrun as (ls' & w2 & H2 & Hrun).
    injection Hrun as <- <-.
    apply IH in H2. rewrite H2. cbn [heap list_to_set].
    rewrite dom_insert_L. simpl.
    by rewrite (assoc_L (∪)), (comm_L (∪) (dom (heap w))).
Qed.

End AllocationFacts.

Section SampleFacts.
Context {Sim Rng : Type} `{!MujocoEnv Sim, !RandomState Rng, !Numpy}.

(** The records that exist after [sample_tasks] are those that existed
    and those it returns. *)
Lemma vel_sample_tasks_dom n (w : World spec_float (AntVelEnv.t Sim Rng))
    ls w' :
  AntVelEnv.sample_tasks n w = (Ok ls, w') →
  dom (heap w') = dom (heap w) ∪ list_to_set ls.
Proof.
  destruct w as [h [[mj rng sc] tk g]]. unfold AntVelEnv.sample_tasks.
  intros Hrun. apply bind_Ok in Hrun as (xs & w1 & H1 & Hrun).
  rewrite vel_on_super_run in H1. unfold zoom in H1. cbn in H1.
  destruct (uniform _ _ _ _) as [xs' rng']. injection H1 as -> <-.
  apply bind_Ok in Hrun as (ls' & w2 & H2 & Hrun). injection Hrun as <- <-.
  by apply mapM_new_dict_dom in H2.
Qed.

Lemma dir_sample_tasks_dom n (w : World Z (AntDirEnv.t Sim Rng)) ls w' :
  AntDirEnv.sample_tasks n w = (Ok ls, w') →
  dom (heap w') = dom (heap w) ∪ list_to_set ls.
Proof.
  destruct w as [h [[mj rng sc] tk g]]. unfold AntDirEnv.sample_tasks.
  intros Hrun. apply bind_Ok in Hrun as (xs & w1 & H1 & Hrun).
  rewrite dir_on_super_run in H1. unfold zoom in H1. cbn in H1.
  destruct (binomial _ _ _ _) as [xs' rng']. injection H1 as <- <-.
  apply bind_Ok in Hrun as (ls' & w2 & H2 & Hrun). injection Hrun as <- <-.
  by apply mapM_new_dict_dom in H2.
Qed.

Lemma pos_sample_tasks_dom n
    (w : World (list spec_float) (AntPosEnv.t Sim Rng)) ls w' :
  AntPosEnv.sample_tasks n w = (Ok ls, w') →
  dom (heap w') = dom (heap w) ∪ list_to_set ls.
Proof.
  destruct w as [h [[mj rng sc] tk g]]. unfold AntPosEnv.sample_tasks.
  intros Hrun. apply bind_Ok in Hrun as (xs & w1 & H1 & Hrun).
  rewrite pos_on_super_run in H1. unfold zoom in H1. cbn in H1.
  destruct (uniform _ _ _ _) as [xs' rng']. injection H1 as <- <-.
  apply bind_Ok in Hrun as (ls' & w2 & H2 & Hrun). injection Hrun as <- <-.
  by apply mapM_new_dict_dom in H2.
Qed.

End SampleFacts.


(** ** The properties *)

Section Extras.
Context {Sim Rng : Type} `{!MujocoEnv Sim, !RandomState Rng, !Numpy}.

(** X1. How [step] fails. In each variant a [step] that raises has left
    the heap, the task and the goal as they were, and it raised in one of
    these ways: the engine raised, and that exception is passed on
    uncaught; or the engine has advanced the adapter and then the torso
    velocity has no first component ([IndexError]; in the position
    variant: the goal does not broadcast against the torso position,
    [ValueError]), the bounds of the action space do not broadcast
    ([ValueError], nothing cached), the action does not broadcast
    against the scaling ([ValueError]), or a finite state vector has no
    entry 2 ([IndexError]). *)
Theorem X1_step_failure_modes :
  (∀ a (w : World spec_float (AntVelEnv.t Sim Rng)) e w',
     AntVelEnv.step a w = (Raise e, w') →
     heap w' = heap w ∧
     AntVelEnv._task (self w') = AntVelEnv._task (self w) ∧
     AntVelEnv._goal_vel (self w') = AntVelEnv._goal_vel (self w) ∧
     (forward_dynamics a (AntVelEnv.mujoco w)
        = (Raise e, AntVelEnv.mujoco w') ∨
      forward_dynamics a (AntVelEnv.mujoco w)
        = (Ok tt, AntVelEnv.mujoco w') ∧
      ((e = IndexError ∧
        get_body_comvel "torso" (AntVelEnv.mujoco w') = []) ∨
       step_fails_after a e (AntVelEnv.mujoco w') (AntVelEnv.cache w')))) ∧
  (∀ a (w : World Z (AntDirEnv.t Sim Rng)) e w',
     AntDirEnv.step a w = (Raise e, w') →
     heap w' = heap w ∧
     AntDirEnv._task (self w') = AntDirEnv._task (self w) ∧
     AntDirEnv._goal_dir (self w') = AntDirEnv._goal_dir (self w) ∧
     (forward_dynamics a (AntDirEnv.mujoco w)
        = (Raise e, AntDirEnv.mujoco w') ∨
      forward_dynamics a (AntDirEnv.mujoco w)
        = (Ok tt, AntDirEnv.mujoco w') ∧
      ((e = IndexError ∧
        get_body_comvel "torso" (AntDirEnv.mujoco w') = []) ∨
       step_fails_after a e (AntDirEnv.mujoco w') (AntDirEnv.cache w')))) ∧
  (∀ a (w : World (list spec_float) (AntPosEnv.t Sim Rng)) e w',
     AntPosEnv.step a w = (Raise e, w') →
     heap w' = heap w ∧
     AntPosEnv._task (self w') = AntPosEnv._task (self w) ∧
     AntPosEnv._goal_pos (self w') = AntPosEnv._goal_pos (self w) ∧
     (forward_dynamics a (AntPosEnv.mujoco w)
        = (Raise e, AntPosEnv.mujoco w') ∨
      forward_dynamics a (AntPosEnv.mujoco w)
        = (Ok tt, AntPosEnv.mujoco w') ∧
      ((e = ValueError ∧ AntPosEnv.cache w' = AntPosEnv.cache w ∧
        broadcast F64.sub
          (take 2 (get_body_com "torso" (AntPosEnv.mujoco w')))
          (AntPosEnv._goal_pos (self w)) = Raise ValueError) ∨
       step_fails_after a e (AntPosEnv.mujoco w') (AntPosEnv.cache w')))).
Proof.
  unfold step_fails_after. split; [|split]; intros a w e w' Hs.
  - apply vel_step_raise in Hs as (Hh & Ht & Hg & Hc).
    repeat (split; [done|]). tauto.
  - apply dir_step_raise in Hs as (Hh & Ht & Hg & Hc).
    repeat (split; [done|]). tauto.
  - apply pos_step_raise in Hs as (Hh & Ht & Hg & Hc).
    repeat (split; [done|]). tauto.
Qed.

(** X2. What [step] never touches. In each variant a [step], whether it
    returns or raises, leaves the heap, the task, the goal and the random
    generator as they were, and a scaling that was cached is still the
    cached one. *)
Theorem X2_step_frame :
  (∀ a (w : World spec_float (AntVelEnv.t Sim Rng)),
     let w' := (AntVelEnv.step a w).2 in
     heap w' = heap w ∧
     AntVelEnv._task (self w') = AntVelEnv._task (self w) ∧
     AntVelEnv._goal_vel (self w') = AntVelEnv._goal_vel (self w) ∧
     AntEnv.np_random (AntVelEnv.super (self w'))
       = AntEnv.np_random (AntVelEnv.super (self w)) ∧
     (∀ v, AntVelEnv.cache w = Some v → AntVelEnv.cache w' = Some v)) ∧
  (∀ a (w : World Z (AntDirEnv.t Sim Rng)),
     let w' := (AntDirEnv.step a w).2 in
     heap w' = heap w ∧
     AntDirEnv._task (self w') = AntDirEnv._task (self w) ∧
     AntDirEnv._goal_dir (self w') = AntDirEnv._goal_dir (self w) ∧
     AntEnv.np_random (AntDirEnv.super (self w'))
       = AntEnv.np_random (AntDirEnv.super (self w)) ∧
     (∀ v, AntDirEnv.cache w = Some v → AntDirEnv.cache w' = Some v)) ∧
  (∀ a (w : World (list spec_float) (AntPosEnv.t Sim Rng)),
     let w' := (AntPosEnv.step a w).2 in
     heap w' = heap w ∧
     AntPosEnv._task (self w') = AntPosEnv._task (self w) ∧
     AntPosEnv._goal_pos (self w') = AntPosEnv._goal_pos (self w) ∧
     AntEnv.np_random (AntPosEnv.super (self w'))
       = AntEnv.np_random (AntPosEnv.super (self w)) ∧
     (∀ v, AntPosEnv.cache w = Some v → AntPosEnv.cache w' = Some v)).
Proof.
  split; [|split]; intros a w.
  - apply vel_step_frame.
  - apply dir_step_frame.
  - apply pos_step_frame.
Qed.

(** X3. [step] and the base class. In each variant, after a [step] that
    has returned, the scaling is cached: a read of [action_scaling]
    returns it without computing; the action broadcasts against it
    (same length, or one of the two of length 1) and the control entry of
    [infos] is the negated cost of their quotient; the observation that
    was returned is the one [get_current_obs] returns on the world the
    step has left; and the survival entry is 0.05. *)
Theorem X3_step_uses_cached_scaling_and_current_obs :
  (∀ a (w : World spec_float (AntVelEnv.t Sim Rng)) o r d i w',
     AntVelEnv.step a w = (Ok (o, r, d, i), w') →
     ∃ scaling quot,
       AntVelEnv.cache w' = Some scaling ∧
       AntVelEnv.on_super AntEnv.action_scaling w' = (Ok scaling, w') ∧
       broadcast F64.div a scaling = Ok quot ∧
       (length a = length scaling ∨ length a = 1%nat ∨
        length scaling = 1%nat) ∧
       AntVelEnv.reward_ctrl i = F64.neg (ctrl_cost_of quot) ∧
       AntVelEnv.on_super AntEnv.get_current_obs w' = (Ok o, w') ∧
       AntVelEnv.reward_survive i = F64.c_0_05) ∧
  (∀ a (w : World Z (AntDirEnv.t Sim Rng)) o r d i w',
     AntDirEnv.step a w = (Ok (o, r, d, i), w') →
     ∃ scaling quot,
       AntDirEnv.cache w' = Some scaling ∧
       AntDirEnv.on_super AntEnv.action_scaling w' = (Ok scaling, w') ∧
       broadcast F64.div a scaling = Ok quot ∧
       (length a = length scaling ∨ length a = 1%nat ∨
        length scaling = 1%nat) ∧
       AntDirEnv.reward_ctrl i = F64.neg (ctrl_cost_of quot) ∧
       AntDirEnv.on_super AntEnv.get_current_obs w' = (Ok o, w') ∧
       AntDirEnv.reward_survive i = F64.c_0_05) ∧
  (∀ a (w : World (list spec_float) (AntPosEnv.t Sim Rng)) o r d i w',
     AntPosEnv.step a w = (Ok (o, r, d, i), w') →
     ∃ scaling quot,
       AntPosEnv.cache w' = Some scaling ∧
       AntPosEnv.on_super AntEnv.action_scaling w' = (Ok scaling, w') ∧
       broadcast F64.div a scaling = Ok quot ∧
       (length a = length scaling ∨ length a = 1%nat ∨
        length scaling = 1%nat) ∧
       AntPosEnv.reward_ctrl i = F64.neg (ctrl_cost_of quot) ∧
       AntPosEnv.on_super AntEnv.get_current_obs w' = (Ok o, w') ∧
       AntPosEnv.reward_survive i = F64.c_0_05).
Proof.
  split; [|split]; intros a w o r d i w' Hs.
  - apply vel_step_inv in Hs
      as (mj & fv & sc & q & sup & _ & _ & Hsc & Hq & -> & Hmj & -> & -> & _).
    destruct (action_scaling_inv _ _ _ Hsc) as (_ & _ & Hc & _).
    specialize (Hc _ eq_refl). exists sc, q.
    destruct w as [h [sup0 tk g]].
    unfold AntVelEnv.cache, AntVelEnv.set_super. cbn.
    repeat split; try done.
    + by rewrite vel_on_super_run, (action_scaling_cached _ _ Hc).
    + by eapply broadcast_Ok_shape.
    + by rewrite vel_on_super_run, get_current_obs_run, Hmj.
  - apply dir_step_inv in Hs
      as (mj & fv & sc & q & sup & _ & _ & Hsc & Hq & -> & Hmj & -> & -> & _).
    destruct (action_scaling_inv _ _ _ Hsc) as (_ & _ & Hc & _).
    specialize (Hc _ eq_refl). exists sc, q.
    destruct w as [h [sup0 tk g]].
    unfold AntDirEnv.cache, AntDirEnv.set_super. cbn.
    repeat split; try done.
    + by rewrite dir_on_super_run, (action_scaling_cached _ _ Hc).
    + by eapply broadcast_Ok_shape.
    + by rewrite dir_on_super_run, get_current_obs_run, Hmj.
  - apply pos_step_inv in Hs
      as (mj & fv & sc & q & sup & _ & _ & Hsc & Hq & -> & Hmj & -> & -> & _).
    destruct (action_scaling_inv _ _ _ Hsc) as (_ & _ & Hc & _).
    specialize (Hc _ eq_refl). exists sc, q.
    destruct w as [h [sup0 tk g]].
    unfold AntPosEnv.cache, AntPosEnv.set_super. cbn.
    repeat split; try done.
    + by rewrite pos_on_super_run, (action_scaling_cached _ _ Hc).
    + by eapply broadcast_Ok_shape.
    + by rewrite pos_on_super_run, get_current_obs_run, Hmj.
Qed.

(** X4. The sign of the direction reward. In the direction variant the
    forward reward of a returning [step] is the torso's forward velocity
    itself when the goal direction is [+1] and its negation when it is
    [-1] (for a velocity that is a valid binary64 number). *)
Theorem X4_direction_reward_sign a (w : World Z (AntDirEnv.t Sim Rng))
    o r d i w' :
  AntDirEnv.step a w = (Ok (o, r, d, i), w') →
  ∃ forward_vel,
    get_body_comvel "torso" (AntDirEnv.mujoco w') !! 0%nat
      = Some forward_vel ∧
    (F64.valid forward_vel = true → AntDirEnv._goal_dir (self w) = 1 →
     AntDirEnv.reward_forward i = forward_vel) ∧
    (F64.valid forward_vel = true → AntDirEnv._goal_dir (self w) = -1 →
     AntDirEnv.reward_forward i = F64.neg forward_vel).
Proof.
  intros Hs. apply dir_step_inv in Hs
    as (mj & fv & sc & q & sup & _ & Hfv & _ & _ & -> & Hmj & _ & -> & _).
  exists fv. unfold AntDirEnv.mujoco. cbn. rewrite Hmj.
  split; [done|]. unfold dir_reward. split; intros Hv ->.
  - by apply mul_one.
  - by apply mul_minus_one.
Qed.

(** X5. The shape of the goal position. In the position variant the
    goal is subtracted from the first two coordinates of the torso with
    NumPy's broadcasting: a [step] that returns has a goal of as many
    components as were taken from the torso position, or one of the two
    has a single component; a goal [[g]] of one component is accepted and
    used for both coordinates; and a goal of neither one nor two
    components, against a torso position of at least two, makes [step]
    raise [ValueError] when the engine has already advanced, everything
    but the adapter's state being as before. *)
Theorem X5_position_goal_shape :
  (∀ a (w : World (list spec_float) (AntPosEnv.t Sim Rng)) o r d i w',
     AntPosEnv.step a w = (Ok (o, r, d, i), w') →
     let xy := take 2 (get_body_com "torso" (AntPosEnv.mujoco w')) in
     (length xy = length (AntPosEnv._goal_pos (self w)) ∨
      length xy = 1%nat ∨
      length (AntPosEnv._goal_pos (self w)) = 1%nat) ∧
     ∀ g x y rest,
       AntPosEnv._goal_pos (self w) = [g] →
       get_body_com "torso" (AntPosEnv.mujoco w') = x :: y :: rest →
       AntPosEnv.reward_goal i = pos_reward [F64.sub x g; F64.sub y g]) ∧
  (∀ a (w : World (list spec_float) (AntPosEnv.t Sim Rng)) mj,
     forward_dynamics a (AntPosEnv.mujoco w) = (Ok tt, mj) →
     (2 ≤ length (get_body_com "torso" mj))%nat →
     length (AntPosEnv._goal_pos (self w)) ≠ 2%nat →
     length (AntPosEnv._goal_pos (self w)) ≠ 1%nat →
     AntPosEnv.step a w
       = (Raise ValueError,
          mkWorld (heap w)
            (AntPosEnv.set_super
               (AntEnv.set_mujoco_env mj (AntPosEnv.super (self w)))
               (self w)))).
Proof.
  split.
  - intros a w o r d i w' Hs. apply pos_step_inv in Hs
      as (mj & diff & sc & q & sup & _ & Hdiff & _ & _ & -> & Hmj & _ & -> & _).
    unfold AntPosEnv.mujoco. cbn. rewrite Hmj. split.
    + by eapply broadcast_Ok_shape.
    + intros g x y rest Hg Hcom. rewrite Hg, Hcom in Hdiff.
      cbn in Hdiff. by injection Hdiff as <-.
  - intros a [h [[mj0 rng sc] tk g]] mj. unfold AntPosEnv.mujoco. cbn.
    intros Hfd Hcom Hg2 Hg1.
    pose (w1 := mkWorld h (AntPosEnv.mk (AntEnv.mk mj rng sc) tk g)).
    unfold AntPosEnv.step.
    rewrite (bind_run _ _ _ tt w1) by by rewrite pos_on_mujoco_run, Hfd.
    rewrite (bind_run _ _ w1 (get_body_com "torso" mj) w1)
      by by unfold w1; rewrite pos_on_mujoco_run.
    rewrite (bind_run _ _ w1 g w1) by reflexivity.
    apply bind_fail. unfold lift_res.
    rewrite broadcast_fails; [done| | |done].
    + rewrite length_take. lia.
    + rewrite length_take. lia.
Qed.

(** X6. The last [reset_task] wins. In each variant, for two records that
    hold the variant's key, [reset_task] of the first followed by
    [reset_task] of the second leaves the world that [reset_task] of the
    second alone leaves. *)
Theorem X6_reset_task_last_wins :
  (∀ (w : World spec_float (AntVelEnv.t Sim Rng)) l1 d1 v1 l2 d2 v2,
     heap w !! l1 = Some d1 → d1 !! "velocity" = Some v1 →
     heap w !! l2 = Some d2 → d2 !! "velocity" = Some v2 →
     (AntVelEnv.reset_task l1 ≫= λ _, AntVelEnv.reset_task l2) w
       = AntVelEnv.reset_task l2 w) ∧
  (∀ (w : World Z (AntDirEnv.t Sim Rng)) l1 d1 v1 l2 d2 v2,
     heap w !! l1 = Some d1 → d1 !! "direction" = Some v1 →
     heap w !! l2 = Some d2 → d2 !! "direction" = Some v2 →
     (AntDirEnv.reset_task l1 ≫= λ _, AntDirEnv.reset_task l2) w
       = AntDirEnv.reset_task l2 w) ∧
  (∀ (w : World (list spec_float) (AntPosEnv.t Sim Rng)) l1 d1 v1 l2 d2 v2,
     heap w !! l1 = Some d1 → d1 !! "position" = Some v1 →
     heap w !! l2 = Some d2 → d2 !! "position" = Some v2 →
     (AntPosEnv.reset_task l1 ≫= λ _, AntPosEnv.reset_task l2) w
       = AntPosEnv.reset_task l2 w).
Proof.
  split; [|split]; intros w l1 d1 v1 l2 d2 v2 H1 Hv1 H2 Hv2.
  - erewrite bind_run by by eapply vel_reset_task_run.
    by erewrite !vel_reset_task_run.
  - erewrite bind_run by by eapply dir_reset_task_run.
    by erewrite !dir_reset_task_run.
  - erewrite bind_run by by eapply pos_reset_task_run.
    by erewrite !pos_reset_task_run.
Qed.

(** X7. The constructor and [reset_task] agree. In each variant,
    constructing an instance with a record that holds the variant's key
    never raises, leaves the heap as it is, and sets the task and the
    goal as [reset_task] would: a [reset_task] of the same record on the
    new instance returns and changes nothing. *)
Theorem X7_constructor_agrees_with_reset_task :
  (∀ l d v base (h : gmap loc (gmap string spec_float)),
     h !! l = Some d → d !! "velocity" = Some v →
     let w := mkWorld h (AntVelEnv.mk (AntEnv.__init__ base) l v) in
     AntVelEnv.__init__ (Sim:=Sim) (Rng:=Rng) l base h = Ok w ∧
     AntVelEnv.reset_task l w = (Ok tt, w)) ∧
  (∀ l d v base (h : gmap loc (gmap string Z)),
     h !! l = Some d → d !! "direction" = Some v →
     let w := mkWorld h (AntDirEnv.mk (AntEnv.__init__ base) l v) in
     AntDirEnv.__init__ (Sim:=Sim) (Rng:=Rng) l base h = Ok w ∧
     AntDirEnv.reset_task l w = (Ok tt, w)) ∧
  (∀ l d v base (h : gmap loc (gmap string (list spec_float))),
     h !! l = Some d → d !! "position" = Some v →
     let w := mkWorld h (AntPosEnv.mk (AntEnv.__init__ base) l v) in
     AntPosEnv.__init__ (Sim:=Sim) (Rng:=Rng) l base h = Ok w ∧
     AntPosEnv.reset_task l w = (Ok tt, w)).
Proof.
  split; [|split]; intros l d v base h Hl Hv w; split.
  - unfold AntVelEnv.__init__, dict_get. by rewrite Hl, Hv.
  - by erewrite vel_reset_task_run.
  - unfold AntDirEnv.__init__, dict_get. by rewrite Hl, Hv.
  - by erewrite dir_reset_task_run.
  - unfold AntPosEnv.__init__, dict_get. by rewrite Hl, Hv.
  - by erewrite pos_reset_task_run.
Qed.

(** X8. The goal follows the task. In each variant the goal field of a
    new instance is what its task record gives (the value under the
    variant's key, or the default), and this stays so through every
    session of calls on the instance ([step], [sample_tasks],
    [reset_task], reads, methods of the adapter; returning or raising) in
    which no [reset_task] is given a record without the key. A
    [reset_task] with such a record breaks it, unless the goal happened
    to be the default. *)
Theorem X8_goal_follows_task :
  ((∀ l base h (w : World spec_float (AntVelEnv.t Sim Rng)),
      AntVelEnv.__init__ l base h = Ok w → vel_in_sync w) ∧
   (∀ cs (w : World spec_float (AntVelEnv.t Sim Rng)),
      vel_in_sync w → vel_calls_ok w cs →
      vel_in_sync (AntVelEnv.execs cs w)) ∧
   (∀ l d (w : World spec_float (AntVelEnv.t Sim Rng)),
      heap w !! l = Some d → d !! "velocity" = None →
      vel_in_sync (AntVelEnv.exec (AntVelEnv.Reset_task l) w) ↔
      AntVelEnv._goal_vel (self w) = F64.zero)) ∧
  ((∀ l base h (w : World Z (AntDirEnv.t Sim Rng)),
      AntDirEnv.__init__ l base h = Ok w → dir_in_sync w) ∧
   (∀ cs (w : World Z (AntDirEnv.t Sim Rng)),
      dir_in_sync w → dir_calls_ok w cs →
      dir_in_sync (AntDirEnv.execs cs w)) ∧
   (∀ l d (w : World Z (AntDirEnv.t Sim Rng)),
      heap w !! l = Some d → d !! "direction" = None →
      dir_in_sync (AntDirEnv.exec (AntDirEnv.Reset_task l) w) ↔
      AntDirEnv._goal_dir (self w) = 1)) ∧
  ((∀ l base h (w : World (list spec_float) (AntPosEnv.t Sim Rng)),
      AntPosEnv.__init__ l base h = Ok w → pos_in_sync w) ∧
   (∀ cs (w : World (list spec_float) (AntPosEnv.t Sim Rng)),
      pos_in_sync w → pos_calls_ok w cs →
      pos_in_sync (AntPosEnv.execs cs w)) ∧
   (∀ l d (w : World (list spec_float) (AntPosEnv.t Sim Rng)),
      heap w !! l = Some d → d !! "position" = None →
      pos_in_sync (AntPosEnv.exec (AntPosEnv.Reset_task l) w) ↔
      AntPosEnv._goal_pos (self w) = AntPosEnv.zeros2)).
Proof.
  split; [|split]; (split; [|split]).
  - intros l base h w. unfold AntVelEnv.__init__.
    destruct (h !! l) as [d|] eqn:Hl; [|done]. intros [= <-].
    by exists d.
  - intros cs. induction cs as [|c cs IH]; intros w Hs Hok; [done|].
    destruct Hok as [Hc Hok]. cbn [AntVelEnv.execs fold_left].
    apply IH; [by apply vel_exec_in_sync | done].
  - intros l d w Hl Hk. cbn [AntVelEnv.exec].
    rewrite (vel_reset_task_missing _ _ _ Hl Hk). unfold vel_in_sync.
    cbn. rewrite Hl. unfold dict_get. split.
    + intros (d' & [= <-] & Hg). by rewrite Hk in Hg.
    + intros Hg. exists d. by rewrite Hk.
  - intros l base h w. unfold AntDirEnv.__init__.
    destruct (h !! l) as [d|] eqn:Hl; [|done]. intros [= <-].
    by exists d.
  - intros cs. induction cs as [|c cs IH]; intros w Hs Hok; [done|].
    destruct Hok as [Hc Hok]. cbn [AntDirEnv.execs fold_left].
    apply IH; [by apply dir_exec_in_sync | done].
  - intros l d w Hl Hk. cbn [AntDirEnv.exec].
    rewrite (dir_reset_task_missing _ _ _ Hl Hk). unfold dir_in_sync.
    cbn. rewrite Hl. unfold dict_get. split.
    + intros (d' & [= <-] & Hg). by rewrite Hk in Hg.
    + intros Hg. exists d. by rewrite Hk.
  - intros l base h w. unfold AntPosEnv.__init__.
    destruct (h !! l) as [d|] eqn:Hl; [|done]. intros [= <-].
    by exists d.
  - intros cs. induction cs as [|c cs IH]; intros w Hs Hok; [done|].
    destruct Hok as [Hc Hok]. cbn [AntPosEnv.execs fold_left].
    apply IH; [by apply pos_exec_in_sync | done].
  - intros l d w Hl Hk. cbn [AntPosEnv.exec].
    rewrite (pos_reset_task_missing _ _ _ Hl Hk). unfold pos_in_sync.
    cbn. rewrite Hl. unfold dict_get. split.
    + intros (d' & [= <-] & Hg). by rewrite Hk in Hg.
    + intros Hg. exists d. by rewrite Hk.
Qed.

(** X9. After a [reset_task] that has raised. In each variant, when
    [reset_task] is given a record without the variant's key, the task
    has been replaced before the lookup raises, and the goal has not: the
    next [step] that returns reports the new record under [task] in
    [infos], and computes its task reward against the goal of the
    previous task. *)
Theorem X9_step_after_failed_reset_task :
  (∀ (w : World spec_float (AntVelEnv.t Sim Rng)) l d a o r dn i w2,
     heap w !! l = Some d → d !! "velocity" = None →
     AntVelEnv.step a (AntVelEnv.reset_task l w).2 = (Ok (o, r, dn, i), w2) →
     AntVelEnv.task i = l ∧
     ∃ forward_vel,
       get_body_comvel "torso" (AntVelEnv.mujoco w2) !! 0%nat
         = Some forward_vel ∧
       AntVelEnv.reward_forward i
         = vel_reward forward_vel (AntVelEnv._goal_vel (self w))) ∧
  (∀ (w : World Z (AntDirEnv.t Sim Rng)) l d a o r dn i w2,
     heap w !! l = Some d → d !! "direction" = None →
     AntDirEnv.step a (AntDirEnv.reset_task l w).2 = (Ok (o, r, dn, i), w2) →
     AntDirEnv.task i = l ∧
     ∃ forward_vel,
       get_body_comvel "torso" (AntDirEnv.mujoco w2) !! 0%nat
         = Some forward_vel ∧
       AntDirEnv.reward_forward i
         = dir_reward forward_vel (AntDirEnv._goal_dir (self w))) ∧
  (∀ (w : World (list spec_float) (AntPosEnv.t Sim Rng)) l d a o r dn i w2,
     heap w !! l = Some d → d !! "position" = None →
     AntPosEnv.step a (AntPosEnv.reset_task l w).2 = (Ok (o, r, dn, i), w2) →
     AntPosEnv.task i = l ∧
     ∃ diff,
       broadcast F64.sub
         (take 2 (get_body_com "torso" (AntPosEnv.mujoco w2)))
         (AntPosEnv._goal_pos (self w)) = Ok diff ∧
       AntPosEnv.reward_goal i = pos_reward diff).
Proof.
  split; [|split]; intros w l d a o r dn i w2 Hl Hk.
  - rewrite (vel_reset_task_missing _ _ _ Hl Hk). cbn [snd]. intros Hs.
    apply vel_step_inv in Hs
      as (mj & fv & sc & q & sup & _ & Hfv & _ & _ & -> & Hmj & _ & -> & _).
    split; [done|]. exists fv. unfold AntVelEnv.mujoco. cbn.
    by rewrite Hmj.
  - rewrite (dir_reset_task_missing _ _ _ Hl Hk). cbn [snd]. intros Hs.
    apply dir_step_inv in Hs
      as (mj & fv & sc & q & sup & _ & Hfv & _ & _ & -> & Hmj & _ & -> & _).
    split; [done|]. exists fv. unfold AntDirEnv.mujoco. cbn.
    by rewrite Hmj.
  - rewrite (pos_reset_task_missing _ _ _ Hl Hk). cbn [snd]. intros Hs.
    apply pos_step_inv in Hs
      as (mj & diff & sc & q & sup & _ & Hd & _ & _ & -> & Hmj & _ & -> & _).
    split; [done|]. exists diff. unfold AntPosEnv.mujoco. cbn.
    by rewrite Hmj.
Qed.

(** X10. [sample_tasks] makes new records and nothing else. In each
    variant [sample_tasks(n)] returns, whatever the generator; the
    records it returns did not exist before, the records that exist
    afterwards are those that existed, unchanged, and those it returns;
    the task, the goal, the adapter's state and the cached scaling of the
    instance are as before; and no later [sample_tasks], whatever calls
    are made in between, returns one of these records again. *)
Theorem X10_sample_tasks_fresh :
  (∀ n (w : World spec_float (AntVelEnv.t Sim Rng)),
     ∃ ls w',
       AntVelEnv.sample_tasks n w = (Ok ls, w') ∧
       Forall (λ l, heap w !! l = None) ls ∧
       dom (heap w') = dom (heap w) ∪ list_to_set ls ∧
       (∀ l d, heap w !! l = Some d → heap w' !! l = Some d) ∧
       AntVelEnv._task (self w') = AntVelEnv._task (self w) ∧
       AntVelEnv._goal_vel (self w') = AntVelEnv._goal_vel (self w) ∧
       AntVelEnv.mujoco w' = AntVelEnv.mujoco w ∧
       AntVelEnv.cache w' = AntVelEnv.cache w ∧
       ∀ cs m ls2 w2,
         AntVelEnv.sample_tasks m (AntVelEnv.execs cs w') = (Ok ls2, w2) →
         ∀ l, l ∈ ls → l ∉ ls2) ∧
  (∀ n (w : World Z (AntDirEnv.t Sim Rng)),
     ∃ ls w',
       AntDirEnv.sample_tasks n w = (Ok ls, w') ∧
       Forall (λ l, heap w !! l = None) ls ∧
       dom (heap w') = dom (heap w) ∪ list_to_set ls ∧
       (∀ l d, heap w !! l = Some d → heap w' !! l = Some d) ∧
       AntDirEnv._task (self w') = AntDirEnv._task (self w) ∧
       AntDirEnv._goal_dir (self w') = AntDirEnv._goal_dir (self w) ∧
       AntDirEnv.mujoco w' = AntDirEnv.mujoco w ∧
       AntDirEnv.cache w' = AntDirEnv.cache w ∧
       ∀ cs m ls2 w2,
         AntDirEnv.sample_tasks m (AntDirEnv.execs cs w') = (Ok ls2, w2) →
         ∀ l, l ∈ ls → l ∉ ls2) ∧
  (∀ n (w : World (list spec_float) (AntPosEnv.t Sim Rng)),
     ∃ ls w',
       AntPosEnv.sample_tasks n w = (Ok ls, w') ∧
       Forall (λ l, heap w !! l = None) ls ∧
       dom (heap w') = dom (heap w) ∪ list_to_set ls ∧
       (∀ l d, heap w !! l = Some d → heap w' !! l = Some d) ∧
       AntPosEnv._task (self w') = AntPosEnv._task (self w) ∧
       AntPosEnv._goal_pos (self w') = AntPosEnv._goal_pos (self w) ∧
       AntPosEnv.mujoco w' = AntPosEnv.mujoco w ∧
       AntPosEnv.cache w' = AntPosEnv.cache w ∧
       ∀ cs m ls2 w2,
         AntPosEnv.sample_tasks m (AntPosEnv.execs cs w') = (Ok ls2, w2) →
         ∀ l, l ∈ ls → l ∉ ls2).
Proof.
  split; [|split]; intros n w.
  - destruct (vel_sample_tasks_run n w)
      as (ls & w' & Hrun & Hall & Hnew & _ & Hold & Hself).
    exists ls, w'. split; [done|]. split; [done|].
    split; [by eapply vel_sample_tasks_dom|]. split; [done|].
    unfold AntVelEnv.mujoco, AntVelEnv.cache. rewrite Hself.
    destruct w as [h [[mj rng sc] tk g]]. cbn.
    repeat (split; [done|]).
    intros cs m ls2 w2 Hrun2 l Hin Hin2.
    destruct (vel_sample_tasks_run m (AntVelEnv.execs cs w'))
      as (ls2' & w2' & Hrun2' & _ & Hnew2 & _).
    rewrite Hrun2 in Hrun2'. injection Hrun2' as <- <-.
    apply list_elem_of_lookup in Hin as [k Hk].
    destruct (Forall2_lookup_l _ _ _ _ _ Hall Hk) as (v & _ & Hd).
    apply (vel_execs_keeps cs w') in Hd.
    rewrite Forall_forall in Hnew2. specialize (Hnew2 _ Hin2). congruence.
  - destruct (dir_sample_tasks_run n w)
      as (ls & w' & Hrun & Hall & Hnew & _ & Hold & Hself).
    exists ls, w'. split; [done|]. split; [done|].
    split; [by eapply dir_sample_tasks_dom|]. split; [done|].
    unfold AntDirEnv.mujoco, AntDirEnv.cache. rewrite Hself.
    destruct w as [h [[mj rng sc] tk g]]. cbn.
    repeat (split; [done|]).
    intros cs m ls2 w2 Hrun2 l Hin Hin2.
    destruct (dir_sample_tasks_run m (AntDirEnv.execs cs w'))
      as (ls2' & w2' & Hrun2' & _ & Hnew2 & _).
    rewrite Hrun2 in Hrun2'. injection Hrun2' as <- <-.
    apply list_elem_of_lookup in Hin as [k Hk].
    destruct (Forall2_lookup_l _ _ _ _ _ Hall Hk) as (v & _ & Hd).
    apply (dir_execs_keeps cs w') in Hd.
    rewrite Forall_forall in Hnew2. specialize (Hnew2 _ Hin2). congruence.
  - destruct (pos_sample_tasks_run n w)
      as (ls & w' & Hrun & Hall & Hnew & _ & Hold & Hself).
    exists ls, w'. split; [done|]. split; [done|].
    split; [by eapply pos_sample_tasks_dom|]. split; [done|].
    unfold AntPosEnv.mujoco, AntPosEnv.cache. rewrite Hself.
    destruct w as [h [[mj rng sc] tk g]]. cbn.
    repeat (split; [done|]).
    intros cs m ls2 w2 Hrun2 l Hin Hin2.
    destruct (pos_sample_tasks_run m (AntPosEnv.execs cs w'))
      as (ls2' & w2' & Hrun2' & _ & Hnew2 & _).
    rewrite Hrun2 in Hrun2'. injection Hrun2' as <- <-.
    apply list_elem_of_lookup in Hin as [k Hk].
    destruct (Forall2_lookup_l _ _ _ _ _ Hall Hk) as (v & _ & Hd).
    apply (pos_execs_keeps cs w') in Hd.
    rewrite Forall_forall in Hnew2. specialize (Hnew2 _ Hin2). congruence.
Qed.

(** X11. The observation is made of single-precision numbers.
    [get_current_obs] returns, on every state of the adapter, and leaves
    the instance as it is; the vector has one component per component of
    the five parts; every component is a binary32 number, so that the
    conversion applied once more changes nothing; and a component is NaN
    exactly when the corresponding component of the parts is. *)
Theorem X11_observation_is_float32 (s : AntEnv.t Sim Rng) :
  let mj := AntEnv.mujoco_env s in
  ∃ obs,
    AntEnv.get_current_obs s = (Ok obs, s) ∧
    length obs
      = (length (qpos mj) + length (qvel mj) + length (flat (cfrc_ext mj))
         + length (flat (get_body_xmat "torso" mj))
         + length (get_body_com "torso" mj))%nat ∧
    Forall (λ x, valid32 x = true) obs ∧
    astype_float32 obs = obs ∧
    Forall2 (λ part x, F64.is_nan x = F64.is_nan part) (obs_parts mj) obs.
Proof.
  intros mj. exists (astype_float32 (obs_parts mj)).
  split; [apply get_current_obs_run|]. unfold astype_float32.
  split; [|split; [|split]].
  - unfold obs_parts. rewrite length_map, !length_app, length_map. lia.
  - apply Forall_map, Forall_forall. intros x _. apply to_float32_valid.
  - rewrite <- list_fmap_compose. apply list_fmap_ext.
    intros k x _. apply to_float32_idem.
  - apply Forall2_fmap_r, Forall_Forall2_diag, Forall_forall.
    intros x _. apply to_float32_nan.
Qed.

(** X12. The termination test stops at the first failure. In each
    variant, when the state vector after the physics step has an entry
    that is not finite, [state[2]] is not evaluated: [step] returns
    [done = True], also on a state vector of fewer than three entries
    (on which a finite state makes it raise [IndexError]). *)
Theorem X12_done_without_reading_height :
  (∀ a (w : World spec_float (AntVelEnv.t Sim Rng)) mj fv scaling sup quot,
     forward_dynamics a (AntVelEnv.mujoco w) = (Ok tt, mj) →
     get_body_comvel "torso" mj !! 0%nat = Some fv →
     AntEnv.action_scaling
         (AntEnv.set_mujoco_env mj (AntVelEnv.super (self w)))
       = (Ok scaling, sup) →
     broadcast F64.div a scaling = Ok quot →
     all (np_isfinite (state_vector mj)) = false →
     ∃ o r i,
       AntVelEnv.step a w
         = (Ok (o, r, true, i),
            mkWorld (heap w) (AntVelEnv.set_super sup (self w)))) ∧
  (∀ a (w : World Z (AntDirEnv.t Sim Rng)) mj fv scaling sup quot,
     forward_dynamics a (AntDirEnv.mujoco w) = (Ok tt, mj) →
     get_body_comvel "torso" mj !! 0%nat = Some fv →
     AntEnv.action_scaling
         (AntEnv.set_mujoco_env mj (AntDirEnv.super (self w)))
       = (Ok scaling, sup) →
     broadcast F64.div a scaling = Ok quot →
     all (np_isfinite (state_vector mj)) = false →
     ∃ o r i,
       AntDirEnv.step a w
         = (Ok (o, r, true, i),
            mkWorld (heap w) (AntDirEnv.set_super sup (self w)))) ∧
  (∀ a (w : World (list spec_float) (AntPosEnv.t Sim Rng))
       mj diff scaling sup quot,
     forward_dynamics a (AntPosEnv.mujoco w) = (Ok tt, mj) →
     broadcast F64.sub (take 2 (get_body_com "torso" mj))
               (AntPosEnv._goal_pos (self w)) = Ok diff →
     AntEnv.action_scaling
         (AntEnv.set_mujoco_env mj (AntPosEnv.super (self w)))
       = (Ok scaling, sup) →
     broadcast F64.div a scaling = Ok quot →
     all (np_isfinite (state_vector mj)) = false →
     ∃ o r i,
       AntPosEnv.step a w
         = (Ok (o, r, true, i),
            mkWorld (heap w) (AntPosEnv.set_super sup (self w)))).
Proof.
  split; [|split]; intros a w mj x scaling sup quot Hfd Hx Hsc Hq Hall.
  - destruct (vel_step_run a w mj x scaling sup quot Hfd Hx Hsc Hq)
      as ([[[o r] d] i] & Hs); [by rewrite Hall|].
    exists o, r, i. rewrite Hs. do 3 f_equal.
    apply vel_step_inv in Hs
      as (mj' & _ & _ & _ & _ & Hfd' & _ & _ & _ & _ & _ & _ & _ & _ & ->).
    rewrite Hfd in Hfd'. injection Hfd' as <-.
    unfold notdone_of. by rewrite Hall.
  - destruct (dir_step_run a w mj x scaling sup quot Hfd Hx Hsc Hq)
      as ([[[o r] d] i] & Hs); [by rewrite Hall|].
    exists o, r, i. rewrite Hs. do 3 f_equal.
    apply dir_step_inv in Hs
      as (mj' & _ & _ & _ & _ & Hfd' & _ & _ & _ & _ & _ & _ & _ & _ & ->).
    rewrite Hfd in Hfd'. injection Hfd' as <-.
    unfold notdone_of. by rewrite Hall.
  - destruct (pos_step_run a w mj x scaling sup quot Hfd Hx Hsc Hq)
      as ([[[o r] d] i] & Hs); [by rewrite Hall|].
    exists o, r, i. rewrite Hs. do 3 f_equal.
    apply pos_step_inv in Hs
      as (mj' & _ & _ & _ & _ & Hfd' & _ & _ & _ & _ & _ & _ & _ & _ & ->).
    rewrite Hfd in Hfd'. injection Hfd' as <-.
    unfold notdone_of. by rewrite Hall.
Qed.


Context `{!RandomStateSpec Rng}.

(** X14. How many records [sample_tasks] makes. With a generator that
    returns as many draws as the shape it is given has entries, in each
    variant [sample_tasks(n)] adds exactly [n] records to those that
    exist; [sample_tasks(0)] returns the empty list and creates
    nothing. *)
Theorem X14_sample_tasks_count :
  (∀ n (w : World spec_float (AntVelEnv.t Sim Rng)),
     ∃ ls w',
       AntVelEnv.sample_tasks n w = (Ok ls, w') ∧
       size (heap w') = (size (heap w) + n)%nat ∧
       (n = 0%nat → ls = [] ∧ heap w' = heap w)) ∧
  (∀ n (w : World Z (AntDirEnv.t Sim Rng)),
     ∃ ls w',
       AntDirEnv.sample_tasks n w = (Ok ls, w') ∧
       size (heap w') = (size (heap w) + n)%nat ∧
       (n = 0%nat → ls = [] ∧ heap w' = heap w)) ∧
  (∀ n (w : World (list spec_float) (AntPosEnv.t Sim Rng)),
     ∃ ls w',
       AntPosEnv.sample_tasks n w = (Ok ls, w') ∧
       size (heap w') = (size (heap w) + n)%nat ∧
       (n = 0%nat → ls = [] ∧ heap w' = heap w)).
Proof.
  assert (Hgrow : ∀ V (h h' : gmap loc (gmap string V)) ls n,
    length ls = n → NoDup ls → Forall (λ l, h !! l = None) ls →
    dom h' = dom h ∪ list_to_set ls →
    (∀ l d, h !! l = Some d → h' !! l = Some d) →
    size h' = (size h + n)%nat ∧ (n = 0%nat → ls = [] ∧ h' = h)).
  { intros V h h' ls n Hlen Hnd Hnew Hdom Hold. split.
    - rewrite <- !size_dom, Hdom. rewrite size_union.
      + rewrite size_list_to_set by done. lia.
      + intros l Hl Hin. apply elem_of_list_to_set in Hin.
        rewrite Forall_forall in Hnew. apply elem_of_dom in Hl as [d Hd].
        specialize (Hnew _ Hin). congruence.
    - intros ->. apply nil_length_inv in Hlen. subst ls.
      split; [done|]. apply map_eq. intros l.
      destruct (h !! l) as [d|] eqn:Hl; [by apply Hold|].
      apply not_elem_of_dom. rewrite Hdom. simpl.
      rewrite (right_id_L ∅ (∪)). by apply not_elem_of_dom. }
  split; [|split]; intros n w.
  - destruct (vel_sample_tasks_run n w)
      as (ls & w' & Hrun & Hall & Hnew & Hnd & Hold & _).
    exists ls, w'. split; [done|].
    apply (Hgrow _ _ _ ls); try done; [|by eapply vel_sample_tasks_dom].
    rewrite (Forall2_length _ _ _ Hall), uniform_size. cbn. lia.
  - destruct (dir_sample_tasks_run n w)
      as (ls & w' & Hrun & Hall & Hnew & Hnd & Hold & _).
    exists ls, w'. split; [done|].
    apply (Hgrow _ _ _ ls); try done; [|by eapply dir_sample_tasks_dom].
    rewrite (Forall2_length _ _ _ Hall), binomial_size. cbn. lia.
  - destruct (pos_sample_tasks_run n w)
      as (ls & w' & Hrun & Hall & Hnew & Hnd & Hold & _).
    exists ls, w'. split; [done|].
    apply (Hgrow _ _ _ ls); try done; [|by eapply pos_sample_tasks_dom].
    by rewrite (Forall2_length _ _ _ Hall), rows_length.
Qed.

End Extras.

(* ================================================================== *)
(** * The further properties on the concrete world *)
(* ================================================================== *)

(** On a state vector of one finite entry [step] raises [IndexError],
    after the engine has advanced; the goal is as it was. *)
Lemma X1_witness :
  ∃ w',
    AntVelEnv.step [F64.zero] Demo.short_world = (Raise IndexError, w') ∧
    heap w' = heap Demo.short_world ∧
    AntVelEnv._goal_vel (self w') = F64.zero ∧
    forward_dynamics [F64.zero] (AntVelEnv.mujoco Demo.short_world)
      = (Ok tt, AntVelEnv.mujoco w') ∧
    (length (state_vector (AntVelEnv.mujoco w')) < 3)%nat.
Proof.
  eexists. split; [vm_compute; reflexivity|].
  edestruct (proj1 (X1_step_failure_modes (Sim:=Demo.sim) (Rng:=nat))
               [F64.zero] Demo.short_world) as (Hh & _ & Hg & Hc);
    [vm_compute; reflexivity|].
  split; [exact Hh|]. split; [exact Hg|].
  destruct Hc as [Hc|[Hfd Hc]]; [vm_compute in Hc; discriminate|].
  split; [exact Hfd|].
  destruct Hc as [[_ Hc]|Hc]; [vm_compute in Hc; discriminate|].
  destruct Hc as [[He _]|[[He _]|(_ & _ & Hlen)]];
    [discriminate He | discriminate He | exact Hlen].
Defined.

(** A second [step] finds the scaling that the first one has cached. *)
Lemma X2_witness :
  AntVelEnv.cache (AntVelEnv.step Demo.zero_action Demo.vel0).2
    = Some [F64.one; F64.one; F64.one] ∧
  AntVelEnv.cache
      (AntVelEnv.step Demo.unit_action
         (AntVelEnv.step Demo.zero_action Demo.vel0).2).2
    = Some [F64.one; F64.one; F64.one] ∧
  heap (AntVelEnv.step Demo.unit_action
          (AntVelEnv.step Demo.zero_action Demo.vel0).2).2
    = heap (AntVelEnv.step Demo.zero_action Demo.vel0).2.
Proof.
  destruct (proj1 (X2_step_frame (Sim:=Demo.sim) (Rng:=nat))
              Demo.unit_action
              (AntVelEnv.step Demo.zero_action Demo.vel0).2)
    as (Hh & _ & _ & _ & Hc).
  split; [vm_compute; reflexivity|].
  split; [apply Hc; vm_compute; reflexivity | exact Hh].
Defined.

(** After a first [step] the scaling [1, 1, 1] is cached, and the
    observation returned is the current one. *)
Lemma X3_witness :
  ∃ o r d i w',
    AntVelEnv.step Demo.zero_action Demo.vel0 = (Ok (o, r, d, i), w') ∧
    AntVelEnv.cache w' = Some [F64.one; F64.one; F64.one] ∧
    AntVelEnv.on_super AntEnv.get_current_obs w' = (Ok o, w') ∧
    AntVelEnv.reward_survive i = F64.c_0_05.
Proof.
  eexists _, _, _, _, _. split; [vm_compute; reflexivity|].
  edestruct (proj1 (X3_step_uses_cached_scaling_and_current_obs
                      (Sim:=Demo.sim) (Rng:=nat))
               Demo.zero_action Demo.vel0)
    as (scaling & quot & Hc & _ & _ & _ & _ & Hobs & Hsurv);
    [vm_compute; reflexivity|].
  split; [vm_compute; reflexivity|]. split; [exact Hobs | exact Hsurv].
Defined.

(** Heading backward at unit speed forward: the forward reward is -1. *)
Lemma X4_witness :
  ∃ o r d i w',
    AntDirEnv.step Demo.unit_action Demo.dir_back = (Ok (o, r, d, i), w') ∧
    AntDirEnv.reward_forward i = F64.minus_one.
Proof.
  eexists _, _, _, _, _. split; [vm_compute; reflexivity|].
  edestruct (X4_direction_reward_sign (Sim:=Demo.sim) (Rng:=nat)
               Demo.unit_action Demo.dir_back) as (fv & Hfv & _ & Hneg);
    [vm_compute; reflexivity|].
  vm_compute in Hfv. injection Hfv as <-.
  exact (Hneg eq_refl eq_refl).
Defined.

(** A goal [[2.0]] is used for both coordinates; a goal of three
    coordinates makes [step] raise. *)
Lemma X5_witness :
  (∃ o r d i w',
     AntPosEnv.step Demo.unit_action Demo.pos_one = (Ok (o, r, d, i), w') ∧
     AntPosEnv.reward_goal i
       = pos_reward [F64.sub F64.one F64.c_2_0;
                     F64.sub F64.zero F64.c_2_0]) ∧
  (AntPosEnv.step Demo.zero_action Demo.pos_three).1 = Raise ValueError.
Proof.
  split.
  - eexists _, _, _, _, _. split; [vm_compute; reflexivity|].
    edestruct (proj1 (X5_position_goal_shape (Sim:=Demo.sim) (Rng:=nat))
                 Demo.unit_action Demo.pos_one) as [_ Hg];
      [vm_compute; reflexivity|].
    apply (Hg F64.c_2_0 F64.one F64.zero [F64.c_0_5]);
      vm_compute; reflexivity.
  - rewrite (proj2 (X5_position_goal_shape (Sim:=Demo.sim) (Rng:=nat))
               Demo.zero_action Demo.pos_three Demo.sim0);
      [reflexivity | vm_compute; reflexivity | cbn; lia
      | cbn; lia | cbn; lia].
Defined.

(** [reset_task] to 2.0 and then to 0.5, and [reset_task] to 0.5. *)
Lemma X6_witness :
  (AntVelEnv.reset_task 1%nat ≫= λ _, AntVelEnv.reset_task 2%nat) Demo.vel2
    = AntVelEnv.reset_task 2%nat Demo.vel2 ∧
  AntVelEnv._goal_vel (self (AntVelEnv.reset_task 2%nat Demo.vel2).2)
    = F64.c_0_5.
Proof.
  split; [|vm_compute; reflexivity].
  eapply (proj1 (X6_reset_task_last_wins (Sim:=Demo.sim) (Rng:=nat)));
    vm_compute; reflexivity.
Defined.

(** Constructed with [{'velocity': 2.0}]. *)
Lemma X7_witness :
  AntVelEnv.__init__ 1%nat Demo.base0 (heap Demo.vel1)
    = Ok (mkWorld (heap Demo.vel1)
            (AntVelEnv.mk (AntEnv.__init__ Demo.base0) 1%nat F64.c_2_0)) ∧
  AntVelEnv.reset_task 1%nat
      (mkWorld (heap Demo.vel1)
         (AntVelEnv.mk (AntEnv.__init__ Demo.base0) 1%nat F64.c_2_0))
    = (Ok tt,
       mkWorld (heap Demo.vel1)
         (AntVelEnv.mk (AntEnv.__init__ Demo.base0) 1%nat F64.c_2_0)).
Proof.
  epose proof (proj1 (X7_constructor_agrees_with_reset_task
                        (Sim:=Demo.sim) (Rng:=nat))
                 1%nat _ _ Demo.base0 (heap Demo.vel1)) as H.
  destruct H as [Hi Hr];
    [vm_compute; reflexivity | vm_compute; reflexivity |].
  split; [exact Hi | exact Hr].
Defined.

(** A session with a [reset_task] to [{'velocity': 2.0}] keeps the goal
    in step with the task; a [reset_task] to [{}] after it does not. *)
Lemma X8_witness :
  vel_in_sync Demo.vel0 ∧
  vel_in_sync
    (AntVelEnv.execs
       [AntVelEnv.Sample_tasks 2; AntVelEnv.Reset_task 1%nat;
        AntVelEnv.Step Demo.zero_action] Demo.vel1) ∧
  ¬ vel_in_sync
      (AntVelEnv.exec (AntVelEnv.Reset_task 0%nat)
         (AntVelEnv.exec (AntVelEnv.Reset_task 1%nat) Demo.vel1)).
Proof.
  destruct (proj1 (X8_goal_follows_task (Sim:=Demo.sim) (Rng:=nat)))
    as (Hinit & Hrun & Hbreak).
  split; [apply (Hinit 0%nat Demo.base0 Demo.heap0); reflexivity|].
  split.
  - apply Hrun.
    + apply (Hinit 0%nat Demo.base0 (heap Demo.vel1)).
      vm_compute; reflexivity.
    + split; [exact I|].
      split; [eexists; split; [vm_compute; reflexivity|];
              eexists; vm_compute; reflexivity|].
      split; exact I.
  - intros Hs. apply (Hbreak 0%nat ∅) in Hs;
      [|vm_compute; reflexivity|vm_compute; reflexivity].
    vm_compute in Hs. discriminate Hs.
Defined.

(** After [reset_task({'velocity': 2.0})], a [reset_task({})] raises;
    the next [step] reports [{}] as its task and rewards against 2.0. *)
Lemma X9_witness :
  ∃ o r dn i w2,
    (AntVelEnv.reset_task 0%nat
       (AntVelEnv.reset_task 1%nat Demo.vel1).2).1 = Raise KeyError ∧
    AntVelEnv.step Demo.zero_action
        (AntVelEnv.reset_task 0%nat
           (AntVelEnv.reset_task 1%nat Demo.vel1).2).2
      = (Ok (o, r, dn, i), w2) ∧
    AntVelEnv.task i = 0%nat ∧
    AntVelEnv.reward_forward i = vel_reward F64.zero F64.c_2_0.
Proof.
  eexists _, _, _, _, _. split; [vm_compute; reflexivity|].
  split; [vm_compute; reflexivity|].
  epose proof (proj1 (X9_step_after_failed_reset_task
                        (Sim:=Demo.sim) (Rng:=nat))
                 (AntVelEnv.reset_task 1%nat Demo.vel1).2 0%nat _
                 Demo.zero_action) as H.
  edestruct H as (Ht & fv & Hfv & Hr);
    [vm_compute; reflexivity | vm_compute; reflexivity
    | vm_compute; reflexivity |].
  split; [exact Ht|].
  vm_compute in Hfv. injection Hfv as <-. exact Hr.
Defined.

(** Two records sampled beside the two that exist: they are new, and a
    later [sample_tasks] does not return them. *)
Lemma X10_witness :
  ∃ w',
    AntVelEnv.sample_tasks 2 Demo.vel1 = (Ok [2%nat; 3%nat], w') ∧
    heap Demo.vel1 !! 2%nat = None ∧
    AntVelEnv._goal_vel (self w') = F64.zero ∧
    ∀ ls2 w2,
      AntVelEnv.sample_tasks 3
          (AntVelEnv.execs [AntVelEnv.Step Demo.zero_action;
                            AntVelEnv.Reset_task 2%nat] w')
        = (Ok ls2, w2) →
      2%nat ∉ ls2.
Proof.
  destruct (proj1 (X10_sample_tasks_fresh (Sim:=Demo.sim) (Rng:=nat))
              2%nat Demo.vel1)
    as (ls & w' & Hrun & Hnew & _ & _ & _ & Hg & _ & _ & Hlater).
  assert (Hls : ls = [2%nat; 3%nat]).
  { apply (f_equal fst) in Hrun. vm_compute in Hrun.
    by injection Hrun as <-. }
  subst ls. exists w'. split; [exact Hrun|].
  split; [by apply Forall_cons in Hnew as [? _]|].
  split; [exact Hg|].
  intros ls2 w2 Hrun2. eapply Hlater; [exact Hrun2|]. by left.
Defined.

(** A NaN in a state vector of two entries: [done] is true and no
    [IndexError] is raised. *)
Lemma X12_witness :
  ∃ o r i w',
    AntVelEnv.step [F64.zero] Demo.nan_world = (Ok (o, r, true, i), w') ∧
    length (state_vector (AntVelEnv.mujoco w')) = 2%nat.
Proof.
  edestruct (proj1 (X12_done_without_reading_height
                      (Sim:=Demo.sim) (Rng:=nat))
               [F64.zero] Demo.nan_world) as (o & r & i & Hs);
    [vm_compute; reflexivity .. |].
  exists o, r, i. eexists. split; [exact Hs|]. vm_compute; reflexivity.
Defined.

(** With the alternating generator: no record for a count of 0, three
    more records for a count of 3. *)
Lemma X14_witness :
  (∃ w', AntDirEnv.sample_tasks 0 Demo.dir0 = (Ok [], w') ∧
         heap w' = heap Demo.dir0) ∧
  (∃ ls w', AntVelEnv.sample_tasks 3 Demo.vel0 = (Ok ls, w') ∧
            size (heap w') = 4%nat).
Proof.
  split.
  - destruct (proj1 (proj2 (X14_sample_tasks_count (Sim:=Demo.sim) (Rng:=nat)))
                0%nat Demo.dir0) as (ls & w' & Hrun & _ & Hz).
    destruct (Hz eq_refl) as [-> Hh]. by exists w'.
  - destruct (proj1 (X14_sample_tasks_count (Sim:=Demo.sim) (Rng:=nat))
                3%nat Demo.vel0) as (ls & w' & Hrun & Hsize & _).
    exists ls, w'. split; [exact Hrun | exact Hsize].
Defined.
